(** * Focusmunk: the blocking decision core of the browser extension

    A shallow embedding of [extension/scripts/background.js] (the
    server-configured background worker) and of the older local-settings
    worker ([background.js] of the first version, with [shouldBlockUrl]),
    with the parts of their callers that decide something: the content
    script on YouTube pages, the popup's [render] and the block page of the
    first version; followed by the properties of the decision engine.

    Conventions of the embedding.
    - A JavaScript string is a [string]: a sequence of code units below 256.
    - A JavaScript number that counts seconds is a rational [Q]; the rounding
      of IEEE doubles is not modelled.  A clock reading ([Date.now()],
      [new Date()]) is an integer [Z] of milliseconds.
    - [null] and [undefined] are [None].
    - The module-level [let] variables of the worker are the fields of
      [State]; a function that reads them takes the state, a function that
      writes them returns the new one.  A function that reads the clock takes
      the reading [now].
    - [chrome.storage.local] serves its requests in the order they are
      issued: a read is answered with the storage as it was when the read
      was issued, also when a write is issued before the answer arrives. *)

From Stdlib Require Import Bool List ZArith QArith Qminmax Qround Lia Lqa.
From Stdlib Require Import Ascii String DecimalString.
Import ListNotations.

Local Open Scope string_scope.
Local Open Scope Z_scope.

(* ================================================================= *)
(** ** JavaScript primitives used by the worker *)

Module Js.

(** [String.prototype.toLowerCase] on code units below 256: the letters
    A-Z and the capital letters of the Latin-1 block (all of U+00C0-U+00DE
    but the multiplication sign U+00D7) move up by 32. *)
Definition lower_unit (c : ascii) : ascii :=
  let n := N_of_ascii c in
  if ((65 <=? n) && (n <=? 90))%N
     || ((192 <=? n) && (n <=? 222) && negb (n =? 215))%N
  then ascii_of_N (n + 32) else c.

Fixpoint toLowerCase (s : string) : string :=
  match s with
  | EmptyString => EmptyString
  | String c s' => String (lower_unit c) (toLowerCase s')
  end.

(** A code unit that lower-casing leaves alone. *)
Definition lowered (c : ascii) : bool := Ascii.eqb (lower_unit c) c.

(** White space and line terminators below 256: TAB, LF, VT, FF, CR, SP
    and NBSP. *)
Definition is_space (c : ascii) : bool :=
  let n := N_of_ascii c in
  ((9 <=? n) && (n <=? 13) || (n =? 32) || (n =? 160))%N.

Fixpoint trimStart (s : string) : string :=
  match s with
  | EmptyString => EmptyString
  | String c s' => if is_space c then trimStart s' else s
  end.

Fixpoint trimEnd (s : string) : string :=
  match s with
  | EmptyString => EmptyString
  | String c s' =>
      match trimEnd s' with
      | EmptyString => if is_space c then EmptyString else String c EmptyString
      | r => String c r
      end
  end.

Definition trim (s : string) : string := trimEnd (trimStart s).

(** [s.startsWith(p)] *)
Definition startsWith (s p : string) : bool := String.prefix p s.

(** [s.includes(sub)] *)
Fixpoint includes (s sub : string) : bool :=
  String.prefix sub s
  || match s with
     | EmptyString => false
     | String _ s' => includes s' sub
     end.

(** [sub] occurs in [s]: what [includes] decides. *)
Definition Contains (s sub : string) : Prop :=
  exists before after, s = (before ++ sub ++ after)%string.

(** The rest of [s] after the literal prefix [p], when [s] starts with it. *)
Fixpoint strip (p s : string) : option string :=
  match p, s with
  | EmptyString, _ => Some s
  | String a p', String b s' => if Ascii.eqb a b then strip p' s' else None
  | String _ _, EmptyString => None
  end.

(** [s.replace(/^(p1|p2|...)/, '')] for literal alternatives: the first
    alternative that is a prefix of [s] is removed. *)
Fixpoint replacePrefix (alts : list string) (s : string) : string :=
  match alts with
  | [] => s
  | p :: rest =>
      match strip p s with
      | Some s' => s'
      | None => replacePrefix rest s
      end
  end.

(** [s.split(sep)[0]] for a one-character separator. *)
Fixpoint splitHead (sep : ascii) (s : string) : string :=
  match s with
  | EmptyString => EmptyString
  | String c s' => if Ascii.eqb c sep then EmptyString else String c (splitHead sep s')
  end.

(** Truthiness of a string, of an optional string and of an optional
    number. *)
Definition nonempty (s : string) : bool := negb (s =? "")%string.

Definition truthyStr (v : option string) : bool :=
  match v with
  | Some s => nonempty s
  | None => false
  end.

Definition truthyNum (v : option Z) : bool :=
  match v with
  | Some n => negb (n =? 0)%Z
  | None => false
  end.

(** [v || null] on an optional string and on an optional number. *)
Definition orNullStr (v : option string) : option string :=
  if truthyStr v then v else None.

Definition orNullNum (v : option Z) : option Z :=
  if truthyNum v then v else None.

(** [Array.prototype.some] *)
Definition some {A} (f : A -> bool) (l : list A) : bool := existsb f l.

(** [x > 0] on numbers. *)
Definition positive (x : Q) : bool := negb (Qle_bool x 0).

(** The value of [new Date(v)] for a truthy [v]: a time value in
    milliseconds, or an invalid date (time value NaN). *)
Inductive Date : Type :=
| ValidDate (ms : Z)
| InvalidDate.

(** [new Date() < d], with the clock at [now]: a comparison with NaN is
    false. *)
Definition nowBefore (now : Z) (d : Date) : bool :=
  match d with
  | ValidDate ms => now <? ms
  | InvalidDate => false
  end.

(** Every code unit of [s] passes the test [f]. *)
Fixpoint allUnits (f : ascii -> bool) (s : string) : bool :=
  match s with
  | EmptyString => true
  | String c s' => f c && allUnits f s'
  end.

(** [Math.ceil] *)
Definition ceil (x : Q) : Z := Qceiling x.

(** A whole number joined to a string: its decimal digits (the numbers of
    the worker stay far below 10^21, where JavaScript changes notation). *)
Definition showNumber (n : Z) : string := NilZero.string_of_int (Z.to_int n).

End Js.

(* ================================================================= *)
(** ** The cached configuration and the worker's variables *)

(** The configuration object the server returns for [GET /config/:id], with
    the fields the worker reads.  [enabled] is the enforcement flag of the
    snapshot; [disabledUntil] holds the date [new Date(config.disabledUntil)]
    of a truthy value, [None] stands for an absent or falsy one. *)
Record Config : Type := mkConfig {
  enabled : option bool;
  whitelist : option (list string);
  freeTimeStartedAt : option string;
  freeTimeRemaining : option Q;
  disabledUntil : option Js.Date;
  youtubeCreators : option (list string);
  youtubeKeywords : option (list string)
}.

(** [let apiUrl, configId, config, storageLoaded, lastSyncTime]. *)
Record State : Type := mkState {
  apiUrl : option string;
  configId : option string;
  config : option Config;
  storageLoaded : bool;
  lastSyncTime : option Z
}.

(** The state with another cached configuration, and a configuration with
    another value of its [enabled] field. *)
Definition withConfig (st : State) (c : option Config) : State :=
  {| apiUrl := apiUrl st; configId := configId st; config := c;
     storageLoaded := storageLoaded st; lastSyncTime := lastSyncTime st |}.

Definition withEnabled (e : option bool) (c : Config) : Config :=
  {| enabled := e; whitelist := whitelist c;
     freeTimeStartedAt := freeTimeStartedAt c;
     freeTimeRemaining := freeTimeRemaining c; disabledUntil := disabledUntil c;
     youtubeCreators := youtubeCreators c; youtubeKeywords := youtubeKeywords c |}.

(** A configuration with another allow-list. *)
Definition withAllowList (l : list string) (c : Config) : Config :=
  {| enabled := enabled c; whitelist := Some l;
     freeTimeStartedAt := freeTimeStartedAt c;
     freeTimeRemaining := freeTimeRemaining c; disabledUntil := disabledUntil c;
     youtubeCreators := youtubeCreators c; youtubeKeywords := youtubeKeywords c |}.

(** The values of the variables when the script starts. *)
Definition initialState : State :=
  {| apiUrl := None; configId := None; config := None;
     storageLoaded := false; lastSyncTime := None |}.

(* ================================================================= *)
(** ** Budget tracker *)

(** [(Date.now() - lastSyncTime) / 1000] *)
Definition secondsSinceSync (now t : Z) : Q := inject_Z (now - t) / inject_Z 1000.

(** [config.freeTimeRemaining || 0] *)
Definition serverRemaining (c : Config) : Q :=
  match freeTimeRemaining c with
  | Some q => q
  | None => 0%Q
  end.

(** [config.disabledUntil && new Date() < new Date(config.disabledUntil)] *)
Definition disabledNow (c : Config) (now : Z) : bool :=
  match disabledUntil c with
  | Some d => Js.nowBefore now d
  | None => false
  end.

Definition isFreeTime (st : State) (now : Z) : bool :=
  match config st with
  | None => false
  | Some c =>
      if disabledNow c now then true
      else
        match freeTimeStartedAt c with
        | Some _ =>
            match lastSyncTime st with
            | Some t =>
                if negb (t =? 0)
                then Js.positive (serverRemaining c - secondsSinceSync now t)
                else Js.positive (serverRemaining c)
            | None => Js.positive (serverRemaining c)
            end
        | None => false
        end
  end.

Definition getLocalRemainingSeconds (st : State) (now : Z) : Q :=
  match config st with
  | None => 0%Q
  | Some c =>
      if Js.truthyNum (lastSyncTime st) && Js.truthyStr (freeTimeStartedAt c)
      then
        match lastSyncTime st with
        | Some t => Qmax 0 (serverRemaining c - secondsSinceSync now t)
        | None => serverRemaining c
        end
      else serverRemaining c
  end.

Definition isTemporarilyDisabled (st : State) (now : Z) : bool :=
  match config st with
  | None => false
  | Some c => disabledNow c now
  end.

(* ================================================================= *)
(** ** Services of the browser *)

(** The [hostname] and [pathname] of a parsed [URL]. *)
Record URL : Type := mkURL {
  hostname : string;
  pathname : string
}.

(** What the worker takes from the platform.
    - [RegExp_new p i] is [new RegExp(p, i ? 'i' : '')]; [None] when the
      constructor throws (the pattern does not compile).
    - [RegExp_test re s] is [re.test(s)].
    - [URL_parse s] is [new URL(s)]; [None] when it throws.
    - [runtime_getURL path] is [chrome.runtime.getURL(path)]. *)
Class Platform : Type := {
  RegExp : Type;
  RegExp_new : string -> bool -> option RegExp;
  RegExp_test : RegExp -> string -> bool;
  URL_parse : string -> option URL;
  runtime_getURL : string -> string
}.

Module Uri.

Definition hexDigit (n : N) : ascii :=
  if (n <? 10)%N then ascii_of_N (48 + n) else ascii_of_N (55 + n).

Definition pct (n : N) : string :=
  String "%" (String (hexDigit (n / 16)) (String (hexDigit (n mod 16)) EmptyString)).

(** The characters [encodeURIComponent] leaves alone:
    [A-Z a-z 0-9 - _ . ! ~ * ' ( )]. *)
Definition unreserved (c : ascii) : bool :=
  let n := N_of_ascii c in
  (((65 <=? n) && (n <=? 90)) || ((97 <=? n) && (n <=? 122))
   || ((48 <=? n) && (n <=? 57))
   || (n =? 45) || (n =? 95) || (n =? 46) || (n =? 33) || (n =? 126)
   || (n =? 42) || (n =? 39) || (n =? 40) || (n =? 41))%N.

(** A code unit below 128 is one UTF-8 byte, one from 128 to 255 is two. *)
Definition encodeUnit (c : ascii) : string :=
  let n := N_of_ascii c in
  if unreserved c then String c EmptyString
  else if (n <? 128)%N then pct n
  else pct (192 + n / 64) ++ pct (128 + n mod 64).

Fixpoint encodeURIComponent (s : string) : string :=
  match s with
  | EmptyString => EmptyString
  | String c s' => encodeUnit c ++ encodeURIComponent s'
  end.

End Uri.

(** A value interpolated in a template literal: [null] prints as "null". *)
Definition interpolate (v : option string) : string :=
  match v with
  | Some s => s
  | None => "null"
  end.

(** How an awaited [fetch] followed by [res.json()] ends: the fetch rejects
    (server unreachable, request aborted), or a response with a status
    arrives whose body parses to a value ([Some]) or does not ([None]). *)
Inductive FetchResult (A : Type) : Type :=
| FetchRejected
| FetchResponse (status : Z) (body : option A).

Arguments FetchRejected {A}.
Arguments FetchResponse {A} status body.

(** [res.ok]: the status is in the range 200-299. *)
Definition statusOk (status : Z) : bool := (200 <=? status) && (status <=? 299).

(** A content lookup fails when the fetch rejects or the response is not
    OK. *)
Definition lookupFails {A} (r : FetchResult A) : bool :=
  match r with
  | FetchRejected => true
  | FetchResponse status _ => negb (statusOk status)
  end.

(** A refresh ends in neither success nor "not found" when the fetch
    rejects (server unreachable, timeout), the body of an OK response does
    not parse, or the status is neither OK nor 404. *)
Definition refreshFails {A} (r : FetchResult A) : bool :=
  match r with
  | FetchRejected => true
  | FetchResponse status body =>
      if statusOk status then
        match body with
        | Some _ => false
        | None => true
        end
      else negb (status =? 404)
  end.

(** Exceptions, and the completion of a block that may throw. *)
Inductive Exn : Type :=
| NetworkError
| JsonError
| TypeError.

Inductive Completion (A : Type) : Type :=
| Normal (a : A)
| Throw (e : Exn).

Arguments Normal {A} a.
Arguments Throw {A} e.

Definition bind {A B} (m : Completion A) (k : A -> Completion B) : Completion B :=
  match m with
  | Normal a => k a
  | Throw e => Throw e
  end.

Notation "x <- m ;; k" := (bind m (fun x => k))
  (at level 61, m at next level, right associativity).

(** [try { body } catch (e) { handler }] *)
Definition tryCatch {A} (body : Completion A) (handler : Exn -> Completion A)
  : Completion A :=
  match body with
  | Normal a => Normal a
  | Throw e => handler e
  end.

(** [await fetch(...)] and [await res.json()] on a settled request. *)
Definition awaitFetch {A} (r : FetchResult A) : Completion (Z * option A) :=
  match r with
  | FetchRejected => Throw NetworkError
  | FetchResponse status body => Normal (status, body)
  end.

Definition awaitJson {A} (body : option A) : Completion A :=
  match body with
  | Some v => Normal v
  | None => Throw JsonError
  end.

(* ================================================================= *)
(** ** Rule evaluator *)

Section Evaluator.

Context {browser : Platform}.

(** The callback of [matchesWhitelist]: the pattern as a case-insensitive
    regular expression, or, when it does not compile, as a piece of text
    looked for in the URL. *)
Definition patternTest (url pattern : string) : bool :=
  match RegExp_new pattern true with
  | Some re => RegExp_test re url
  | None => Js.includes (Js.toLowerCase url) (Js.toLowerCase pattern)
  end.

Definition matchesWhitelist (st : State) (url : string) : bool :=
  match config st with
  | None => false
  | Some c =>
      match whitelist c with
      | None => false
      | Some patterns => Js.some (patternTest url) patterns
      end
  end.

Definition youtubeHost (h : string) : bool :=
  (h =? "www.youtube.com")%string || (h =? "youtube.com")%string.

Definition isYouTubeVideo (url : string) : bool :=
  match URL_parse url with
  | Some u => youtubeHost (hostname u) && (pathname u =? "/watch")%string
  | None => false
  end.

Definition isYouTubeAllowedPage (url : string) : bool :=
  match URL_parse url with
  | Some u =>
      if negb (youtubeHost (hostname u)) then false
      else if (pathname u =? "/")%string || (pathname u =? "")%string
              || (pathname u =? "/results")%string then true
      else if Js.startsWith (pathname u) "/@" || Js.startsWith (pathname u) "/c/"
              || Js.startsWith (pathname u) "/channel/"
              || Js.startsWith (pathname u) "/user/" then true
      else false
  | None => false
  end.

(** The URLs [shouldBlock] never blocks. *)
Definition internalUrl (url : string) : bool :=
  Js.startsWith url "chrome://" || Js.startsWith url "chrome-extension://".

(** [true] is Block, [false] is Allow (a watch page is left to the content
    script and [checkYouTube]). *)
Definition shouldBlock (st : State) (now : Z) (url : string) : bool :=
  if internalUrl url then false
  else if negb (Js.truthyStr (configId st)) then true
  else if isFreeTime st now then false
  else if matchesWhitelist st url then false
  else if isYouTubeAllowedPage url then false
  else if isYouTubeVideo url then false
  else true.

Definition blockedUrl (url : string) : string :=
  runtime_getURL ("pages/blocked.html?url=" ++ Uri.encodeURIComponent url).

End Evaluator.

(* ================================================================= *)
(** ** Secondary evaluator for watch pages *)

Definition normalizeCreator (input : option string) : string :=
  match input with
  | None => ""
  | Some i =>
      if negb (Js.nonempty i) then ""
      else
        let s := Js.trim (Js.toLowerCase i) in
        let s := Js.replacePrefix ["https://"; "http://"] s in
        let s := Js.replacePrefix ["www."] s in
        let s := Js.replacePrefix ["youtube.com/"] s in
        let s := Js.replacePrefix ["@"] s in
        let s := Js.replacePrefix ["/c/"; "/channel/"; "/user/"] s in
        let s := Js.replacePrefix ["c/"; "channel/"; "user/"] s in
        Js.splitHead "/" s
  end.

(** The test [youtubeCreatorAllowed] makes for one entry of the list. *)
Definition creatorMatches (normalizedAuthorName normalizedAuthorUrl creator : string)
  : bool :=
  let normalizedCreator := normalizeCreator (Some creator) in
  (normalizedAuthorName =? normalizedCreator)%string
  || (normalizedAuthorUrl =? normalizedCreator)%string
  || Js.includes normalizedAuthorName normalizedCreator
  || Js.includes normalizedAuthorUrl normalizedCreator.

Definition youtubeCreatorAllowed (st : State) (authorName authorUrl : option string)
  : bool :=
  match config st with
  | None => false
  | Some c =>
      match youtubeCreators c with
      | None | Some [] => false
      | Some creators =>
          let normalizedAuthorName := normalizeCreator authorName in
          let normalizedAuthorUrl := normalizeCreator authorUrl in
          Js.some (creatorMatches normalizedAuthorName normalizedAuthorUrl) creators
      end
  end.

(** The test the specification words for one entry: equal, or contained one
    way or the other. *)
Definition creatorMatchesBothWays
           (normalizedAuthorName normalizedAuthorUrl creator : string) : bool :=
  let normalizedCreator := normalizeCreator (Some creator) in
  (normalizedAuthorName =? normalizedCreator)%string
  || (normalizedAuthorUrl =? normalizedCreator)%string
  || Js.includes normalizedCreator normalizedAuthorName
  || Js.includes normalizedCreator normalizedAuthorUrl
  || Js.includes normalizedAuthorName normalizedCreator
  || Js.includes normalizedAuthorUrl normalizedCreator.

(** A handle written plainly: lower-case letters, digits, [_] and [-]. *)
Definition handleUnit (c : ascii) : bool :=
  let n := N_of_ascii c in
  (((97 <=? n) && (n <=? 122)) || ((48 <=? n) && (n <=? 57))
   || (n =? 95) || (n =? 45))%N.

(** [title.toLowerCase()] throws a [TypeError] on an undefined title; the
    function returns before that when there are no keywords. *)
Definition youtubeVideoAllowed (st : State) (title : option string) : Completion bool :=
  match config st with
  | None => Normal false
  | Some c =>
      match youtubeKeywords c with
      | None | Some [] => Normal false
      | Some keywords =>
          match title with
          | None => Throw TypeError
          | Some t =>
              let t := Js.toLowerCase t in
              Normal (Js.some (fun k => Js.includes t (Js.toLowerCase k)) keywords)
          end
      end
  end.

(** The object [fetchYouTubeInfo] returns, and the body of the server's
    answer it is read from. *)
Record VideoInfo : Type := mkVideoInfo {
  title : option string;
  authorName : option string;
  authorUrl : option string
}.

(** The address [fetchYouTubeInfo] requests. *)
Definition youtubeInfoUrl (st : State) (url : string) : string :=
  interpolate (apiUrl st) ++ "/youtube-info?url=" ++ Uri.encodeURIComponent url
  ++ "&configId=" ++ Uri.encodeURIComponent (interpolate (configId st)).

(** The body of the [try] block: a JSON body [null] fails at [data.title]. *)
Definition fetchYouTubeInfo_body (r : FetchResult (option VideoInfo))
  : Completion (option VideoInfo) :=
  res <- awaitFetch r ;;
  if statusOk (fst res) then
    data <- awaitJson (snd res) ;;
    match data with
    | Some d =>
        Normal (Some {| title := title d; authorName := authorName d;
                        authorUrl := authorUrl d |})
    | None => Throw TypeError
    end
  else Normal None.

(** The [catch] logs the exception and control reaches [return null]. *)
Definition fetchYouTubeInfo (r : FetchResult (option VideoInfo))
  : Completion (option VideoInfo) :=
  tryCatch (fetchYouTubeInfo_body r) (fun _ => Normal None).

(** The answer to a [checkYouTube] message. *)
Record Reply : Type := mkReply {
  shouldCheck : bool;
  allowed : option bool;
  replyTitle : option string;
  replyAuthor : option string;
  reason : option string;
  replyBlockedUrl : option string
}.

Definition noCheck : Reply :=
  {| shouldCheck := false; allowed := None; replyTitle := None;
     replyAuthor := None; reason := None; replyBlockedUrl := None |}.

(** What the worker does that the outside can see, in the order of the
    claims about it: the end of [loadFromStorage], a request of
    [syncConfig], a verdict of the navigation listener and a redirect of a tab
    ([chrome.tabs.update]). *)
Inductive Effect : Type :=
| Loaded
| FetchConfig (request : string)
| Decided (url : string) (block : bool)
| Redirect (tabId : Z) (target : string).

(** The handler either answers at once or issues the lookup. *)
Inductive CheckStep : Type :=
| Replied (r : Reply)
| Lookup (request : string).

Section CheckYouTube.

Context {browser : Platform}.

Definition blockReply (why : string) (t a : option string) (url : string) : Reply :=
  {| shouldCheck := true; allowed := Some false; replyTitle := t;
     replyAuthor := a; reason := Some why;
     replyBlockedUrl := Some (blockedUrl url) |}.

(** The handler up to [fetchYouTubeInfo(msg.url)]. *)
Definition checkYouTube_start (st : State) (now : Z) (url : string) : CheckStep :=
  if negb (Js.truthyStr (configId st)) then
    Replied (blockReply "Extension not configured" None None url)
  else if isFreeTime st now then Replied noCheck
  else if matchesWhitelist st url then Replied noCheck
  else Lookup (youtubeInfoUrl st url).

(** The callback [.then(info => ...)], run in the state at that moment.
    An exception in it leaves the message unanswered. *)
Definition checkYouTube_resume (st : State) (url : string) (info : option VideoInfo)
  : Completion Reply :=
  match info with
  | None => Normal (blockReply "Could not verify video" None None url)
  | Some i =>
      if youtubeCreatorAllowed st (authorName i) (authorUrl i) then
        Normal {| shouldCheck := true; allowed := Some true; replyTitle := title i;
                  replyAuthor := authorName i; reason := None;
                  replyBlockedUrl := None |}
      else
        ok <- youtubeVideoAllowed st (title i) ;;
        if ok then
          Normal {| shouldCheck := true; allowed := Some true; replyTitle := title i;
                    replyAuthor := None; reason := None; replyBlockedUrl := None |}
        else
          Normal (blockReply "Video not from allowed creator or matching keywords"
                             (title i) (authorName i) url)
  end.

(** The whole handler when no other event changes the state during the
    lookup, which settles as [r]. *)
Definition checkYouTube (st : State) (now : Z) (url : string)
           (r : FetchResult (option VideoInfo)) : Completion Reply :=
  match checkYouTube_start st now url with
  | Replied reply => Normal reply
  | Lookup _ =>
      info <- fetchYouTubeInfo r ;;
      checkYouTube_resume st url info
  end.

(** An open tab as [checkOpenTabs] meets it: its identifier, its URL if it
    has one, and how the content lookup for it settles if it is made. *)
Record Tab : Type := mkTab {
  tab_id : Z;
  tab_url : option string;
  tab_lookup : FetchResult (option VideoInfo)
}.

(** One round of the loop of [checkOpenTabs]: the redirect of the tab, if
    any. *)
Definition checkTab (st : State) (now : Z) (tab : Tab) : Completion (option Effect) :=
  match tab_url tab with
  | None => Normal None
  | Some url =>
      let redirect := Normal (Some (Redirect (tab_id tab) (blockedUrl url))) in
      if negb (Js.nonempty url) then Normal None
      else if internalUrl url then Normal None
      else if shouldBlock st now url then redirect
      else if isYouTubeVideo url then
        info <- fetchYouTubeInfo (tab_lookup tab) ;;
        match info with
        | None => redirect
        | Some i =>
            if youtubeCreatorAllowed st (authorName i) (authorUrl i) then Normal None
            else
              ok <- youtubeVideoAllowed st (title i) ;;
              if ok then Normal None else redirect
        end
      else Normal None
  end.

(** The loop, in the [try] block: an exception ends it, and the redirects
    made before stay. *)
Fixpoint checkTabs (st : State) (now : Z) (tabs : list Tab) : list Effect :=
  match tabs with
  | [] => []
  | tab :: rest =>
      match checkTab st now tab with
      | Normal (Some e) => e :: checkTabs st now rest
      | Normal None => checkTabs st now rest
      | Throw _ => []
      end
  end.

(** [checkOpenTabs] when no other event changes the variables while it
    runs: the redirects it makes, the first one first. *)
Definition checkOpenTabs (st : State) (now : Z) (tabs : list Tab) : list Effect :=
  if negb (Js.truthyStr (configId st)) || isFreeTime st now then []
  else checkTabs st now tabs.

End CheckYouTube.

(* ================================================================= *)
(** ** Sync client and the worker as an event-driven machine *)

(** The keys of [chrome.storage.local] the worker uses. *)
Record Storage : Type := mkStorage {
  stored_apiUrl : option string;
  stored_configId : option string;
  stored_config : option Config;
  stored_lastSyncTime : option Z
}.

(** The worker between two events: its variables, the storage, the answer
    to the read that [loadFromStorage] issued when the script started, the
    navigation listeners suspended at [await storageReady] (oldest first),
    the number of [syncConfig] requests not yet settled, and the effects so
    far, the most recent first.  The storage serves its requests in the order
    they are issued, so the read of line 10, issued at line 21 before any
    handler can run, is answered with the storage as it was at the start,
    whatever the handlers have written by the time the answer arrives.
    [updateIcon] and [updateBadge] write only to the toolbar button and are
    left out; writes to the storage succeed. *)
Record Worker : Type := mkWorker {
  vars : State;
  disk : Storage;
  readAtStart : Storage;
  waiting : list (Z * string);
  pending : nat;
  trace : list Effect
}.

Definition withVars (w : Worker) (st : State) : Worker :=
  {| vars := st; disk := disk w; readAtStart := readAtStart w;
     waiting := waiting w; pending := pending w;
     trace := trace w |}.

Definition withDisk (w : Worker) (d : Storage) : Worker :=
  {| vars := vars w; disk := d; readAtStart := readAtStart w;
     waiting := waiting w; pending := pending w; trace := trace w |}.

Definition emit (w : Worker) (e : Effect) : Worker :=
  {| vars := vars w; disk := disk w; readAtStart := readAtStart w;
     waiting := waiting w; pending := pending w;
     trace := e :: trace w |}.

(** The worker when the script has run to its end: [loadFromStorage] is
    suspended at its read of the storage [d], nothing else has happened. *)
Definition boot (d : Storage) : Worker :=
  {| vars := initialState; disk := d; readAtStart := d; waiting := [];
     pending := 0%nat; trace := [] |}.

(** [loadFromStorage] from the moment its read resolves; the answer is the
    storage as it was when the script started. *)
Definition loadFromStorage (w : Worker) : Worker :=
  let d := readAtStart w in
  emit (withVars w {| apiUrl := Js.orNullStr (stored_apiUrl d);
                      configId := Js.orNullStr (stored_configId d);
                      config := stored_config d;
                      storageLoaded := true;
                      lastSyncTime := Js.orNullNum (stored_lastSyncTime d) |})
       Loaded.

(** [if (!configId || !apiUrl) return;] *)
Definition syncConfig_guard (st : State) : bool :=
  Js.truthyStr (configId st) && Js.truthyStr (apiUrl st).

Definition syncConfig_request (st : State) : string :=
  interpolate (apiUrl st) ++ "/config/" ++ interpolate (configId st).

(** The [try] block of [syncConfig] from the moment its fetch settles as
    [r], with the clock at [now]. *)
Definition syncConfig_body (w : Worker) (now : Z) (r : FetchResult (option Config))
  : Completion Worker :=
  res <- awaitFetch r ;;
  if statusOk (fst res) then
    c <- awaitJson (snd res) ;;
    let st := vars w in
    let d := disk w in
    Normal (withDisk
              (withVars w {| apiUrl := apiUrl st; configId := configId st;
                             config := c; storageLoaded := storageLoaded st;
                             lastSyncTime := Some now |})
              {| stored_apiUrl := stored_apiUrl d;
                 stored_configId := stored_configId d;
                 stored_config := c; stored_lastSyncTime := Some now |})
  else if fst res =? 404 then
    let st := vars w in
    let d := disk w in
    Normal (withDisk
              (withVars w {| apiUrl := apiUrl st; configId := None; config := None;
                             storageLoaded := storageLoaded st;
                             lastSyncTime := None |})
              {| stored_apiUrl := stored_apiUrl d; stored_configId := None;
                 stored_config := None; stored_lastSyncTime := None |})
  else Normal w.

(** The [catch] logs the exception: "Server unreachable, keep using current
    config". *)
Definition syncConfig_settle (w : Worker) (now : Z) (r : FetchResult (option Config))
  : Completion Worker :=
  tryCatch (syncConfig_body w now r) (fun _ => Normal w).

(** [syncConfig] when no other event runs during its fetch. *)
Definition syncConfig (w : Worker) (now : Z) (r : FetchResult (option Config))
  : Completion Worker :=
  if negb (syncConfig_guard (vars w)) then Normal w
  else syncConfig_settle w now r.

(** A call of [syncConfig] up to its fetch. *)
Definition syncConfig_call (w : Worker) : Worker :=
  if negb (syncConfig_guard (vars w)) then w
  else
    let w := emit w (FetchConfig (syncConfig_request (vars w))) in
    {| vars := vars w; disk := disk w; readAtStart := readAtStart w;
     waiting := waiting w;
       pending := S (pending w); trace := trace w |}.

(** What wakes the worker: the read of [loadFromStorage] resolves (once), a
    navigation starts in a frame of a tab, [syncConfig] is called (the
    [sync] alarm, a [refreshConfig] message), one of its fetches settles, or
    a [setApiUrl], [setConfigId] or [clearConfig] message arrives. *)
Inductive Event : Type :=
| StorageReady
| BeforeNavigate (frameId tabId : Z) (url : string)
| SyncCalled
| SyncSettled (r : FetchResult (option Config))
| MsgSetApiUrl (u : option string)
| MsgSetConfigId (id : option string)
| MsgClearConfig.

Section Machine.

Context {browser : Platform}.

(** The navigation listener after [await storageReady]. *)
Definition gate (w : Worker) (now tabId : Z) (url : string) : Worker :=
  let block := shouldBlock (vars w) now url in
  let w := emit w (Decided url block) in
  if block then emit w (Redirect tabId (blockedUrl url)) else w.

(** The suspended listeners continue in the order they were suspended. *)
Definition resumeWaiting (w : Worker) (now : Z) : Worker :=
  fold_left (fun w' n => gate w' now (fst n) (snd n)) (waiting w)
            {| vars := vars w; disk := disk w; readAtStart := readAtStart w;
     waiting := []; pending := pending w;
               trace := trace w |}.

Definition onBeforeNavigate (w : Worker) (now frameId tabId : Z) (url : string)
  : Worker :=
  if negb (frameId =? 0) then w
  else if storageLoaded (vars w) then gate w now tabId url
  else {| vars := vars w; disk := disk w; readAtStart := readAtStart w;
     waiting := waiting w ++ [(tabId, url)];
          pending := pending w; trace := trace w |}.

Definition onSetApiUrl (w : Worker) (u : option string) : Worker :=
  let st := vars w in
  let d := disk w in
  withDisk
    (withVars w {| apiUrl := u; configId := configId st; config := config st;
                   storageLoaded := storageLoaded st;
                   lastSyncTime := lastSyncTime st |})
    {| stored_apiUrl := u; stored_configId := stored_configId d;
       stored_config := stored_config d;
       stored_lastSyncTime := stored_lastSyncTime d |}.

Definition onSetConfigId (w : Worker) (id : option string) : Worker :=
  let st := vars w in
  let d := disk w in
  syncConfig_call
    (withDisk
       (withVars w {| apiUrl := apiUrl st; configId := id; config := config st;
                      storageLoaded := storageLoaded st;
                      lastSyncTime := lastSyncTime st |})
       {| stored_apiUrl := stored_apiUrl d; stored_configId := id;
          stored_config := stored_config d;
          stored_lastSyncTime := stored_lastSyncTime d |}).

Definition onClearConfig (w : Worker) : Worker :=
  let st := vars w in
  let d := disk w in
  withDisk
    (withVars w {| apiUrl := apiUrl st; configId := None; config := None;
                   storageLoaded := storageLoaded st;
                   lastSyncTime := lastSyncTime st |})
    {| stored_apiUrl := stored_apiUrl d; stored_configId := None;
       stored_config := None; stored_lastSyncTime := stored_lastSyncTime d |}.

Definition onSyncSettled (w : Worker) (now : Z) (r : FetchResult (option Config))
  : Worker :=
  match pending w with
  | O => w
  | S n =>
      let w' := {| vars := vars w; disk := disk w; readAtStart := readAtStart w;
     waiting := waiting w;
                   pending := n; trace := trace w |} in
      match syncConfig_settle w' now r with
      | Normal w'' => w''
      | Throw _ => w'
      end
  end.

(** One event, with the clock at [now] while its handler runs. *)
Definition step (w : Worker) (ev : Z * Event) : Worker :=
  let now := fst ev in
  match snd ev with
  | StorageReady =>
      if storageLoaded (vars w) then w else resumeWaiting (loadFromStorage w) now
  | BeforeNavigate frameId tabId url => onBeforeNavigate w now frameId tabId url
  | SyncCalled => syncConfig_call w
  | SyncSettled r => onSyncSettled w now r
  | MsgSetApiUrl u => onSetApiUrl w u
  | MsgSetConfigId id => onSetConfigId w id
  | MsgClearConfig => onClearConfig w
  end.

Definition run (w : Worker) (evs : list (Z * Event)) : Worker :=
  fold_left step evs w.

(** In a trace (most recent effect first), every Block verdict is followed
    at once by the redirect to the blocked page for its URL, and there is no
    other redirect. *)
Fixpoint redirected (tr : list Effect) : Prop :=
  match tr with
  | [] => True
  | Redirect _ target :: Decided url true :: earlier =>
      target = blockedUrl url /\ redirected earlier
  | Redirect _ _ :: _ => False
  | Decided _ true :: _ => False
  | _ :: earlier => redirected earlier
  end.

End Machine.



(** No [setApiUrl], [setConfigId] or [clearConfig] message arrives before
    the read of [loadFromStorage] resolves. *)
Fixpoint readBeforeWrites (evs : list (Z * Event)) : bool :=
  match evs with
  | [] => true
  | ev :: rest =>
      match snd ev with
      | StorageReady => true
      | MsgSetApiUrl _ | MsgSetConfigId _ | MsgClearConfig => false
      | _ => readBeforeWrites rest
      end
  end.

Definition isDecided (e : Effect) : bool :=
  match e with
  | Decided _ _ => true
  | _ => false
  end.




(** A navigation in the main frame of a tab, the only kind the listener
    looks at. *)
Definition mainFrame (ev : Z * Event) : bool :=
  match snd ev with
  | BeforeNavigate frameId _ _ => frameId =? 0
  | _ => false
  end.

(** The number of verdicts in a trace. *)
Definition decided (tr : list Effect) : nat := List.length (filter isDecided tr).

(** A cached configuration comes with the time of its sync, in the
    variables and in the storage. *)
Definition syncedVars (st : State) : Prop :=
  config st <> None -> Js.truthyNum (lastSyncTime st) = true.

Definition syncedDisk (d : Storage) : Prop :=
  stored_config d <> None -> Js.truthyNum (stored_lastSyncTime d) = true.

(** The variables hold what the storage holds, up to the [|| null] of
    [loadFromStorage]. *)
Record Persisted (w : Worker) : Prop := mkPersisted {
  persisted_apiUrl : Js.orNullStr (apiUrl (vars w)) = Js.orNullStr (stored_apiUrl (disk w));
  persisted_configId :
    Js.orNullStr (configId (vars w)) = Js.orNullStr (stored_configId (disk w));
  persisted_config : config (vars w) = stored_config (disk w);
  persisted_lastSyncTime :
    Js.orNullNum (lastSyncTime (vars w)) = Js.orNullNum (stored_lastSyncTime (disk w))
}.

(** Until the read resolves, and as long as no message has written to the
    storage, the storage is what the read will return, no request is on its
    way and [syncConfig] returns at its guard. *)
Definition Unread (w : Worker) (evs : list (Z * Event)) : Prop :=
  disk w = readAtStart w /\ pending w = 0%nat
  /\ syncConfig_guard (vars w) = false /\ readBeforeWrites evs = true.

(* ================================================================= *)
(** ** The first version of the worker: local settings and schedules *)

Module Legacy.

Record Range : Type := mkRange {
  start : string;
  finish : string
}.

(** The settings read from the storage over [DEFAULT_SETTINGS]. *)
Record Settings : Type := mkSettings {
  enabled : bool;
  whitelist : list string;
  schedules : list (list Range);
  manualDisabledUntil : Z
}.

(** What [new Date()] gives the worker: the time value, the day of the
    week and the local time as [hh + ":" + mm], both padded to two
    digits. *)
Record Clock : Type := mkClock {
  millis : Z;
  day : nat;
  cur : string
}.

(** The settings with another allow-list, and with another end of the
    manual disable. *)
Definition withWhitelist (s : Settings) (l : list string) : Settings :=
  {| enabled := enabled s; whitelist := l; schedules := schedules s;
     manualDisabledUntil := manualDisabledUntil s |}.

Definition withDisabledUntil (s : Settings) (until : Z) : Settings :=
  {| enabled := enabled s; whitelist := whitelist s; schedules := schedules s;
     manualDisabledUntil := until |}.

Definition timeInRangeNow (clock : Clock) (ranges : list Range) : bool :=
  existsb (fun r =>
             if negb (Js.nonempty (start r)) || negb (Js.nonempty (finish r))
             then false
             else if String.leb (start r) (cur clock)
                     && String.ltb (cur clock) (finish r) then true
             else if String.ltb (finish r) (start r) then
               String.leb (start r) (cur clock) || String.leb (cur clock) (finish r)
             else false) ranges.

Definition isSpecialUrl (url : string) : bool :=
  Js.startsWith url "chrome://" || Js.startsWith url "chrome-extension://"
  || Js.startsWith url "file://" || Js.startsWith url "about:".

Section Regexes.

Context {browser : Platform}.

(** A pattern that does not compile is left out ("Invalid regex
    ignored"). *)
Fixpoint compileRegexes (patterns : list string) : list RegExp :=
  match patterns with
  | [] => []
  | s :: rest =>
      match RegExp_new s false with
      | Some re => re :: compileRegexes rest
      | None => compileRegexes rest
      end
  end.

Definition shouldBlockUrl (settings : Settings) (clock : Clock) (url : string)
  : bool :=
  if negb (enabled settings) then false
  else if negb (manualDisabledUntil settings =? 0)
          && (millis clock <? manualDisabledUntil settings) then false
  else if isSpecialUrl url then false
  else
    let dayRanges := nth (day clock) (schedules settings) [] in
    if negb (timeInRangeNow clock dayRanges) then false
    else if existsb (fun re => RegExp_test re url)
                    (compileRegexes (whitelist settings))
    then false
    else true.

(** [handleTab]: the redirect of the tab, if any.  [tabUrl] is [tab.url]
    and [changeUrl] is [changeInfo.url]. *)
Definition handleTab (settings : Settings) (clock : Clock) (tabId : Z)
           (tabUrl changeUrl : option string) : option Effect :=
  match (if Js.truthyStr tabUrl then tabUrl else changeUrl) with
  | None => None
  | Some url =>
      if negb (Js.nonempty url) then None
      else if Js.includes url "block.html" then None
      else if shouldBlockUrl settings clock url then
        Some (Redirect tabId (runtime_getURL "block.html" ++ "?blocked="
                              ++ Uri.encodeURIComponent url))
      else None
  end.

End Regexes.

(** The stored settings together with the password, which [shouldBlockUrl]
    does not read. *)
Record Store : Type := mkStore {
  settings : Settings;
  password : string
}.

(** The messages of the popup, options and block pages, and the answers. *)
Inductive Message : Type :=
| CheckPassword (given : string)
| DisableUntil (until : option Z)
| ToggleEnabled.

Inductive Answer : Type :=
| Ok (ok : bool)
| Toggled (ok : bool) (nowEnabled : bool).

Definition onMessage (store : Store) (msg : Message) : Store * Answer :=
  let data := settings store in
  match msg with
  | CheckPassword given => (store, Ok (given =? password store)%string)
  | DisableUntil until =>
      let until :=
        match until with
        | Some u => u
        | None => 0
        end in
      ({| settings := {| enabled := enabled data; whitelist := whitelist data;
                         schedules := schedules data;
                         manualDisabledUntil := until |};
          password := password store |}, Ok true)
  | ToggleEnabled =>
      let newVal := negb (enabled data) in
      ({| settings := {| enabled := newVal; whitelist := whitelist data;
                         schedules := schedules data;
                         manualDisabledUntil := manualDisabledUntil data |};
          password := password store |}, Toggled true newVal)
  end.

(** [new URLSearchParams(search).get(name)] for text of code units below
    256.  The bytes of the parser are kept in a [string]. *)
Module Form.

Definition utf8Bytes (c : ascii) : string :=
  let n := N_of_ascii c in
  if (n <? 128)%N then String c EmptyString
  else String (ascii_of_N (192 + n / 64))
              (String (ascii_of_N (128 + n mod 64)) EmptyString).

Definition hexValue (c : ascii) : option N :=
  let n := N_of_ascii c in
  if ((48 <=? n) && (n <=? 57))%N then Some (n - 48)%N
  else if ((65 <=? n) && (n <=? 70))%N then Some (n - 55)%N
  else if ((97 <=? n) && (n <=? 102))%N then Some (n - 87)%N
  else None.

Fixpoint percentDecode (s : string) : string :=
  match s with
  | EmptyString => EmptyString
  | String c rest =>
      if Ascii.eqb c "%" then
        match rest with
        | String a (String b rest') =>
            match hexValue a, hexValue b with
            | Some x, Some y =>
                String (ascii_of_N (16 * x + y)) (percentDecode rest')
            | _, _ => String c (percentDecode rest)
            end
        | _ => String c (percentDecode rest)
        end
      else utf8Bytes c ++ percentDecode rest
  end.

(** UTF-8 decoding; [None] when the text has a character above 255, the
    replacement character of an invalid sequence included. *)
Fixpoint utf8Decode (bytes : string) : option string :=
  match bytes with
  | EmptyString => Some EmptyString
  | String b rest =>
      let n := N_of_ascii b in
      if (n <? 128)%N then option_map (String b) (utf8Decode rest)
      else if ((n =? 194) || (n =? 195))%N then
        match rest with
        | String b2 rest' =>
            let m := N_of_ascii b2 in
            if ((128 <=? m) && (m <? 192))%N
            then option_map (String (ascii_of_N ((n - 192) * 64 + (m - 128))))
                            (utf8Decode rest')
            else None
        | EmptyString => None
        end
      else None
  end.

Fixpoint plusToSpace (s : string) : string :=
  match s with
  | EmptyString => EmptyString
  | String c rest => String (if Ascii.eqb c "+" then " "%char else c) (plusToSpace rest)
  end.

Definition decode (s : string) : option string :=
  utf8Decode (percentDecode (plusToSpace s)).

(** [s.split(sep)] for a one-character separator. *)
Fixpoint split (sep : ascii) (s : string) : list string :=
  match s with
  | EmptyString => [EmptyString]
  | String c rest =>
      if Ascii.eqb c sep then EmptyString :: split sep rest
      else
        match split sep rest with
        | first :: others => String c first :: others
        | [] => [String c EmptyString]
        end
  end.

(** The name and the value of one sequence: the text before and after its
    first [=]. *)
Fixpoint nameValue (s : string) : string * string :=
  match s with
  | EmptyString => (EmptyString, EmptyString)
  | String c rest =>
      if Ascii.eqb c "=" then (EmptyString, rest)
      else (String c (fst (nameValue rest)), snd (nameValue rest))
  end.

Definition parsePair (seq : string) : option (string * string) :=
  match decode (fst (nameValue seq)), decode (snd (nameValue seq)) with
  | Some name, Some value => Some (name, value)
  | _, _ => None
  end.

Fixpoint parsePairs (seqs : list string) : option (list (string * string)) :=
  match seqs with
  | [] => Some []
  | seq :: rest =>
      if negb (Js.nonempty seq) then parsePairs rest
      else
        match parsePair seq, parsePairs rest with
        | Some p, Some ps => Some (p :: ps)
        | _, _ => None
        end
  end.

Definition parse (search : string) : option (list (string * string)) :=
  parsePairs (split "&" (Js.replacePrefix ["?"] search)).

Fixpoint lookup (name : string) (pairs : list (string * string)) : option string :=
  match pairs with
  | [] => None
  | (n, v) :: rest => if (n =? name)%string then Some v else lookup name rest
  end.

(** [get]: [None] when the parameters are outside the model, [Some None]
    for [null]. *)
Definition get (search name : string) : option (option string) :=
  option_map (lookup name) (parse search).

End Form.

(** [block.js]: the text put in the element [blockedUrl], for the
    [location.search] of the page. *)
Definition blockedText (search : string) : option string :=
  match Form.get search "blocked" with
  | Some (Some blocked) => Some blocked
  | Some None => Some ""
  | None => None
  end.

End Legacy.

(* ================================================================= *)
(** ** The toolbar button and the answer to [getState] *)

(** The suffix [updateIcon] puts in the names of the icon files. *)
Definition iconState (st : State) (now : Z) : string :=
  if negb (Js.truthyStr (configId st)) then ""
  else if isFreeTime st now then "-inactive"
  else "-active".

(** The [path] object [updateIcon] gives to [chrome.action.setIcon]. *)
Definition updateIcon (st : State) (now : Z) : list (string * string) :=
  let iconState := iconState st now in
  [("16", "/icons/icon16" ++ iconState ++ ".png");
   ("48", "/icons/icon48" ++ iconState ++ ".png");
   ("128", "/icons/icon128" ++ iconState ++ ".png")].

Definition formatBadgeTime (seconds : Q) : string :=
  let minutes := Js.ceil (seconds / 60)%Q in
  if 60 <=? minutes then Js.showNumber (Js.ceil (inject_Z minutes / 60)%Q) ++ "h"
  else Js.showNumber minutes ++ "m".

(** The text [updateBadge] gives to [chrome.action.setBadgeText]. *)
Definition updateBadge (st : State) (now : Z) : string :=
  match config st with
  | None => ""
  | Some c =>
      if Js.truthyStr (freeTimeStartedAt c) && negb (isTemporarilyDisabled st now)
      then
        let localRemaining :=
          match lastSyncTime st with
          | Some t =>
              if negb (t =? 0)
              then Qmax 0 (serverRemaining c - secondsSinceSync now t)
              else serverRemaining c
          | None => serverRemaining c
          end in
        formatBadgeTime localRemaining
      else ""
  end.

(** The answer to a [getState] message. *)
Record StateReply : Type := mkStateReply {
  reply_apiUrl : option string;
  reply_configId : option string;
  reply_config : option Config;
  reply_isFreeTime : bool;
  hasConfig : bool;
  reply_isTemporarilyDisabled : bool;
  localRemainingSeconds : Q
}.

Definition getState (st : State) (now : Z) : StateReply :=
  {| reply_apiUrl := apiUrl st;
     reply_configId := configId st;
     reply_config := config st;
     reply_isFreeTime := isFreeTime st now;
     hasConfig := Js.truthyStr (configId st);
     reply_isTemporarilyDisabled := isTemporarilyDisabled st now;
     localRemainingSeconds := getLocalRemainingSeconds st now |}.

(* ================================================================= *)
(** ** The content script on YouTube pages ([youtube-monitor.js]) *)

Module Monitor.

Section Pages.

Context {browser : Platform}.

Definition isWatchPage (url : string) : bool :=
  match URL_parse url with
  | Some u => (pathname u =? "/watch")%string
  | None => false
  end.

Definition isAllowedPage (url : string) : bool :=
  match URL_parse url with
  | Some u =>
      if (pathname u =? "/")%string || (pathname u =? "")%string
         || (pathname u =? "/results")%string then true
      else if Js.startsWith (pathname u) "/@" || Js.startsWith (pathname u) "/c/"
              || Js.startsWith (pathname u) "/channel/"
              || Js.startsWith (pathname u) "/user/" then true
      else false
  | None => false
  end.

Definition isBlockedPage (url : string) : bool :=
  negb (isAllowedPage url) && negb (isWatchPage url).

(** [checkUrl]: whether it sends a [blockPage] message for the URL.
    [checkingInProgress] is the flag of the script, [state] the answer to
    its [getState] message and [response] the answer to its [checkYouTube]
    message, [None] when there is none. *)
Definition checkUrl (checkingInProgress : bool) (state : option StateReply)
           (url : string) (response : option Reply) : bool :=
  if checkingInProgress then false
  else
    match state with
    | None => false
    | Some state =>
        if negb (hasConfig state) || reply_isFreeTime state then false
        else if isBlockedPage url then true
        else if isWatchPage url then
          match response with
          | Some response =>
              if shouldCheck response then
                match allowed response with
                | Some true => false
                | _ => true
                end
              else false
          | None => false
          end
        else false
    end.

(** [onUrlChange] on the variable [lastUrl]: its new value, and whether
    [checkUrl] is called for the current URL. *)
Definition onUrlChange (lastUrl currentUrl : string) : string * bool :=
  if (currentUrl =? lastUrl)%string then (lastUrl, false)
  else (currentUrl, negb (isAllowedPage currentUrl)).

(** One check against the worker, started when no other check is in
    progress; the variables of the worker do not change during it and its
    content lookup, if made, settles as [r]. *)
Definition checkAgainstWorker (st : State) (now : Z) (url : string)
           (r : FetchResult (option VideoInfo)) : bool :=
  checkUrl false (Some (getState st now)) url
           (match checkYouTube st now url r with
            | Normal reply => Some reply
            | Throw _ => None
            end).

End Pages.

End Monitor.

(* ================================================================= *)
(** ** The popup of the extension ([extension/scripts/popup.js]) *)

Module Popup.

Inductive Badge : Type :=
| Disabled
| FreeTime
| Blocking.

(** What [render] shows in the main screen: the badge, the line under it
    (the end of the temporary disable, or a text), the line about the
    budget if shown, and the buttons (shown or not; the start button also
    enabled or not). *)
Inductive Detail : Type :=
| Until (d : option Js.Date)
| Text (t : string).

Record Main : Type := mkMain {
  badge : Badge;
  statusDetail : Detail;
  freeTimeInfo : option string;
  startFreeTimeBtn : option bool;
  endFreeTimeBtn : bool;
  disableBtn : bool;
  cancelDisableBtn : bool
}.

Inductive View : Type :=
| NoConfig
| MainScreen (m : Main).

Definition formatMinutes (seconds : Q) : Z := Js.ceil (seconds / 60)%Q.

(** The line "m min remaining of n min". *)
Definition remainingOf (shown : string) (todaysAllowance : Q) : string :=
  shown ++ " min remaining of " ++ Js.showNumber (formatMinutes todaysAllowance)
  ++ " min".

(** [render], for the answer [state] to [getState]; [allowance] is the field
    [todaysAllowance] of the configuration in it.  Reading a field of a
    missing configuration throws. *)
Definition render (state : option StateReply) (allowance : option Q)
  : Completion View :=
  match state with
  | None => Normal NoConfig
  | Some state =>
      if negb (hasConfig state) then Normal NoConfig
      else
        match reply_config state with
        | None => Throw TypeError
        | Some cfg =>
            let isDisabled := reply_isTemporarilyDisabled state in
            let inFreeTimeSession :=
              match freeTimeStartedAt cfg with
              | Some _ => true
              | None => false
              end in
            let remaining := localRemainingSeconds state in
            let todaysAllowance :=
              match allowance with
              | Some a => a
              | None => 0%Q
              end in
            if isDisabled then
              Normal (MainScreen
                        {| badge := Disabled;
                           statusDetail := Until (disabledUntil cfg);
                           freeTimeInfo := None; startFreeTimeBtn := None;
                           endFreeTimeBtn := false; disableBtn := false;
                           cancelDisableBtn := true |})
            else if inFreeTimeSession && Js.positive remaining then
              Normal (MainScreen
                        {| badge := FreeTime;
                           statusDetail := Text "Browsing freely";
                           freeTimeInfo :=
                             Some (remainingOf
                                     (Js.showNumber (formatMinutes remaining))
                                     todaysAllowance);
                           startFreeTimeBtn := None; endFreeTimeBtn := true;
                           disableBtn := false; cancelDisableBtn := false |})
            else if Qeq_bool todaysAllowance 0 then
              Normal (MainScreen
                        {| badge := Blocking;
                           statusDetail := Text "No free time allowed today";
                           freeTimeInfo := None; startFreeTimeBtn := Some false;
                           endFreeTimeBtn := false; disableBtn := true;
                           cancelDisableBtn := false |})
            else if Qle_bool remaining 0 then
              Normal (MainScreen
                        {| badge := Blocking;
                           statusDetail := Text "Blocking distractions";
                           freeTimeInfo := Some (remainingOf "0" todaysAllowance);
                           startFreeTimeBtn := Some false; endFreeTimeBtn := false;
                           disableBtn := true; cancelDisableBtn := false |})
            else
              Normal (MainScreen
                        {| badge := Blocking;
                           statusDetail := Text "Blocking distractions";
                           freeTimeInfo :=
                             Some (remainingOf
                                     (Js.showNumber (formatMinutes remaining))
                                     todaysAllowance);
                           startFreeTimeBtn := Some true; endFreeTimeBtn := false;
                           disableBtn := true; cancelDisableBtn := false |})
        end
  end.

End Popup.

(* ================================================================= *)
(** ** A platform to run examples on *)

(** A fragment of the browser that is enough for the closed examples below.
    - A pattern of letters and digits only compiles, and matches a string
      exactly when the string contains it (with the [i] flag: up to the case
      of letters).  Any other pattern is outside the fragment and answered
      as not compiling, which is what the browser does for ["("] and not for
      most others; the examples use letter patterns only.
    - An address [http://host/path] or [https://host/path], with a host of
      lower-case letters in dot-separated labels and a path of letters,
      digits, [/], [_], [-] and [@], followed or not by a query or fragment,
      parses to that host and path (path ["/"] when there is none).  Other
      addresses are outside the fragment and answered as not parsing; since
      the worker only asks whether the host is YouTube's, that is the answer
      for every address of another host as well. *)
Module PlainBrowser.

Definition alnum (c : ascii) : bool :=
  let n := N_of_ascii c in
  (((65 <=? n) && (n <=? 90)) || ((97 <=? n) && (n <=? 122))
   || ((48 <=? n) && (n <=? 57)))%N.

Definition lowerLetter (c : ascii) : bool :=
  let n := N_of_ascii c in ((97 <=? n) && (n <=? 122))%N.

Fixpoint all (f : ascii -> bool) (s : string) : bool :=
  match s with
  | EmptyString => true
  | String c s' => f c && all f s'
  end.

Fixpoint takeWhile (f : ascii -> bool) (s : string) : string :=
  match s with
  | EmptyString => EmptyString
  | String c s' => if f c then String c (takeWhile f s') else EmptyString
  end.

Fixpoint dropWhile (f : ascii -> bool) (s : string) : string :=
  match s with
  | EmptyString => EmptyString
  | String c s' => if f c then dropWhile f s' else s
  end.

Definition compile (p : string) (ignoreCase : bool) : option (string * bool) :=
  if all alnum p then Some (p, ignoreCase) else None.

Definition test (re : string * bool) (s : string) : bool :=
  if snd re then Js.includes (Js.toLowerCase s) (Js.toLowerCase (fst re))
  else Js.includes s (fst re).

Definition hostChar (c : ascii) : bool := lowerLetter c || Ascii.eqb c ".".

Definition pathChar (c : ascii) : bool :=
  alnum c || Ascii.eqb c "/" || Ascii.eqb c "_" || Ascii.eqb c "-" || Ascii.eqb c "@".

Definition goodHost (h : string) : bool :=
  Js.nonempty h && negb (Js.startsWith h ".") && negb (Js.includes h "..")
  && negb (Js.includes (h ++ "/") "./").

Definition queryStart (c : ascii) : bool := Ascii.eqb c "?" || Ascii.eqb c "#".

Definition parseAfterScheme (rest : string) : option URL :=
  let host := takeWhile hostChar rest in
  let after := dropWhile hostChar rest in
  if negb (goodHost host) then None
  else
    match after with
    | EmptyString => Some {| hostname := host; pathname := "/" |}
    | String c _ =>
        if queryStart c then Some {| hostname := host; pathname := "/" |}
        else if Ascii.eqb c "/" then
          let path := takeWhile (fun x => negb (queryStart x)) after in
          if all pathChar path then Some {| hostname := host; pathname := path |}
          else None
        else None
    end.

Definition parse (s : string) : option URL :=
  match Js.strip "https://" s with
  | Some rest => parseAfterScheme rest
  | None =>
      match Js.strip "http://" s with
      | Some rest => parseAfterScheme rest
      | None => None
      end
  end.

Definition getURL (path : string) : string :=
  "chrome-extension://abcdefghijklmnopabcdefghijklmnop/" ++ path.

End PlainBrowser.

Definition plainBrowser : Platform :=
  {| RegExp := string * bool;
     RegExp_new := PlainBrowser.compile;
     RegExp_test := PlainBrowser.test;
     URL_parse := PlainBrowser.parse;
     runtime_getURL := PlainBrowser.getURL |}.

(* ================================================================= *)
(** ** States used by the examples *)

Module Sample.

(** A clock reading, in milliseconds. *)
Definition clock : Z := 1700000000000.

Definition bareConfig : Config :=
  {| enabled := None; whitelist := None; freeTimeStartedAt := None;
     freeTimeRemaining := None; disabledUntil := None;
     youtubeCreators := None; youtubeKeywords := None |}.

Definition paired (c : option Config) (synced : option Z) : State :=
  {| apiUrl := Some "https://focus.example"; configId := Some "ABCD-1234";
     config := c; storageLoaded := true; lastSyncTime := synced |}.

Definition unpaired (c : option Config) (synced : option Z) : State :=
  {| apiUrl := Some "https://focus.example"; configId := None;
     config := c; storageLoaded := true; lastSyncTime := synced |}.

(** A session that was open with 120 seconds left at the last sync. *)
Definition sessionConfig : Config :=
  {| enabled := Some true; whitelist := Some [];
     freeTimeStartedAt := Some "2023-11-14T22:10:20.000Z";
     freeTimeRemaining := Some (120 # 1); disabledUntil := None;
     youtubeCreators := None; youtubeKeywords := None |}.

(** The last sync was 180 seconds before [clock]. *)
Definition drained : State := paired (Some sessionConfig) (Some (clock - 180000)).

(** The same, with blocking disabled for another hour. *)
Definition drainedButDisabled : State :=
  paired (Some {| enabled := Some true; whitelist := Some [];
                  freeTimeStartedAt := Some "2023-11-14T22:10:20.000Z";
                  freeTimeRemaining := Some (120 # 1);
                  disabledUntil := Some (Js.ValidDate (clock + 3600000));
                  youtubeCreators := None; youtubeKeywords := None |})
         (Some (clock - 180000)).

(** The snapshot is gone and the identity is still there. *)
Definition halfCleared : State := paired None (Some (clock - 180000)).

(** A paired client whose snapshot has [enabled] false, no session, no
    temporary disable and an empty allow-list. *)
Definition masterOffConfig : Config :=
  {| enabled := Some false; whitelist := Some []; freeTimeStartedAt := None;
     freeTimeRemaining := Some (600 # 1); disabledUntil := None;
     youtubeCreators := None; youtubeKeywords := None |}.

Definition masterOff : State := paired (Some masterOffConfig) (Some clock).

(** Settings of the first version with the main toggle off, inside a
    scheduled range. *)
Definition toggledOff : Legacy.Settings :=
  {| Legacy.enabled := false; Legacy.whitelist := [];
     Legacy.schedules :=
       [[]; [{| Legacy.start := "09:00"; Legacy.finish := "17:00" |}]];
     Legacy.manualDisabledUntil := 0 |}.

Definition mondayNoon : Legacy.Clock :=
  {| Legacy.millis := clock; Legacy.day := 1%nat; Legacy.cur := "12:00" |}.

(** A snapshot with one allow-list pattern, in a client with and without
    an identity. *)
Definition listedConfig : Config :=
  {| enabled := Some true; whitelist := Some ["example"];
     freeTimeStartedAt := None; freeTimeRemaining := Some (0 # 1);
     disabledUntil := None; youtubeCreators := None; youtubeKeywords := None |}.

Definition listedPaired : State := paired (Some listedConfig) (Some clock).

Definition listedUnpaired : State := unpaired (Some listedConfig) (Some clock).

(** The session of [sessionConfig], synced 60 seconds before [clock]. *)
Definition inSession : State := paired (Some sessionConfig) (Some (clock - 60000)).

(** A snapshot with one allowed creator. *)
Definition creatorConfig : Config :=
  {| enabled := Some true; whitelist := Some []; freeTimeStartedAt := None;
     freeTimeRemaining := Some (0 # 1); disabledUntil := None;
     youtubeCreators := Some ["@JaneDoe"]; youtubeKeywords := Some [] |}.

Definition creatorState : State := paired (Some creatorConfig) (Some clock).

(** A list of creators with an entry that is only a scheme. *)
Definition schemeOnlyConfig : Config :=
  {| enabled := Some true; whitelist := Some []; freeTimeStartedAt := None;
     freeTimeRemaining := Some (0 # 1); disabledUntil := None;
     youtubeCreators := Some ["@JaneDoe"; "https://"]; youtubeKeywords := Some [] |}.

Definition schemeOnlyState : State := paired (Some schemeOnlyConfig) (Some clock).

(** A snapshot with one keyword, and the answer of the server for a lecture
    of a creator who is not on the list. *)
Definition keywordConfig : Config :=
  {| enabled := Some true; whitelist := Some []; freeTimeStartedAt := None;
     freeTimeRemaining := Some (0 # 1); disabledUntil := None;
     youtubeCreators := Some []; youtubeKeywords := Some ["lecture"] |}.

Definition keywordState : State := paired (Some keywordConfig) (Some clock).

Definition lecture : VideoInfo :=
  {| title := Some "Algebra Lecture 1"; authorName := Some "Jane Doe";
     authorUrl := None |}.

(** A watch page left open in tab 3, whose lookup is answered 503. *)
Definition openWatchPage : Tab :=
  {| tab_id := 3; tab_url := Some "https://www.youtube.com/watch?v=abc";
     tab_lookup := FetchResponse 503 None |}.

(** The storage of a paired client whose last snapshot is [masterOffConfig]. *)
Definition pairedDisk : Storage :=
  {| stored_apiUrl := Some "https://focus.example";
     stored_configId := Some "ABCD-1234";
     stored_config := Some masterOffConfig;
     stored_lastSyncTime := Some (clock - 30000) |}.

(** The first two events of a session: the storage is read, then a tab
    starts a navigation. *)
Definition firstNavigation : list (Z * Event) :=
  [(clock, StorageReady); (clock + 40, BeforeNavigate 0 7 "https://other.com")].


(** The user clears the configuration while a refresh is on its way. *)
Definition clearedDuringRefresh : list (Z * Event) :=
  [(clock - 900, StorageReady); (clock - 600, SyncCalled);
   (clock - 300, MsgClearConfig);
   (clock, SyncSettled (FetchResponse 200 (Some (Some listedConfig))))].

(** Settings of the first version with a pattern that does not compile,
    inside a scheduled range. *)
Definition brokenPattern : Legacy.Settings :=
  {| Legacy.enabled := true; Legacy.whitelist := ["("];
     Legacy.schedules :=
       [[]; [{| Legacy.start := "09:00"; Legacy.finish := "17:00" |}]];
     Legacy.manualDisabledUntil := 0 |}.

(** A storage without a snapshot. *)
Definition emptyDisk : Storage :=
  {| stored_apiUrl := None; stored_configId := None; stored_config := None;
     stored_lastSyncTime := None |}.

(** A session of the worker: two navigations before the storage is read,
    one in a frame, a refresh that succeeds, a navigation after it. *)
Definition busySession : list (Z * Event) :=
  [(clock, BeforeNavigate 0 7 "https://other.com");
   (clock + 10, BeforeNavigate 0 8 "https://example.com/page");
   (clock + 20, BeforeNavigate 4 7 "https://frames.example");
   (clock + 40, StorageReady);
   (clock + 50, SyncCalled);
   (clock + 90, SyncSettled (FetchResponse 200 (Some (Some listedConfig))));
   (clock + 95, BeforeNavigate 0 7 "https://example.com/page")].

(** Settings of the first version that block, inside a scheduled range,
    and their store. *)
Definition enforcing : Legacy.Settings :=
  {| Legacy.enabled := true; Legacy.whitelist := ["example"];
     Legacy.schedules :=
       [[]; [{| Legacy.start := "09:00"; Legacy.finish := "17:00" |}]];
     Legacy.manualDisabledUntil := 0 |}.

Definition enforcingStore : Legacy.Store :=
  {| Legacy.settings := enforcing; Legacy.password := "password" |}.

Definition running : Worker :=
  {| vars := masterOff; disk := pairedDisk; readAtStart := pairedDisk;
     waiting := []; pending := 0%nat; trace := [Loaded] |}.

End Sample.

(* ================================================================= *)
(** ** Properties of the budget tracker *)

Lemma secondsSinceSync_mono (t now1 now2 : Z) :
  now1 <= now2 -> (secondsSinceSync now1 t <= secondsSinceSync now2 t)%Q.
Proof.
  intros Hle. unfold secondsSinceSync, Qdiv.
  apply Qmult_le_compat_r.
  - rewrite <- Zle_Qle. lia.
  - discriminate.
Qed.

Lemma drain_mono (rem : Q) (t now1 now2 : Z) :
  now1 <= now2 ->
  (Qmax 0 (rem - secondsSinceSync now2 t) <= Qmax 0 (rem - secondsSinceSync now1 t))%Q.
Proof.
  intros Hle. apply Q.max_le_compat_l.
  apply Qplus_le_compat; [apply Qle_refl|].
  apply Qopp_le_compat, secondsSinceSync_mono, Hle.
Qed.

Lemma positive_false_iff (x : Q) : Js.positive x = false <-> (x <= 0)%Q.
Proof.
  unfold Js.positive. rewrite negb_false_iff. apply Qle_bool_iff.
Qed.

(** The remaining seconds never grow with the clock, in any state. *)
Lemma getLocalRemainingSeconds_mono (st : State) (now1 now2 : Z) :
  now1 <= now2 ->
  (getLocalRemainingSeconds st now2 <= getLocalRemainingSeconds st now1)%Q.
Proof.
  intros Hle. unfold getLocalRemainingSeconds.
  destruct (config st) as [c|]; [|apply Qle_refl].
  destruct (Js.truthyNum (lastSyncTime st) && Js.truthyStr (freeTimeStartedAt c));
    [|apply Qle_refl].
  destruct (lastSyncTime st) as [t|]; [|apply Qle_refl].
  apply drain_mono, Hle.
Qed.

(** With an open session and a last sync time, the function is the drain
    formula. *)
Lemma getLocalRemainingSeconds_open (st : State) (c : Config) (t now : Z) :
  config st = Some c ->
  Js.truthyStr (freeTimeStartedAt c) = true ->
  lastSyncTime st = Some t ->
  t <> 0 ->
  getLocalRemainingSeconds st now
  = Qmax 0 (serverRemaining c - secondsSinceSync now t).
Proof.
  intros Hc Hs Ht Hnz. unfold getLocalRemainingSeconds.
  rewrite Hc, Ht, Hs. cbn.
  destruct (Z.eqb_spec t 0) as [E|_]; [contradiction|reflexivity].
Qed.

(** C6: for a snapshot with an open free-time session and a last sync time,
    the projected remaining seconds [getLocalRemainingSeconds] do not grow
    when the clock advances, are the drain formula floored at 0, and are
    never negative. *)
Theorem projected_remaining_monotone_drain
        (st : State) (c : Config) (t now1 now2 : Z) :
  config st = Some c ->
  Js.truthyStr (freeTimeStartedAt c) = true ->
  lastSyncTime st = Some t ->
  t <> 0 ->
  now1 < now2 ->
  (getLocalRemainingSeconds st now2 <= getLocalRemainingSeconds st now1)%Q
  /\ getLocalRemainingSeconds st now2
     = Qmax 0 (serverRemaining c - secondsSinceSync now2 t)
  /\ (0 <= getLocalRemainingSeconds st now1)%Q
  /\ (0 <= getLocalRemainingSeconds st now2)%Q.
Proof.
  intros Hc Hs Ht Hnz Hlt.
  split; [apply getLocalRemainingSeconds_mono; lia|].
  rewrite !(getLocalRemainingSeconds_open st c t) by assumption.
  repeat split; apply Q.le_max_l.
Qed.

Lemma projected_remaining_monotone_drain_witness :
  (getLocalRemainingSeconds Sample.drained Sample.clock
   <= getLocalRemainingSeconds Sample.drained (Sample.clock - 100000))%Q
  /\ getLocalRemainingSeconds Sample.drained Sample.clock
     = Qmax 0 (serverRemaining Sample.sessionConfig
               - secondsSinceSync Sample.clock (Sample.clock - 180000))
  /\ (0 <= getLocalRemainingSeconds Sample.drained (Sample.clock - 100000))%Q
  /\ (0 <= getLocalRemainingSeconds Sample.drained Sample.clock)%Q.
Proof.
  apply (projected_remaining_monotone_drain
           Sample.drained Sample.sessionConfig (Sample.clock - 180000)
           (Sample.clock - 100000) Sample.clock).
  - reflexivity.
  - reflexivity.
  - reflexivity.
  - vm_compute. discriminate.
  - vm_compute. reflexivity.
Defined.

(** Scenario D: 120 seconds at the sync, 180 seconds later: 0 seconds are
    left; 100 seconds earlier 40 were. *)
Example scenario_D_remaining :
  getLocalRemainingSeconds Sample.drained Sample.clock = 0%Q
  /\ (getLocalRemainingSeconds Sample.drained (Sample.clock - 100000) == 40 # 1)%Q.
Proof. split; vm_compute; reflexivity. Qed.

(** C7, as the code has it: when a session is open, no temporary disable is
    running and the projected remaining seconds are 0, [isFreeTime] is
    false. *)
Theorem exhausted_session_is_not_free_time (st : State) (c : Config) (now : Z) :
  config st = Some c ->
  Js.truthyStr (freeTimeStartedAt c) = true ->
  disabledNow c now = false ->
  (getLocalRemainingSeconds st now == 0)%Q ->
  isFreeTime st now = false.
Proof.
  intros Hc Hs Hd Hzero.
  unfold isFreeTime. unfold getLocalRemainingSeconds in Hzero.
  rewrite Hc in *. rewrite Hd. rewrite Hs in Hzero.
  destruct (freeTimeStartedAt c) as [s|]; [|reflexivity].
  destruct (lastSyncTime st) as [t|]; cbn in Hzero.
  - destruct (Z.eqb_spec t 0) as [E|N]; cbn in Hzero |- *.
    + apply positive_false_iff. rewrite Hzero. apply Qle_refl.
    + apply positive_false_iff. rewrite <- Hzero. apply Q.le_max_r.
  - apply positive_false_iff. rewrite Hzero. apply Qle_refl.
Qed.

(** Scenario D of the specification. *)
Lemma exhausted_session_is_not_free_time_witness :
  isFreeTime Sample.drained Sample.clock = false.
Proof.
  apply (exhausted_session_is_not_free_time Sample.drained Sample.sessionConfig).
  - reflexivity.
  - reflexivity.
  - reflexivity.
  - vm_compute. reflexivity.
Defined.

(** C7, as the claim has it, fails while a temporary disable is running: the
    session is open, 0 seconds are left, and [isFreeTime] is true. *)
Lemma exhausted_session_free_while_disabled :
  (exists c, config Sample.drainedButDisabled = Some c
             /\ Js.truthyStr (freeTimeStartedAt c) = true)
  /\ getLocalRemainingSeconds Sample.drainedButDisabled Sample.clock = 0%Q
  /\ isFreeTime Sample.drainedButDisabled Sample.clock = true.
Proof.
  split; [eexists; split; reflexivity|].
  split; vm_compute; reflexivity.
Qed.

(** C10: without a cached configuration, whatever the other variables and
    the clock, [isFreeTime] is false and [getLocalRemainingSeconds] is 0. *)
Theorem absent_config_no_free_time (st : State) (now : Z) :
  config st = None ->
  isFreeTime st now = false /\ getLocalRemainingSeconds st now = 0%Q.
Proof.
  intros Hc. unfold isFreeTime, getLocalRemainingSeconds.
  rewrite Hc. split; reflexivity.
Qed.

Lemma absent_config_no_free_time_witness :
  isFreeTime Sample.halfCleared Sample.clock = false
  /\ getLocalRemainingSeconds Sample.halfCleared Sample.clock = 0%Q.
Proof.
  apply (absent_config_no_free_time Sample.halfCleared Sample.clock).
  reflexivity.
Defined.

(* ================================================================= *)
(** ** Properties of the rule evaluator *)

Section EvaluatorFacts.

Context {browser : Platform}.

Lemma isFreeTime_withEnabled (st : State) (c : Config) (e : option bool) (now : Z) :
  config st = Some c ->
  isFreeTime (withConfig st (Some (withEnabled e c))) now = isFreeTime st now.
Proof.
  intros Hc. unfold isFreeTime. rewrite Hc. reflexivity.
Qed.

Lemma matchesWhitelist_withEnabled
      (st : State) (c : Config) (e : option bool) (url : string) :
  config st = Some c ->
  matchesWhitelist (withConfig st (Some (withEnabled e c))) url
  = matchesWhitelist st url.
Proof.
  intros Hc. unfold matchesWhitelist. rewrite Hc. reflexivity.
Qed.

(** C1, as the code has it: [shouldBlock] does not read the [enabled] field
    of the snapshot, its verdict is the same for every value of the field;
    the main toggle belongs to the first version of the worker, whose
    [shouldBlockUrl] allows every URL when [enabled] is false. *)
Theorem enabled_flag_is_not_consulted
        (st : State) (c : Config) (e : option bool) (now : Z) (url : string)
        (settings : Legacy.Settings) (clock : Legacy.Clock) :
  config st = Some c ->
  Legacy.enabled settings = false ->
  shouldBlock (withConfig st (Some (withEnabled e c))) now url
  = shouldBlock st now url
  /\ Legacy.shouldBlockUrl settings clock url = false.
Proof.
  intros Hc Hoff. split.
  - unfold shouldBlock.
    rewrite (isFreeTime_withEnabled st c e now Hc).
    rewrite (matchesWhitelist_withEnabled st c e url Hc).
    reflexivity.
  - unfold Legacy.shouldBlockUrl. rewrite Hoff. reflexivity.
Qed.

(** C4: a client without an identity blocks every URL that is not one of
    the browser's or the extension's own. *)
Theorem unconfigured_blocks_every_external_url
        (st : State) (now : Z) (url : string) :
  Js.truthyStr (configId st) = false ->
  internalUrl url = false ->
  shouldBlock st now url = true.
Proof.
  intros Hid Hext. unfold shouldBlock. rewrite Hext, Hid. reflexivity.
Qed.

Lemma matchesWhitelist_intro
      (st : State) (c : Config) (patterns : list string) (p url : string) :
  config st = Some c ->
  whitelist c = Some patterns ->
  In p patterns ->
  patternTest url p = true ->
  matchesWhitelist st url = true.
Proof.
  intros Hc Hw Hin Hp. unfold matchesWhitelist, Js.some. rewrite Hc, Hw.
  apply existsb_exists. exists p. split; assumption.
Qed.

Lemma matchesWhitelist_elim (st : State) (url : string) :
  matchesWhitelist st url = true ->
  exists c patterns p,
    config st = Some c /\ whitelist c = Some patterns /\ In p patterns
    /\ patternTest url p = true.
Proof.
  unfold matchesWhitelist, Js.some. intros H.
  destruct (config st) as [c|]; [|discriminate].
  destruct (whitelist c) as [patterns|] eqn:Hw; [|discriminate].
  apply existsb_exists in H. destruct H as [p [Hin Hp]].
  exists c, patterns, p. repeat split; assumption.
Qed.

(** C5, as the code has it: in a client with an identity, a URL that some
    allow-list pattern matches (as a case-insensitive regular expression,
    or, when the pattern does not compile, as text contained in the URL up
    to case) is allowed, whatever the free-time state. *)
Theorem allow_listed_url_is_allowed
        (st : State) (c : Config) (patterns : list string) (p : string)
        (now : Z) (url : string) :
  Js.truthyStr (configId st) = true ->
  config st = Some c ->
  whitelist c = Some patterns ->
  In p patterns ->
  match RegExp_new p true with
  | Some re => RegExp_test re url
  | None => Js.includes (Js.toLowerCase url) (Js.toLowerCase p)
  end = true ->
  shouldBlock st now url = false.
Proof.
  intros Hid Hc Hw Hin Hp.
  pose proof (matchesWhitelist_intro st c patterns p url Hc Hw Hin Hp) as Hm.
  unfold shouldBlock. rewrite Hid, Hm.
  destruct (internalUrl url); [reflexivity|]. cbn.
  destruct (isFreeTime st now); reflexivity.
Qed.

End EvaluatorFacts.

Lemma enabled_flag_is_not_consulted_witness :
  shouldBlock (browser := plainBrowser)
    (withConfig Sample.masterOff (Some (withEnabled (Some true) Sample.masterOffConfig)))
    Sample.clock "https://other.com"
  = shouldBlock (browser := plainBrowser) Sample.masterOff Sample.clock
                "https://other.com"
  /\ Legacy.shouldBlockUrl (browser := plainBrowser)
       Sample.toggledOff Sample.mondayNoon "https://other.com" = false.
Proof.
  apply (enabled_flag_is_not_consulted (browser := plainBrowser)
           Sample.masterOff Sample.masterOffConfig).
  - reflexivity.
  - reflexivity.
Defined.

(** C1, as the claim has it, fails: the snapshot has [enabled] false, the
    client is paired and out of free time, and the URL is blocked. *)
Lemma master_off_snapshot_still_blocks :
  (exists c, config Sample.masterOff = Some c /\ enabled c = Some false)
  /\ shouldBlock (browser := plainBrowser) Sample.masterOff Sample.clock
                 "https://other.com" = true.
Proof.
  split; [eexists; split; reflexivity|].
  vm_compute. reflexivity.
Qed.

Lemma unconfigured_blocks_every_external_url_witness :
  shouldBlock (browser := plainBrowser) (Sample.unpaired None None) Sample.clock
              "https://other.com" = true.
Proof.
  apply (unconfigured_blocks_every_external_url (browser := plainBrowser)).
  - reflexivity.
  - reflexivity.
Defined.

Lemma allow_listed_url_is_allowed_witness :
  shouldBlock (browser := plainBrowser) Sample.listedPaired Sample.clock
              "https://Example.com/page" = false.
Proof.
  apply (allow_listed_url_is_allowed (browser := plainBrowser)
           Sample.listedPaired Sample.listedConfig ["example"] "example").
  - reflexivity.
  - reflexivity.
  - reflexivity.
  - left. reflexivity.
  - vm_compute. reflexivity.
Defined.

(** C5, as the claim has it, fails in a client without an identity: the URL
    matches an allow-list pattern of the cached snapshot and is blocked. *)
Lemma allow_listed_url_blocked_when_unconfigured :
  matchesWhitelist (browser := plainBrowser) Sample.listedUnpaired
                   "https://example.com/page" = true
  /\ isFreeTime Sample.listedUnpaired Sample.clock = false
  /\ shouldBlock (browser := plainBrowser) Sample.listedUnpaired Sample.clock
                 "https://example.com/page" = true.
Proof. repeat split; vm_compute; reflexivity. Qed.

(* ================================================================= *)
(** ** Properties of the secondary evaluator *)

Lemma prefix_iff (p s : string) :
  String.prefix p s = true <-> exists after, s = (p ++ after)%string.
Proof.
  revert s. induction p as [|a p IH]; intros s; cbn.
  - split; [intros _; exists s; destruct s; reflexivity | destruct s; reflexivity].
  - destruct s as [|b s]; cbn.
    + split; [discriminate | intros [after H]; discriminate].
    + destruct (ascii_dec a b) as [->|Hne].
      * rewrite IH. split; intros [after H]; exists after.
        -- now rewrite H.
        -- now inversion H.
      * split; [discriminate|].
        intros [after H]. cbn in H. congruence.
Qed.

Lemma includes_iff (s sub : string) : Js.includes s sub = true <-> Js.Contains s sub.
Proof.
  unfold Js.Contains. induction s as [|c s IH]; cbn [Js.includes].
  - rewrite orb_false_r, prefix_iff. split.
    + intros [after H]. exists EmptyString, after. exact H.
    + intros [before [after H]]. destruct before; cbn in H.
      * exists after. exact H.
      * discriminate.
  - rewrite orb_true_iff, prefix_iff, IH. split.
    + intros [[after H]|[before [after H]]].
      * exists EmptyString, after. exact H.
      * exists (String c before), after. cbn. now rewrite H.
    + intros [before [after H]]. destruct before as [|b before]; cbn in H.
      * left. exists after. exact H.
      * right. inversion H. exists before, after. reflexivity.
Qed.

Lemma youtubeCreatorAllowed_some (st : State) (c : Config) (creators : list string)
      (name url : option string) :
  config st = Some c ->
  youtubeCreators c = Some creators ->
  youtubeCreatorAllowed st name url
  = existsb (creatorMatches (normalizeCreator name) (normalizeCreator url)) creators.
Proof.
  intros Hc Hl. unfold youtubeCreatorAllowed, Js.some. rewrite Hc, Hl.
  destruct creators; reflexivity.
Qed.

(** C2, as the code has it: a video is allowed on its creator exactly when
    the list of creators has an entry whose normalized form equals the
    normalized author name or author URL, or occurs inside one of them; an
    author value that is only a part of an entry does not match. *)
Theorem creator_allowed_iff_entry_within_author
        (st : State) (name url : option string) :
  youtubeCreatorAllowed st name url = true
  <-> exists c creators entry,
      config st = Some c /\ youtubeCreators c = Some creators /\ In entry creators
      /\ (normalizeCreator name = normalizeCreator (Some entry)
          \/ normalizeCreator url = normalizeCreator (Some entry)
          \/ Js.Contains (normalizeCreator name) (normalizeCreator (Some entry))
          \/ Js.Contains (normalizeCreator url) (normalizeCreator (Some entry))).
Proof.
  split.
  - intros H. unfold youtubeCreatorAllowed in H.
    destruct (config st) as [c|] eqn:Hc; [|discriminate].
    destruct (youtubeCreators c) as [creators|] eqn:Hl; [|discriminate].
    assert (He : existsb (creatorMatches (normalizeCreator name)
                                         (normalizeCreator url)) creators = true)
      by (destruct creators; [discriminate | exact H]).
    apply existsb_exists in He. destruct He as [entry [Hin Hm]].
    exists c, creators, entry. repeat split; try assumption; try reflexivity.
    unfold creatorMatches in Hm.
    rewrite !orb_true_iff, !String.eqb_eq, !includes_iff in Hm. tauto.
  - intros (c & creators & entry & Hc & Hl & Hin & Hm).
    rewrite (youtubeCreatorAllowed_some st c creators name url Hc Hl).
    apply existsb_exists. exists entry. split; [exact Hin|].
    unfold creatorMatches.
    rewrite !orb_true_iff, !String.eqb_eq, !includes_iff. tauto.
Qed.

Lemma creator_allowed_iff_entry_within_author_witness :
  youtubeCreatorAllowed Sample.creatorState (Some "Jane Doe")
                        (Some "https://www.youtube.com/@janedoe123") = true.
Proof.
  apply (proj2 (creator_allowed_iff_entry_within_author
                  Sample.creatorState (Some "Jane Doe")
                  (Some "https://www.youtube.com/@janedoe123"))).
  exists Sample.creatorConfig, ["@JaneDoe"], "@JaneDoe".
  split; [reflexivity|]. split; [reflexivity|]. split; [left; reflexivity|].
  right. right. right. exists EmptyString, "123". vm_compute. reflexivity.
Defined.

(** C2, as the claim has it, fails: the author's name and handle are parts
    of the entry, which the two-way test accepts, and the video is not
    allowed. *)
Lemma author_within_entry_is_not_allowed :
  existsb (creatorMatchesBothWays
             (normalizeCreator (Some "Jane"))
             (normalizeCreator (Some "https://www.youtube.com/@jane")))
          ["@JaneDoe"] = true
  /\ youtubeCreatorAllowed Sample.creatorState (Some "Jane")
                           (Some "https://www.youtube.com/@jane") = false.
Proof. split; vm_compute; reflexivity. Qed.

Lemma fetchYouTubeInfo_never_throws (r : FetchResult (option VideoInfo)) :
  exists info, fetchYouTubeInfo r = Normal info.
Proof.
  unfold fetchYouTubeInfo, tryCatch.
  destruct (fetchYouTubeInfo_body r) as [info|e]; eexists; reflexivity.
Qed.

Lemma fetchYouTubeInfo_failed (r : FetchResult (option VideoInfo)) :
  lookupFails r = true -> fetchYouTubeInfo r = Normal None.
Proof.
  destruct r as [|status body]; cbn; intros H.
  - reflexivity.
  - unfold fetchYouTubeInfo, fetchYouTubeInfo_body. cbn.
    apply negb_true_iff in H. rewrite H. reflexivity.
Qed.

Section CheckYouTubeFacts.

Context {browser : Platform}.

(** The callback answers a missing result without reading the state. *)
Lemma checkYouTube_resume_unverified (st : State) (url : string) :
  checkYouTube_resume st url None
  = Normal (blockReply "Could not verify video" None None url).
Proof. reflexivity. Qed.

(** C8: when the handler issues the lookup for a watch page and the lookup
    fails (the fetch rejects, or the response is not OK), the handler
    completes normally with a Block answer whose reason is "Could not
    verify video". *)
Theorem failed_lookup_blocks_with_reason
        (st : State) (now : Z) (url request : string)
        (r : FetchResult (option VideoInfo)) :
  checkYouTube_start st now url = Lookup request ->
  lookupFails r = true ->
  checkYouTube st now url r
  = Normal {| shouldCheck := true; allowed := Some false; replyTitle := None;
              replyAuthor := None; reason := Some "Could not verify video";
              replyBlockedUrl := Some (blockedUrl url) |}.
Proof.
  intros Hstart Hfail. unfold checkYouTube.
  rewrite Hstart, (fetchYouTubeInfo_failed r Hfail). reflexivity.
Qed.

(** The loop over the open tabs treats a failed lookup the same way: the
    tab is sent to the blocked page. *)
Lemma failed_lookup_redirects_open_tab
      (st : State) (now : Z) (tab : Tab) (url : string) :
  tab_url tab = Some url ->
  Js.nonempty url = true ->
  internalUrl url = false ->
  shouldBlock st now url = false ->
  isYouTubeVideo url = true ->
  lookupFails (tab_lookup tab) = true ->
  checkTab st now tab = Normal (Some (Redirect (tab_id tab) (blockedUrl url))).
Proof.
  intros Hu Hn Hi Hb Hv Hf. unfold checkTab.
  rewrite Hu, Hn, Hi, Hb, Hv, (fetchYouTubeInfo_failed _ Hf). reflexivity.
Qed.

(** A temporary disable that is still running allows every URL of a paired
    client (Scenario C of the specification). *)
Lemma temporary_disable_allows
      (st : State) (c : Config) (now : Z) (url : string) :
  Js.truthyStr (configId st) = true ->
  config st = Some c ->
  disabledNow c now = true ->
  shouldBlock st now url = false.
Proof.
  intros Hid Hc Hd. unfold shouldBlock, isFreeTime. rewrite Hid, Hc, Hd.
  destruct (internalUrl url); reflexivity.
Qed.

End CheckYouTubeFacts.

Lemma failed_lookup_blocks_with_reason_witness :
  checkYouTube (browser := plainBrowser) Sample.creatorState Sample.clock
               "https://www.youtube.com/watch?v=abc" (FetchResponse 503 None)
  = Normal {| shouldCheck := true; allowed := Some false; replyTitle := None;
              replyAuthor := None; reason := Some "Could not verify video";
              replyBlockedUrl :=
                Some (blockedUrl (browser := plainBrowser)
                                 "https://www.youtube.com/watch?v=abc") |}.
Proof.
  apply (failed_lookup_blocks_with_reason (browser := plainBrowser)
           Sample.creatorState Sample.clock "https://www.youtube.com/watch?v=abc"
           (youtubeInfoUrl Sample.creatorState "https://www.youtube.com/watch?v=abc")).
  - vm_compute. reflexivity.
  - reflexivity.
Defined.

Example open_watch_page_unverified :
  checkOpenTabs (browser := plainBrowser) Sample.creatorState Sample.clock
                [Sample.openWatchPage]
  = [Redirect 3 (blockedUrl (browser := plainBrowser)
                            "https://www.youtube.com/watch?v=abc")].
Proof. vm_compute. reflexivity. Qed.

(** Scenario E of the specification: no creator matches, the title has the
    keyword, the video is allowed. *)
Example scenario_E_keyword :
  checkYouTube_resume (browser := plainBrowser) Sample.keywordState
                      "https://www.youtube.com/watch?v=abc" (Some Sample.lecture)
  = Normal {| shouldCheck := true; allowed := Some true;
              replyTitle := Some "Algebra Lecture 1"; replyAuthor := None;
              reason := None; replyBlockedUrl := None |}.
Proof. reflexivity. Qed.

(** An answer of the server without a title, with keywords in the snapshot:
    the callback stops at [title.toLowerCase()] and sends no reply. *)
Example missing_title_is_unanswered :
  checkYouTube_resume (browser := plainBrowser) Sample.keywordState
                      "https://www.youtube.com/watch?v=abc"
                      (Some {| title := None; authorName := Some "Jane Doe";
                               authorUrl := None |})
  = Throw TypeError.
Proof. reflexivity. Qed.

(* ================================================================= *)
(** ** Properties of the sync client *)

Lemma syncConfig_settle_failed (w : Worker) (now : Z) (r : FetchResult (option Config)) :
  refreshFails r = true -> syncConfig_settle w now r = Normal w.
Proof.
  unfold syncConfig_settle, syncConfig_body.
  destruct r as [|status body]; cbn; intros H.
  - reflexivity.
  - destruct (statusOk status).
    + destruct body; [discriminate | reflexivity].
    + apply negb_true_iff in H. rewrite H. reflexivity.
Qed.

(** C9: when a refresh ends in neither success nor "not found", [syncConfig]
    completes normally and leaves the worker as it was: the cached
    configuration, the last sync time, the other variables and the storage;
    so does the handler of the settled fetch in the event-driven worker. *)
Theorem failed_refresh_keeps_last_known_good
        (w : Worker) (now : Z) (r : FetchResult (option Config)) :
  refreshFails r = true ->
  syncConfig w now r = Normal w
  /\ config (vars (onSyncSettled w now r)) = config (vars w)
  /\ lastSyncTime (vars (onSyncSettled w now r)) = lastSyncTime (vars w)
  /\ disk (onSyncSettled w now r) = disk w.
Proof.
  intros H. split.
  - unfold syncConfig. destruct (negb (syncConfig_guard (vars w))); [reflexivity|].
    apply syncConfig_settle_failed, H.
  - unfold onSyncSettled. destruct (pending w) as [|n].
    + repeat split.
    + rewrite (syncConfig_settle_failed _ now r H). repeat split.
Qed.

Lemma failed_refresh_keeps_last_known_good_witness :
  syncConfig Sample.running Sample.clock (FetchResponse 500 None)
  = Normal Sample.running
  /\ config (vars (onSyncSettled Sample.running Sample.clock (FetchResponse 500 None)))
     = config (vars Sample.running)
  /\ lastSyncTime (vars (onSyncSettled Sample.running Sample.clock
                                       (FetchResponse 500 None)))
     = lastSyncTime (vars Sample.running)
  /\ disk (onSyncSettled Sample.running Sample.clock (FetchResponse 500 None))
     = disk Sample.running.
Proof.
  apply (failed_refresh_keeps_last_known_good
           Sample.running Sample.clock (FetchResponse 500 None)).
  reflexivity.
Defined.

(** The two outcomes the claim leaves out do change the cache. *)
Example refresh_success_replaces_snapshot :
  syncConfig Sample.running Sample.clock
             (FetchResponse 200 (Some (Some Sample.listedConfig)))
  = Normal {| vars := Sample.paired (Some Sample.listedConfig) (Some Sample.clock);
              disk := {| stored_apiUrl := Some "https://focus.example";
                         stored_configId := Some "ABCD-1234";
                         stored_config := Some Sample.listedConfig;
                         stored_lastSyncTime := Some Sample.clock |};
              readAtStart := Sample.pairedDisk;
              waiting := []; pending := 0%nat; trace := [Loaded] |}.
Proof. reflexivity. Qed.

Example refresh_not_found_clears :
  syncConfig Sample.running Sample.clock (FetchResponse 404 None)
  = Normal {| vars := Sample.unpaired None None;
              disk := {| stored_apiUrl := Some "https://focus.example";
                         stored_configId := None; stored_config := None;
                         stored_lastSyncTime := None |};
              readAtStart := Sample.pairedDisk;
              waiting := []; pending := 0%nat; trace := [Loaded] |}.
Proof. reflexivity. Qed.

(* ================================================================= *)
(** ** Properties of the navigation gate *)


Section GateFacts.

Context {browser : Platform}.

Lemma gate_vars (w : Worker) (now tabId : Z) (url : string) :
  vars (gate w now tabId url) = vars w.
Proof. unfold gate. destruct (shouldBlock (vars w) now url); reflexivity. Qed.





Lemma gate_disk (w : Worker) (now tabId : Z) (url : string) :
  disk (gate w now tabId url) = disk w.
Proof. unfold gate. destruct (shouldBlock (vars w) now url); reflexivity. Qed.

Lemma gate_waiting (w : Worker) (now tabId : Z) (url : string) :
  waiting (gate w now tabId url) = waiting w.
Proof. unfold gate. destruct (shouldBlock (vars w) now url); reflexivity. Qed.

Lemma gate_decided (w : Worker) (now tabId : Z) (url : string) :
  decided (trace (gate w now tabId url)) = S (decided (trace w)).
Proof. unfold gate. destruct (shouldBlock (vars w) now url); reflexivity. Qed.

Lemma gate_redirected (w : Worker) (now tabId : Z) (url : string) :
  redirected (trace w) -> redirected (trace (gate w now tabId url)).
Proof.
  intros H. unfold gate. destruct (shouldBlock (vars w) now url); cbn.
  - split; [reflexivity | exact H].
  - exact H.
Qed.

Lemma gate_readAtStart (w : Worker) (now tabId : Z) (url : string) :
  readAtStart (gate w now tabId url) = readAtStart w.
Proof. unfold gate. destruct (shouldBlock (vars w) now url); reflexivity. Qed.

Lemma gate_pending (w : Worker) (now tabId : Z) (url : string) :
  pending (gate w now tabId url) = pending w.
Proof. unfold gate. destruct (shouldBlock (vars w) now url); reflexivity. Qed.


(** What the suspended listeners leave alone and what they add. *)
Lemma resume_fold_state (navs : list (Z * string)) (w : Worker) (now : Z) :
  let w' := fold_left (fun a n => gate a now (fst n) (snd n)) navs w in
  vars w' = vars w /\ disk w' = disk w /\ waiting w' = waiting w
  /\ decided (trace w') = (decided (trace w) + List.length navs)%nat
  /\ (redirected (trace w) -> redirected (trace w')).
Proof.
  revert w. induction navs as [|n navs IH]; intros w; cbn.
  - repeat split; try reflexivity; [lia | exact (fun H => H)].
  - destruct (IH (gate w now (fst n) (snd n))) as (Hv & Hd & Hw & Hc & Hr).
    rewrite Hv, Hd, Hw, Hc, gate_vars, gate_disk, gate_waiting, gate_decided.
    repeat split; try reflexivity; [lia|].
    intros H. apply Hr, gate_redirected, H.
Qed.

Lemma resume_fold_start (navs : list (Z * string)) (w : Worker) (now : Z) :
  let w' := fold_left (fun a n => gate a now (fst n) (snd n)) navs w in
  readAtStart w' = readAtStart w /\ pending w' = pending w.
Proof.
  revert w. induction navs as [|n navs IH]; intros w; cbn.
  - split; reflexivity.
  - destruct (IH (gate w now (fst n) (snd n))) as (Hr & Hp).
    rewrite Hr, Hp, gate_readAtStart, gate_pending. split; reflexivity.
Qed.










End GateFacts.

Section StartUp.

Context {browser : Platform}.


End StartUp.



(** A client can lose its identity and keep a snapshot: a refresh that was
    on its way when the configuration was cleared stores its answer. *)
Example snapshot_without_identity_is_reachable :
  vars (run (browser := plainBrowser) (boot Sample.pairedDisk)
            Sample.clearedDuringRefresh)
  = Sample.listedUnpaired.
Proof. vm_compute. reflexivity. Qed.

(** The first version drops a pattern that does not compile: a URL that
    contains the text of the pattern is blocked. *)
Example first_version_drops_broken_pattern :
  Legacy.compileRegexes (browser := plainBrowser) ["("] = []
  /\ Legacy.shouldBlockUrl (browser := plainBrowser) Sample.brokenPattern
                           Sample.mondayNoon "https://other.com/(" = true.
Proof. split; vm_compute; reflexivity. Qed.


(* ================================================================= *)
(** ** Further properties of the budget tracker *)

Lemma positive_true_iff (x : Q) : Js.positive x = true <-> (0 < x)%Q.
Proof.
  unfold Js.positive. rewrite negb_true_iff, <- not_true_iff_false, Qle_bool_iff.
  split; [apply Qnot_le_lt | apply Qlt_not_le].
Qed.

Lemma positive_floor (x : Q) : Js.positive (Qmax 0 x) = Js.positive x.
Proof.
  destruct (Js.positive x) eqn:Hx.
  - apply positive_true_iff. apply positive_true_iff in Hx.
    apply Qlt_le_trans with x; [exact Hx | apply Q.le_max_r].
  - apply positive_false_iff. apply positive_false_iff in Hx.
    apply Q.max_lub; [apply Qle_refl | exact Hx].
Qed.

Lemma nowBefore_earlier (d : Js.Date) (now1 now2 : Z) :
  now1 <= now2 -> Js.nowBefore now2 d = true -> Js.nowBefore now1 d = true.
Proof.
  destruct d as [ms|]; cbn; [|discriminate].
  rewrite !Z.ltb_lt. lia.
Qed.

Lemma positive_earlier (rem : Q) (t now1 now2 : Z) :
  now1 <= now2 ->
  Js.positive (rem - secondsSinceSync now2 t) = true ->
  Js.positive (rem - secondsSinceSync now1 t) = true.
Proof.
  intros Hle. rewrite !positive_true_iff. intros H.
  apply Qlt_le_trans with (rem - secondsSinceSync now2 t)%Q; [exact H|].
  apply Qplus_le_compat; [apply Qle_refl|].
  apply Qopp_le_compat, secondsSinceSync_mono, Hle.
Qed.

(** X1: for fixed variables, free time that holds at some moment held at
    every earlier moment: once it has ended (the temporary disable has run
    out, the session has drained) it does not come back until the variables
    change. *)
Theorem free_time_does_not_resume (st : State) (now1 now2 : Z) :
  now1 <= now2 ->
  isFreeTime st now2 = true ->
  isFreeTime st now1 = true.
Proof.
  intros Hle. unfold isFreeTime, disabledNow.
  destruct (config st) as [c|]; [|discriminate].
  destruct (disabledUntil c) as [d|].
  - destruct (Js.nowBefore now2 d) eqn:H2.
    + rewrite (nowBefore_earlier d now1 now2 Hle H2). reflexivity.
    + destruct (Js.nowBefore now1 d); [reflexivity|].
      destruct (freeTimeStartedAt c); [|discriminate].
      destruct (lastSyncTime st) as [t|]; [|exact (fun H => H)].
      destruct (negb (t =? 0)); [apply positive_earlier, Hle | exact (fun H => H)].
  - destruct (freeTimeStartedAt c); [|discriminate].
    destruct (lastSyncTime st) as [t|]; [|exact (fun H => H)].
    destruct (negb (t =? 0)); [apply positive_earlier, Hle | exact (fun H => H)].
Qed.

Lemma free_time_does_not_resume_witness :
  isFreeTime Sample.inSession (Sample.clock - 30000) = true.
Proof.
  apply (free_time_does_not_resume Sample.inSession (Sample.clock - 30000)
                                   Sample.clock).
  - vm_compute. discriminate.
  - vm_compute. reflexivity.
Defined.

(** X2: with an open session, [isFreeTime] is true exactly when a temporary
    disable is running or [getLocalRemainingSeconds] is positive: the two
    functions of the [getState] answer never disagree. *)
Theorem free_time_iff_disabled_or_remaining (st : State) (c : Config) (now : Z) :
  config st = Some c ->
  Js.truthyStr (freeTimeStartedAt c) = true ->
  isFreeTime st now
  = disabledNow c now || Js.positive (getLocalRemainingSeconds st now).
Proof.
  intros Hc Hs. unfold isFreeTime, getLocalRemainingSeconds.
  rewrite Hc, Hs.
  destruct (disabledNow c now); [reflexivity|]. cbn [orb].
  destruct (freeTimeStartedAt c) as [s|]; [|discriminate].
  destruct (lastSyncTime st) as [t|]; cbn; [|reflexivity].
  destruct (negb (t =? 0)); cbn; [|reflexivity].
  symmetry. apply positive_floor.
Qed.

Lemma free_time_iff_disabled_or_remaining_witness :
  isFreeTime Sample.inSession Sample.clock
  = disabledNow Sample.sessionConfig Sample.clock
    || Js.positive (getLocalRemainingSeconds Sample.inSession Sample.clock).
Proof.
  apply (free_time_iff_disabled_or_remaining Sample.inSession Sample.sessionConfig).
  - reflexivity.
  - reflexivity.
Defined.

(* ================================================================= *)
(** ** Further properties of the rule evaluator *)

Section EvaluatorMore.

Context {browser : Platform}.

(** X3: when the pages of the extension have addresses that start with
    [chrome-extension://], the blocked page is never blocked itself: the
    navigation listener decides Allow for it and makes no redirect, and the
    loop over the open tabs leaves a tab that shows it alone. *)
Theorem blocked_page_is_never_blocked
        (w : Worker) (now tabId : Z) (url : string) (tab : Tab) :
  (forall path, Js.startsWith (runtime_getURL path) "chrome-extension://" = true) ->
  tab_url tab = Some (blockedUrl url) ->
  shouldBlock (vars w) now (blockedUrl url) = false
  /\ trace (gate w now tabId (blockedUrl url))
     = Decided (blockedUrl url) false :: trace w
  /\ checkTab (vars w) now tab = Normal None.
Proof.
  intros Hext Htab.
  assert (Hint : internalUrl (blockedUrl url) = true).
  { unfold internalUrl, blockedUrl. rewrite Hext. apply orb_true_r. }
  assert (Hallow : shouldBlock (vars w) now (blockedUrl url) = false).
  { unfold shouldBlock. rewrite Hint. reflexivity. }
  split; [exact Hallow|]. split.
  - unfold gate. rewrite Hallow. reflexivity.
  - unfold checkTab. rewrite Htab, Hint.
    destruct (negb (Js.nonempty (blockedUrl url))); reflexivity.
Qed.

(** X4: for a watch page, the navigation listener and the [checkYouTube]
    handler agree on a client without an identity: the listener blocks the
    page exactly when the client has none, and exactly then the handler
    answers "Extension not configured"; with an identity the listener
    leaves the page to the handler. *)
Theorem watch_page_left_to_the_check (st : State) (now : Z) (url : string) :
  isYouTubeVideo url = true ->
  internalUrl url = false ->
  (shouldBlock st now url = true <-> Js.truthyStr (configId st) = false)
  /\ (checkYouTube_start st now url
      = Replied (blockReply "Extension not configured" None None url)
      <-> Js.truthyStr (configId st) = false).
Proof.
  intros Hv He. unfold shouldBlock, checkYouTube_start. rewrite He, Hv.
  destruct (Js.truthyStr (configId st)); cbn.
  - split.
    + destruct (isFreeTime st now); [split; discriminate|].
      destruct (matchesWhitelist st url); [split; discriminate|].
      destruct (isYouTubeAllowedPage url); split; discriminate.
    + destruct (isFreeTime st now); [split; discriminate|].
      destruct (matchesWhitelist st url); split; discriminate.
  - split; split; reflexivity.
Qed.

End EvaluatorMore.

Lemma blocked_page_is_never_blocked_witness :
  shouldBlock (browser := plainBrowser) (vars Sample.running) Sample.clock
              (blockedUrl (browser := plainBrowser) "https://other.com") = false
  /\ trace (gate (browser := plainBrowser) Sample.running Sample.clock 7
                 (blockedUrl (browser := plainBrowser) "https://other.com"))
     = Decided (blockedUrl (browser := plainBrowser) "https://other.com") false
       :: trace Sample.running
  /\ checkTab (browser := plainBrowser) (vars Sample.running) Sample.clock
              {| tab_id := 7;
                 tab_url := Some (blockedUrl (browser := plainBrowser)
                                             "https://other.com");
                 tab_lookup := FetchRejected |}
     = Normal None.
Proof.
  apply (blocked_page_is_never_blocked (browser := plainBrowser)).
  - intros path. reflexivity.
  - reflexivity.
Defined.

Lemma watch_page_left_to_the_check_witness :
  (shouldBlock (browser := plainBrowser) Sample.creatorState Sample.clock
               "https://www.youtube.com/watch?v=abc" = true
   <-> Js.truthyStr (configId Sample.creatorState) = false)
  /\ (checkYouTube_start (browser := plainBrowser) Sample.creatorState Sample.clock
                         "https://www.youtube.com/watch?v=abc"
      = Replied (blockReply (browser := plainBrowser) "Extension not configured"
                            None None "https://www.youtube.com/watch?v=abc")
      <-> Js.truthyStr (configId Sample.creatorState) = false).
Proof.
  apply (watch_page_left_to_the_check (browser := plainBrowser)).
  - vm_compute. reflexivity.
  - reflexivity.
Defined.

(* ================================================================= *)
(** ** Further properties of the secondary evaluator *)

Lemma lower_unit_idem (c : ascii) : Js.lower_unit (Js.lower_unit c) = Js.lower_unit c.
Proof. destruct c as [[] [] [] [] [] [] [] []]; reflexivity. Qed.

Lemma allUnits_app (f : ascii -> bool) (a b : string) :
  Js.allUnits f (a ++ b) = Js.allUnits f a && Js.allUnits f b.
Proof.
  induction a as [|c a IH]; cbn; [reflexivity|].
  rewrite IH. apply andb_assoc.
Qed.

Lemma allUnits_weaken (f g : ascii -> bool) (s : string) :
  (forall c, f c = true -> g c = true) ->
  Js.allUnits f s = true -> Js.allUnits g s = true.
Proof.
  intros Hfg. induction s as [|c s IH]; cbn; [reflexivity|].
  rewrite !andb_true_iff. intros [Hc Hs]. split; [apply Hfg, Hc | apply IH, Hs].
Qed.

Lemma toLowerCase_app (a b : string) :
  Js.toLowerCase (a ++ b) = (Js.toLowerCase a ++ Js.toLowerCase b)%string.
Proof. induction a as [|c a IH]; cbn; [reflexivity | now rewrite IH]. Qed.

Lemma toLowerCase_lowered (s : string) :
  Js.allUnits Js.lowered (Js.toLowerCase s) = true.
Proof.
  induction s as [|c s IH]; cbn; [reflexivity|].
  rewrite IH, andb_true_r. unfold Js.lowered.
  rewrite lower_unit_idem. apply Ascii.eqb_refl.
Qed.

Lemma lowered_fixed (s : string) :
  Js.allUnits Js.lowered s = true -> Js.toLowerCase s = s.
Proof.
  induction s as [|c s IH]; cbn; [reflexivity|].
  rewrite andb_true_iff. intros [Hc Hs].
  apply Ascii.eqb_eq in Hc. now rewrite Hc, (IH Hs).
Qed.

Lemma allUnits_trimStart (f : ascii -> bool) (s : string) :
  Js.allUnits f s = true -> Js.allUnits f (Js.trimStart s) = true.
Proof.
  induction s as [|c s IH]; cbn; [reflexivity|].
  rewrite andb_true_iff. intros [Hc Hs].
  destruct (Js.is_space c); [apply IH, Hs|]. cbn. now rewrite Hc, Hs.
Qed.

Lemma allUnits_trimEnd (f : ascii -> bool) (s : string) :
  Js.allUnits f s = true -> Js.allUnits f (Js.trimEnd s) = true.
Proof.
  induction s as [|c s IH]; cbn; [reflexivity|].
  rewrite andb_true_iff. intros [Hc Hs]. specialize (IH Hs).
  destruct (Js.trimEnd s) as [|x r].
  - destruct (Js.is_space c); cbn; [reflexivity | now rewrite Hc].
  - cbn in *. now rewrite Hc, IH.
Qed.

Lemma strip_eq (p s r : string) : Js.strip p s = Some r -> s = (p ++ r)%string.
Proof.
  revert s. induction p as [|a p IH]; intros s; cbn.
  - intros H. now inversion H.
  - destruct s as [|b s]; [discriminate|].
    destruct (Ascii.eqb_spec a b) as [->|]; [|discriminate].
    intros H. now rewrite (IH s H).
Qed.

Lemma allUnits_replacePrefix (f : ascii -> bool) (alts : list string) (s : string) :
  Js.allUnits f s = true -> Js.allUnits f (Js.replacePrefix alts s) = true.
Proof.
  intros Hs. induction alts as [|p alts IH]; cbn; [exact Hs|].
  destruct (Js.strip p s) as [r|] eqn:Hr; [|exact IH].
  apply strip_eq in Hr. subst s.
  rewrite allUnits_app, andb_true_iff in Hs. apply Hs.
Qed.

Lemma allUnits_splitHead (f : ascii -> bool) (sep : ascii) (s : string) :
  Js.allUnits f s = true -> Js.allUnits f (Js.splitHead sep s) = true.
Proof.
  induction s as [|c s IH]; cbn; [reflexivity|].
  rewrite andb_true_iff. intros [Hc Hs].
  destruct (Ascii.eqb c sep); cbn; [reflexivity | now rewrite Hc, (IH Hs)].
Qed.

Lemma splitHead_without (sep : ascii) (s : string) :
  Js.allUnits (fun c => negb (Ascii.eqb c sep)) (Js.splitHead sep s) = true.
Proof.
  induction s as [|c s IH]; cbn; [reflexivity|].
  destruct (Ascii.eqb c sep) eqn:Hc; cbn; [reflexivity | now rewrite Hc, IH].
Qed.

Lemma includes_unit_absent (c : ascii) (s : string) :
  Js.allUnits (fun x => negb (Ascii.eqb x c)) s = true ->
  Js.includes s (String c EmptyString) = false.
Proof.
  induction s as [|x s IH]; cbn; [reflexivity|].
  rewrite andb_true_iff, negb_true_iff. intros [Hx Hs].
  rewrite (IH Hs), orb_false_r.
  destruct (ascii_dec c x) as [->|]; [|reflexivity].
  rewrite Ascii.eqb_refl in Hx. discriminate.
Qed.

Lemma normalizeCreator_units (f : ascii -> bool) (i : string) :
  Js.allUnits f (Js.toLowerCase i) = true ->
  Js.allUnits f (normalizeCreator (Some i)) = true.
Proof.
  intros H. unfold normalizeCreator.
  destruct (negb (Js.nonempty i)); [reflexivity|].
  apply allUnits_splitHead. repeat apply allUnits_replacePrefix.
  unfold Js.trim. apply allUnits_trimEnd, allUnits_trimStart, H.
Qed.

(** X5: whatever is given to [normalizeCreator], the result has no [/] and
    is in lower case (lower-casing it again changes nothing). *)
Theorem normalized_creator_is_one_lower_case_segment (input : option string) :
  Js.includes (normalizeCreator input) "/" = false
  /\ Js.toLowerCase (normalizeCreator input) = normalizeCreator input.
Proof.
  destruct input as [i|]; [|split; reflexivity]. split.
  - apply includes_unit_absent. unfold normalizeCreator.
    destruct (negb (Js.nonempty i)); [reflexivity|]. apply splitHead_without.
  - apply lowered_fixed, normalizeCreator_units, toLowerCase_lowered.
Qed.

Lemma includes_empty (s : string) : Js.includes s "" = true.
Proof. destruct s; reflexivity. Qed.

(** X6: an entry of the list of creators that normalizes to the empty
    string (a bare scheme, [@] or [/]) allows every video, whoever its
    author is and even when the author is unknown. *)
Theorem empty_entry_allows_every_video
        (st : State) (c : Config) (creators : list string) (entry : string)
        (name url : option string) :
  config st = Some c ->
  youtubeCreators c = Some creators ->
  In entry creators ->
  normalizeCreator (Some entry) = "" ->
  youtubeCreatorAllowed st name url = true.
Proof.
  intros Hc Hl Hin Hempty.
  rewrite (youtubeCreatorAllowed_some st c creators name url Hc Hl).
  apply existsb_exists. exists entry. split; [exact Hin|].
  unfold creatorMatches. rewrite Hempty, includes_empty.
  rewrite orb_true_r. reflexivity.
Qed.

Lemma empty_entry_allows_every_video_witness :
  youtubeCreatorAllowed Sample.schemeOnlyState (Some "Somebody Else") None = true.
Proof.
  apply (empty_entry_allows_every_video
           Sample.schemeOnlyState Sample.schemeOnlyConfig
           ["@JaneDoe"; "https://"] "https://").
  - reflexivity.
  - reflexivity.
  - right. left. reflexivity.
  - reflexivity.
Defined.

Lemma handleUnit_plain (c : ascii) :
  handleUnit c = true ->
  Js.lowered c = true /\ Js.is_space c = false
  /\ negb (Ascii.eqb c "/") = true /\ negb (Ascii.eqb c ".") = true
  /\ negb (Ascii.eqb c "@") = true.
Proof.
  destruct c as [[] [] [] [] [] [] [] []]; vm_compute; intros H;
    try discriminate H; repeat split.
Qed.

Lemma trimEnd_cons (c : ascii) (s : string) :
  Js.is_space c = false -> Js.trimEnd (String c s) = String c (Js.trimEnd s).
Proof.
  intros Hc. cbn. rewrite Hc. destruct (Js.trimEnd s); reflexivity.
Qed.

Lemma trimEnd_app (a s : string) :
  Js.allUnits (fun c => negb (Js.is_space c)) a = true ->
  Js.trimEnd (a ++ s) = (a ++ Js.trimEnd s)%string.
Proof.
  induction a as [|c a IH]; [reflexivity|].
  cbn [Js.allUnits]. rewrite andb_true_iff, negb_true_iff. intros [Hc Ha].
  cbn [append]. rewrite (trimEnd_cons c _ Hc), (IH Ha). reflexivity.
Qed.

Lemma trimStart_app (a s : string) :
  Js.allUnits (fun c => negb (Js.is_space c)) a = true ->
  a <> "" ->
  Js.trimStart (a ++ s) = (a ++ s)%string.
Proof.
  destruct a as [|c a]; [contradiction|].
  cbn. rewrite andb_true_iff, negb_true_iff. intros [Hc _] _. now rewrite Hc.
Qed.

Lemma strip_absent (c : ascii) (p h : string) :
  Js.allUnits (fun x => negb (Ascii.eqb x c)) h = true ->
  Js.allUnits (fun x => negb (Ascii.eqb x c)) p = false ->
  Js.strip p h = None.
Proof.
  intros Hh Hp. destruct (Js.strip p h) as [r|] eqn:Hr; [|reflexivity].
  apply strip_eq in Hr. subst h.
  rewrite allUnits_app, Hp in Hh. discriminate.
Qed.

(** The input in lower case without white space at its ends, as
    [normalizeCreator] has it before it removes the prefixes. *)
Lemma normalizeCreator_clean (a s : string) :
  Js.allUnits (fun c => Js.lowered c && negb (Js.is_space c)) a = true ->
  a <> "" ->
  normalizeCreator (Some (a ++ s))
  = Js.splitHead "/"
      (Js.replacePrefix ["c/"; "channel/"; "user/"]
         (Js.replacePrefix ["/c/"; "/channel/"; "/user/"]
            (Js.replacePrefix ["@"]
               (Js.replacePrefix ["youtube.com/"]
                  (Js.replacePrefix ["www."]
                     (Js.replacePrefix ["https://"; "http://"]
                        (a ++ Js.trimEnd (Js.toLowerCase s)))))))).
Proof.
  intros Ha Hne.
  assert (Hlow : Js.allUnits Js.lowered a = true).
  { revert Ha. apply allUnits_weaken.
    intros c Hc. apply andb_true_iff in Hc. apply Hc. }
  assert (Hsp : Js.allUnits (fun c => negb (Js.is_space c)) a = true).
  { revert Ha. apply allUnits_weaken.
    intros c Hc. apply andb_true_iff in Hc. apply Hc. }
  unfold normalizeCreator.
  assert (Hn : Js.nonempty (a ++ s) = true) by (destruct a; [contradiction | reflexivity]).
  rewrite Hn. cbn [negb].
  rewrite toLowerCase_app, (lowered_fixed a Hlow). unfold Js.trim.
  rewrite (trimStart_app a _ Hsp Hne), (trimEnd_app a _ Hsp). reflexivity.
Qed.

Lemma plain_units (h : string) :
  Js.allUnits handleUnit h = true ->
  Js.allUnits (fun c => Js.lowered c && negb (Js.is_space c)) h = true
  /\ Js.allUnits (fun x => negb (Ascii.eqb x "/")) h = true
  /\ Js.allUnits (fun x => negb (Ascii.eqb x ".")) h = true
  /\ Js.allUnits (fun x => negb (Ascii.eqb x "@")) h = true.
Proof.
  intros H. repeat split; revert H; apply allUnits_weaken;
    intros c Hc; destruct (handleUnit_plain c Hc) as (H1 & H2 & H3 & H4 & H5);
    try assumption.
  now rewrite H1, H2.
Qed.

Lemma replacePrefix_absent (c : ascii) (alts : list string) (h : string) :
  Js.allUnits (fun x => negb (Ascii.eqb x c)) h = true ->
  forallb (fun p => negb (Js.allUnits (fun x => negb (Ascii.eqb x c)) p)) alts = true ->
  Js.replacePrefix alts h = h.
Proof.
  intros Hh. induction alts as [|p alts IH]; cbn [forallb Js.replacePrefix];
    [reflexivity|].
  rewrite andb_true_iff, negb_true_iff. intros [Hp Halts].
  rewrite (strip_absent c p h Hh Hp). apply IH, Halts.
Qed.

Lemma splitHead_absent (sep : ascii) (h : string) :
  Js.allUnits (fun x => negb (Ascii.eqb x sep)) h = true ->
  Js.splitHead sep h = h.
Proof.
  induction h as [|c h IH]; cbn; [reflexivity|].
  rewrite andb_true_iff, negb_true_iff. intros [Hc Hh]. now rewrite Hc, (IH Hh).
Qed.

Lemma splitHead_app (sep : ascii) (h rest : string) :
  Js.allUnits (fun x => negb (Ascii.eqb x sep)) h = true ->
  Js.splitHead sep (h ++ String sep rest) = h.
Proof.
  induction h as [|c h IH]; cbn.
  - now rewrite Ascii.eqb_refl.
  - rewrite andb_true_iff, negb_true_iff. intros [Hc Hh]. now rewrite Hc, (IH Hh).
Qed.

(** The tail of the normalization on a plain handle. *)
Lemma handle_kept (h : string) :
  Js.allUnits handleUnit h = true ->
  Js.splitHead "/"
    (Js.replacePrefix ["c/"; "channel/"; "user/"]
       (Js.replacePrefix ["/c/"; "/channel/"; "/user/"] h)) = h.
Proof.
  intros H. destruct (plain_units h H) as (_ & Hs & _ & _).
  rewrite (replacePrefix_absent "/" ["/c/"; "/channel/"; "/user/"] h Hs) by reflexivity.
  rewrite (replacePrefix_absent "/" ["c/"; "channel/"; "user/"] h Hs) by reflexivity.
  apply splitHead_absent, Hs.
Qed.

Lemma append_empty (s : string) : (s ++ "")%string = s.
Proof. induction s as [|c s IH]; cbn; [reflexivity | now rewrite IH]. Qed.

Lemma strip_other_segment (q h rest : string) :
  Js.allUnits (fun x => negb (Ascii.eqb x "/")) h = true ->
  Js.allUnits (fun x => negb (Ascii.eqb x "/")) q = true ->
  h <> q ->
  Js.strip (q ++ "/") (h ++ String "/" rest) = None.
Proof.
  revert h. induction q as [|a q IH]; intros h Hh Hq Hne.
  - destruct h as [|c h]; [contradiction|].
    cbn [Js.allUnits] in Hh. cbn [append Js.strip].
    apply andb_true_iff in Hh. destruct Hh as [Hc _].
    apply negb_true_iff in Hc. rewrite Ascii.eqb_sym, Hc. reflexivity.
  - cbn [Js.allUnits] in Hq. apply andb_true_iff in Hq. destruct Hq as [Ha Hq].
    destruct h as [|c h]; cbn [append Js.strip].
    + apply negb_true_iff in Ha. now rewrite Ha.
    + destruct (Ascii.eqb_spec a c) as [->|]; [|reflexivity].
      cbn [Js.allUnits] in Hh. apply andb_true_iff in Hh. destruct Hh as [_ Hh].
      apply IH; [exact Hh | exact Hq | congruence].
Qed.

(** X7: the usual ways to write a creator normalize to the same handle.
    For a handle of lower-case letters, digits, [_] and [-], the handle
    itself, the handle after [@], the address of its page with or without
    scheme and [www.], and the [/channel/] and [/user/] forms all give the
    handle; so does the address of a page below the creator's, unless the
    handle is [c], [channel] or [user]. *)
Theorem creator_forms_normalize_alike (h rest : string) :
  Js.allUnits handleUnit h = true ->
  normalizeCreator (Some h) = h
  /\ normalizeCreator (Some ("@" ++ h)) = h
  /\ normalizeCreator (Some ("https://www.youtube.com/@" ++ h)) = h
  /\ normalizeCreator (Some ("http://youtube.com/@" ++ h)) = h
  /\ normalizeCreator (Some ("youtube.com/@" ++ h)) = h
  /\ normalizeCreator (Some ("https://www.youtube.com/channel/" ++ h)) = h
  /\ normalizeCreator (Some ("/user/" ++ h)) = h
  /\ (h <> "" -> h <> "c" -> h <> "channel" -> h <> "user" ->
      normalizeCreator (Some ("https://www.youtube.com/@" ++ h ++ "/" ++ rest)) = h).
Proof.
  intros Hh.
  destruct (plain_units h Hh) as (Hclean & Hslash & Hdot & Hat).
  assert (Htail : forall lit,
             Js.allUnits (fun c => Js.lowered c && negb (Js.is_space c)) lit = true ->
             lit <> "" ->
             normalizeCreator (Some (lit ++ h))
             = Js.splitHead "/"
                 (Js.replacePrefix ["c/"; "channel/"; "user/"]
                    (Js.replacePrefix ["/c/"; "/channel/"; "/user/"]
                       (Js.replacePrefix ["@"]
                          (Js.replacePrefix ["youtube.com/"]
                             (Js.replacePrefix ["www."]
                                (Js.replacePrefix ["https://"; "http://"]
                                   (lit ++ h)))))))).
  { intros lit Hlit Hne.
    pose proof (normalizeCreator_clean (lit ++ h) "") as E.
    rewrite append_empty in E. cbn [Js.toLowerCase Js.trimEnd] in E.
    rewrite append_empty in E. apply E.
    - rewrite allUnits_app, Hlit, Hclean. reflexivity.
    - destruct lit; [contradiction | discriminate]. }
  repeat split.
  - destruct h as [|c h]; [reflexivity|].
    pose proof (normalizeCreator_clean (String c h) "" Hclean) as E.
    rewrite append_empty in E. cbn [Js.toLowerCase Js.trimEnd] in E.
    rewrite append_empty in E. rewrite E by discriminate.
    rewrite (replacePrefix_absent "/" ["https://"; "http://"] _ Hslash) by reflexivity.
    rewrite (replacePrefix_absent "." ["www."] _ Hdot) by reflexivity.
    rewrite (replacePrefix_absent "/" ["youtube.com/"] _ Hslash) by reflexivity.
    rewrite (replacePrefix_absent "@" ["@"] _ Hat) by reflexivity.
    apply handle_kept, Hh.
  - rewrite (Htail "@") by (reflexivity || discriminate).
    match goal with
    | |- context [Js.replacePrefix ["@"] ?x] => change (Js.replacePrefix ["@"] x) with h
    end.
    apply handle_kept, Hh.
  - rewrite (Htail "https://www.youtube.com/@") by (reflexivity || discriminate).
    match goal with
    | |- context [Js.replacePrefix ["@"] ?x] => change (Js.replacePrefix ["@"] x) with h
    end.
    apply handle_kept, Hh.
  - rewrite (Htail "http://youtube.com/@") by (reflexivity || discriminate).
    match goal with
    | |- context [Js.replacePrefix ["@"] ?x] => change (Js.replacePrefix ["@"] x) with h
    end.
    apply handle_kept, Hh.
  - rewrite (Htail "youtube.com/@") by (reflexivity || discriminate).
    match goal with
    | |- context [Js.replacePrefix ["@"] ?x] => change (Js.replacePrefix ["@"] x) with h
    end.
    apply handle_kept, Hh.
  - rewrite (Htail "https://www.youtube.com/channel/") by (reflexivity || discriminate).
    match goal with
    | |- context [Js.splitHead _ ?x] => change x with h
    end.
    apply splitHead_absent, Hslash.
  - rewrite (Htail "/user/") by (reflexivity || discriminate).
    match goal with
    | |- context [Js.replacePrefix ["/c/"; "/channel/"; "/user/"] ?x] =>
        change (Js.replacePrefix ["/c/"; "/channel/"; "/user/"] x) with h
    end.
    rewrite (replacePrefix_absent "/" ["c/"; "channel/"; "user/"] _ Hslash) by reflexivity.
    apply splitHead_absent, Hslash.
  - intros Hne Hc Hchannel Huser.
    assert (Hassoc : forall a b c : string, ((a ++ b) ++ c = a ++ b ++ c)%string).
    { intros a b c. induction a as [|x a IH]; cbn; [reflexivity | now rewrite IH]. }
    pose proof (normalizeCreator_clean ("https://www.youtube.com/@" ++ h ++ "/") rest) as E.
    rewrite !Hassoc in E. rewrite E; clear E.
    2:{ rewrite !allUnits_app, Hclean. reflexivity. }
    2:{ discriminate. }
    set (T := Js.trimEnd (Js.toLowerCase rest)).
    match goal with
    | |- context [Js.replacePrefix ["@"] ?x] =>
        change (Js.replacePrefix ["@"] x) with (h ++ String "/" T)%string
    end.
    assert (Hfirst : Js.replacePrefix ["/c/"; "/channel/"; "/user/"]
                                      (h ++ String "/" T) = (h ++ String "/" T)%string).
    { destruct h as [|c0 h0]; [contradiction|].
      cbn [Js.allUnits] in Hslash. apply andb_true_iff in Hslash.
      destruct Hslash as [H0 _]. apply negb_true_iff in H0.
      cbn [Js.replacePrefix append Js.strip].
      rewrite (Ascii.eqb_sym "/" c0), H0. reflexivity. }
    rewrite Hfirst. cbn [Js.replacePrefix].
    pose proof (strip_other_segment "c" h T Hslash eq_refl Hc) as S1.
    pose proof (strip_other_segment "channel" h T Hslash eq_refl Hchannel) as S2.
    pose proof (strip_other_segment "user" h T Hslash eq_refl Huser) as S3.
    cbn [append] in S1, S2, S3. rewrite S1, S2, S3.
    apply splitHead_app, Hslash.
Qed.

Lemma creator_forms_normalize_alike_witness :
  normalizeCreator (Some "jane_doe") = "jane_doe"
  /\ normalizeCreator (Some "@jane_doe") = "jane_doe"
  /\ normalizeCreator (Some "https://www.youtube.com/@jane_doe") = "jane_doe"
  /\ normalizeCreator (Some "http://youtube.com/@jane_doe") = "jane_doe"
  /\ normalizeCreator (Some "youtube.com/@jane_doe") = "jane_doe"
  /\ normalizeCreator (Some "https://www.youtube.com/channel/jane_doe") = "jane_doe"
  /\ normalizeCreator (Some "/user/jane_doe") = "jane_doe"
  /\ ("jane_doe" <> "" -> "jane_doe" <> "c" -> "jane_doe" <> "channel" ->
      "jane_doe" <> "user" ->
      normalizeCreator (Some "https://www.youtube.com/@jane_doe/videos") = "jane_doe").
Proof.
  apply (creator_forms_normalize_alike "jane_doe" "videos").
  reflexivity.
Defined.

(** The exception is real: the page below the handle [c] normalizes to the
    name of the page. *)
Example handle_c_is_taken_for_a_prefix :
  normalizeCreator (Some "https://www.youtube.com/@c/videos") = "videos".
Proof. reflexivity. Qed.

(** X8: with a title, [youtubeVideoAllowed] does not throw, and it allows
    the video exactly when the list of keywords has an entry that occurs in
    the title, the case of letters in both set aside. *)
Theorem keyword_allowed_iff_within_title (st : State) (t : string) :
  (exists b, youtubeVideoAllowed st (Some t) = Normal b)
  /\ (youtubeVideoAllowed st (Some t) = Normal true
      <-> exists c keywords k,
        config st = Some c /\ youtubeKeywords c = Some keywords /\ In k keywords
        /\ Js.Contains (Js.toLowerCase t) (Js.toLowerCase k)).
Proof.
  unfold youtubeVideoAllowed, Js.some.
  destruct (config st) as [c|].
  2:{ split; [eexists; reflexivity|].
      split; [discriminate | intros (c & ks & k & H & _); discriminate]. }
  destruct (youtubeKeywords c) as [keywords|] eqn:Hk.
  2:{ split; [eexists; reflexivity|].
      split; [discriminate|].
      intros (c' & ks & k & Hc & Hks & _). inversion Hc; subst c'. congruence. }
  assert (Hiff : existsb (fun k => Js.includes (Js.toLowerCase t) (Js.toLowerCase k))
                         keywords = true
                 <-> exists k, In k keywords
                               /\ Js.Contains (Js.toLowerCase t) (Js.toLowerCase k)).
  { rewrite existsb_exists. split; intros [k [Hin Hm]]; exists k; split;
      try exact Hin; apply includes_iff; exact Hm. }
  destruct keywords as [|k0 keywords].
  - split; [eexists; reflexivity|].
    split; [discriminate|].
    intros (c' & ks & k & Hc & Hks & Hin & _).
    inversion Hc; subst c'. rewrite Hk in Hks. inversion Hks; subst ks. destruct Hin.
  - split; [eexists; reflexivity|]. split.
    + intros H. inversion H as [H1]. apply Hiff in H1. destruct H1 as [k [Hin Hm]].
      exists c, (k0 :: keywords), k. repeat split; assumption.
    + intros (c' & ks & k & Hc & Hks & Hin & Hm).
      inversion Hc; subst c'. rewrite Hk in Hks. inversion Hks; subst ks.
      f_equal. apply Hiff. exists k. split; assumption.
Qed.

Lemma keyword_allowed_iff_within_title_witness :
  youtubeVideoAllowed Sample.keywordState (Some "Algebra LECTURE 1") = Normal true.
Proof.
  apply (proj2 (keyword_allowed_iff_within_title Sample.keywordState
                                                 "Algebra LECTURE 1")).
  exists Sample.keywordConfig, ["lecture"], "lecture".
  split; [reflexivity|]. split; [reflexivity|]. split; [left; reflexivity|].
  exists "algebra ", " 1". reflexivity.
Defined.

(** X9: [fetchYouTubeInfo] never throws, and returns the three fields only
    for an OK response whose body parses to a value other than [null]; for
    a rejected fetch, another status, a body that does not parse and the
    body [null] it returns [null]. *)
Theorem lookup_returns_info_or_null (r : FetchResult (option VideoInfo)) :
  fetchYouTubeInfo r
  = Normal match r with
           | FetchResponse status (Some (Some d)) =>
               if statusOk status then Some d else None
           | _ => None
           end.
Proof.
  unfold fetchYouTubeInfo, fetchYouTubeInfo_body.
  destruct r as [|status [[d|]|]]; cbn; try reflexivity;
    destruct (statusOk status); cbn; try reflexivity.
  destruct d; reflexivity.
Qed.

Section OpenTabs.

Context {browser : Platform}.

Lemma checkTab_redirects (st : State) (now : Z) (tab : Tab) (e : Effect) :
  checkTab st now tab = Normal (Some e) ->
  exists url,
    tab_url tab = Some url /\ internalUrl url = false
    /\ e = Redirect (tab_id tab) (blockedUrl url).
Proof.
  unfold checkTab. destruct (tab_url tab) as [url|]; [|discriminate].
  destruct (negb (Js.nonempty url)); [discriminate|].
  destruct (internalUrl url) eqn:Hi; [discriminate|].
  intros H. exists url. split; [reflexivity|]. split; [exact Hi|].
  destruct (shouldBlock st now url); [now inversion H|].
  destruct (isYouTubeVideo url); [|discriminate].
  destruct (fetchYouTubeInfo (tab_lookup tab)) as [[i|]|]; cbn in H;
    try discriminate; [|now inversion H].
  destruct (youtubeCreatorAllowed st (authorName i) (authorUrl i)); [discriminate|].
  destruct (youtubeVideoAllowed st (title i)) as [[]|]; cbn in H;
    try discriminate. now inversion H.
Qed.

(** X10: [checkOpenTabs] redirects nothing in a client without an identity
    or in free time, and every redirect it makes sends a tab of the list,
    whose URL is not one of the browser's or the extension's own, to the
    blocked page for that URL. *)
Theorem open_tabs_are_sent_to_their_blocked_page
        (st : State) (now : Z) (tabs : list Tab) (e : Effect) :
  In e (checkOpenTabs st now tabs) ->
  Js.truthyStr (configId st) = true
  /\ isFreeTime st now = false
  /\ exists tab url,
      In tab tabs /\ tab_url tab = Some url /\ internalUrl url = false
      /\ e = Redirect (tab_id tab) (blockedUrl url).
Proof.
  unfold checkOpenTabs.
  destruct (Js.truthyStr (configId st)); cbn; [|intros []].
  destruct (isFreeTime st now); cbn; [intros []|].
  intros Hin. split; [reflexivity|]. split; [reflexivity|].
  induction tabs as [|tab tabs IH]; [destruct Hin|].
  cbn [checkTabs] in Hin.
  destruct (checkTab st now tab) as [[e'|]|] eqn:Ht.
  - destruct Hin as [->|Hin].
    + destruct (checkTab_redirects st now tab e Ht) as (url & Hu & Hi & He).
      exists tab, url. repeat split; try assumption. left. reflexivity.
    + destruct (IH Hin) as (tab' & url & Hin' & H).
      exists tab', url. split; [right; exact Hin' | exact H].
  - destruct (IH Hin) as (tab' & url & Hin' & H).
    exists tab', url. split; [right; exact Hin' | exact H].
  - destruct Hin.
Qed.

End OpenTabs.

Lemma open_tabs_are_sent_to_their_blocked_page_witness :
  Js.truthyStr (configId Sample.creatorState) = true
  /\ isFreeTime Sample.creatorState Sample.clock = false
  /\ exists tab url,
      In tab [Sample.openWatchPage] /\ tab_url tab = Some url
      /\ internalUrl url = false
      /\ Redirect 3 (blockedUrl (browser := plainBrowser)
                                "https://www.youtube.com/watch?v=abc")
         = Redirect (tab_id tab) (blockedUrl (browser := plainBrowser) url).
Proof.
  apply (open_tabs_are_sent_to_their_blocked_page (browser := plainBrowser)
           Sample.creatorState Sample.clock [Sample.openWatchPage]).
  vm_compute. left. reflexivity.
Defined.

(* ================================================================= *)
(** ** Further properties of the sync client and of the worker *)

Section SyncMore.

Context {browser : Platform}.

(** X11: when the server answers 404 to a refresh, [syncConfig] completes
    normally and the client is unpaired as a whole: identity, snapshot and
    sync time are gone from the variables and from the storage, the server
    address stays; from then on every URL that is not the browser's or the
    extension's own is blocked, and a further call of [syncConfig] sends no
    request. *)
Theorem not_found_unpairs_and_blocks
        (w : Worker) (now later : Z) (body : option (option Config)) (url : string) :
  syncConfig_guard (vars w) = true ->
  internalUrl url = false ->
  exists w',
    syncConfig w now (FetchResponse 404 body) = Normal w'
    /\ configId (vars w') = None /\ config (vars w') = None
    /\ lastSyncTime (vars w') = None
    /\ stored_configId (disk w') = None /\ stored_config (disk w') = None
    /\ stored_lastSyncTime (disk w') = None
    /\ apiUrl (vars w') = apiUrl (vars w)
    /\ shouldBlock (vars w') later url = true
    /\ syncConfig_call w' = w'.
Proof.
  intros Hg He. unfold syncConfig, syncConfig_settle, syncConfig_body.
  rewrite Hg. cbn. eexists. split; [reflexivity|]. cbn.
  repeat (split; [reflexivity|]). split.
  - unfold shouldBlock. rewrite He. reflexivity.
  - reflexivity.
Qed.

End SyncMore.

Lemma not_found_unpairs_and_blocks_witness :
  exists w',
    syncConfig Sample.running Sample.clock (FetchResponse 404 None) = Normal w'
    /\ configId (vars w') = None /\ config (vars w') = None
    /\ lastSyncTime (vars w') = None
    /\ stored_configId (disk w') = None /\ stored_config (disk w') = None
    /\ stored_lastSyncTime (disk w') = None
    /\ apiUrl (vars w') = apiUrl (vars Sample.running)
    /\ shouldBlock (browser := plainBrowser) (vars w') (Sample.clock + 5000)
                   "https://example.com/page" = true
    /\ syncConfig_call w' = w'.
Proof.
  apply (not_found_unpairs_and_blocks (browser := plainBrowser)).
  - reflexivity.
  - reflexivity.
Defined.

Lemma secondsSinceSync_same (now : Z) : (secondsSinceSync now now == 0)%Q.
Proof.
  unfold secondsSinceSync. rewrite Z.sub_diag.
  unfold Qdiv. apply Qmult_0_l.
Qed.

(** X12: when a refresh succeeds, [syncConfig] completes normally, puts the
    answer of the server in place of the whole snapshot and the clock in
    place of the sync time, in the variables and in the storage alike, and
    leaves identity and server address alone.  At that moment the remaining
    seconds are the server's figure: floored at 0 when the snapshot has an
    open session and the clock is not 0, as it is otherwise. *)
Theorem refresh_installs_the_server_snapshot
        (w : Worker) (now status : Z) (c : Config) :
  syncConfig_guard (vars w) = true ->
  statusOk status = true ->
  exists w',
    syncConfig w now (FetchResponse status (Some (Some c))) = Normal w'
    /\ config (vars w') = Some c /\ lastSyncTime (vars w') = Some now
    /\ stored_config (disk w') = Some c /\ stored_lastSyncTime (disk w') = Some now
    /\ configId (vars w') = configId (vars w) /\ apiUrl (vars w') = apiUrl (vars w)
    /\ stored_configId (disk w') = stored_configId (disk w)
    /\ stored_apiUrl (disk w') = stored_apiUrl (disk w)
    /\ (now <> 0 -> Js.truthyStr (freeTimeStartedAt c) = true ->
        (getLocalRemainingSeconds (vars w') now == Qmax 0 (serverRemaining c))%Q)
    /\ (now = 0 \/ Js.truthyStr (freeTimeStartedAt c) = false ->
        getLocalRemainingSeconds (vars w') now = serverRemaining c).
Proof.
  intros Hg Hok. unfold syncConfig, syncConfig_settle, syncConfig_body.
  rewrite Hg. cbn. rewrite Hok. cbn. eexists. split; [reflexivity|]. cbn.
  repeat (split; [reflexivity|]).
  unfold getLocalRemainingSeconds. cbn. split.
  - intros Hnow Hs. rewrite Hs.
    destruct (Z.eqb_spec now 0) as [E|_]; [contradiction|]. cbn.
    rewrite secondsSinceSync_same. unfold Qminus. rewrite Qplus_0_r. reflexivity.
  - intros [Hnow|Hs].
    + subst now. reflexivity.
    + rewrite Hs, andb_false_r. reflexivity.
Qed.

Lemma refresh_installs_the_server_snapshot_witness :
  exists w',
    syncConfig Sample.running Sample.clock
               (FetchResponse 200 (Some (Some Sample.sessionConfig))) = Normal w'
    /\ config (vars w') = Some Sample.sessionConfig
    /\ lastSyncTime (vars w') = Some Sample.clock
    /\ stored_config (disk w') = Some Sample.sessionConfig
    /\ stored_lastSyncTime (disk w') = Some Sample.clock
    /\ configId (vars w') = configId (vars Sample.running)
    /\ apiUrl (vars w') = apiUrl (vars Sample.running)
    /\ stored_configId (disk w') = stored_configId (disk Sample.running)
    /\ stored_apiUrl (disk w') = stored_apiUrl (disk Sample.running)
    /\ (getLocalRemainingSeconds (vars w') Sample.clock
        == Qmax 0 (serverRemaining Sample.sessionConfig))%Q.
Proof.
  destruct (refresh_installs_the_server_snapshot
              Sample.running Sample.clock 200 Sample.sessionConfig)
    as (w' & H0 & H1 & H2 & H3 & H4 & H5 & H6 & H7 & H8 & H9 & _).
  - reflexivity.
  - reflexivity.
  - exists w'. repeat (split; [assumption|]).
    apply H9; [vm_compute; discriminate | reflexivity].
Defined.

Section WorkerInvariants.

Context {browser : Platform}.

Lemma truthyNum_orNull (v : option Z) : Js.truthyNum (Js.orNullNum v) = Js.truthyNum v.
Proof. unfold Js.orNullNum. destruct (Js.truthyNum v) eqn:E; [exact E | reflexivity]. Qed.

Lemma truthyStr_orNull (v : option string) :
  Js.truthyStr (Js.orNullStr v) = Js.truthyStr v.
Proof. unfold Js.orNullStr. destruct (Js.truthyStr v) eqn:E; [exact E | reflexivity]. Qed.

Lemma orNullNum_idem (v : option Z) : Js.orNullNum (Js.orNullNum v) = Js.orNullNum v.
Proof.
  unfold Js.orNullNum at 1. rewrite truthyNum_orNull.
  unfold Js.orNullNum. destruct (Js.truthyNum v); reflexivity.
Qed.

Lemma orNullStr_idem (v : option string) : Js.orNullStr (Js.orNullStr v) = Js.orNullStr v.
Proof.
  unfold Js.orNullStr at 1. rewrite truthyStr_orNull.
  unfold Js.orNullStr. destruct (Js.truthyStr v); reflexivity.
Qed.

Lemma syncConfig_call_readAtStart (w : Worker) :
  readAtStart (syncConfig_call w) = readAtStart w.
Proof.
  unfold syncConfig_call. destruct (negb (syncConfig_guard (vars w))); reflexivity.
Qed.

(** No handler changes the answer to the read issued at the start. *)
Lemma step_readAtStart (w : Worker) (ev : Z * Event) :
  readAtStart (step w ev) = readAtStart w.
Proof.
  destruct ev as [now e]. unfold step. cbn [fst snd].
  destruct e as [|frameId tabId url| |r|u|id|].
  - destruct (storageLoaded (vars w)); [reflexivity|].
    unfold resumeWaiting.
    match goal with
    | |- context [fold_left _ ?navs ?w0] =>
        destruct (resume_fold_start navs w0 now) as (Er & _)
    end.
    rewrite Er. reflexivity.
  - unfold onBeforeNavigate. destruct (negb (frameId =? 0)); [reflexivity|].
    destruct (storageLoaded (vars w)); [apply gate_readAtStart | reflexivity].
  - apply syncConfig_call_readAtStart.
  - unfold onSyncSettled. destruct (pending w) as [|n]; [reflexivity|].
    unfold syncConfig_settle, syncConfig_body, tryCatch.
    destruct r as [|status body]; cbn; [reflexivity|].
    destruct (statusOk status).
    + destruct body as [c|]; reflexivity.
    + destruct (status =? 404); reflexivity.
  - reflexivity.
  - unfold onSetConfigId. rewrite syncConfig_call_readAtStart. reflexivity.
  - reflexivity.
Qed.

Lemma step_synced (w : Worker) (ev : Z * Event) :
  fst ev <> 0 ->
  syncedDisk (readAtStart w) ->
  syncedVars (vars w) /\ syncedDisk (disk w) ->
  syncedVars (vars (step w ev)) /\ syncedDisk (disk (step w ev)).
Proof.
  intros Hnow Hs [Hv Hd]. destruct ev as [now e]. cbn [fst] in Hnow.
  unfold step. cbn [fst snd].
  destruct e as [|frameId tabId url| |r|u|id|].
  - destruct (storageLoaded (vars w)); [split; assumption|].
    unfold resumeWaiting.
    match goal with
    | |- context [fold_left _ ?navs ?w0] =>
        destruct (resume_fold_state navs w0 now) as (Ev & Ed & _)
    end.
    rewrite Ev, Ed. cbn. split; [|exact Hd].
    unfold syncedVars. cbn. rewrite truthyNum_orNull. exact Hs.
  - unfold onBeforeNavigate. destruct (negb (frameId =? 0)); [split; assumption|].
    destruct (storageLoaded (vars w)).
    + rewrite gate_vars, gate_disk. split; assumption.
    + split; assumption.
  - unfold syncConfig_call. destruct (negb (syncConfig_guard (vars w)));
      split; assumption.
  - unfold onSyncSettled. destruct (pending w) as [|n]; [split; assumption|].
    unfold syncConfig_settle, syncConfig_body, tryCatch.
    destruct r as [|status body]; cbn; [split; assumption|].
    destruct (statusOk status).
    + destruct body as [c|]; cbn; [|split; assumption].
      split; intros _; cbn; destruct (Z.eqb_spec now 0); try contradiction;
        reflexivity.
    + destruct (status =? 404); cbn; [|split; assumption].
      split; intros H; cbn in H; contradiction.
  - split; assumption.
  - unfold onSetConfigId, syncConfig_call.
    match goal with
    | |- context [negb (syncConfig_guard ?s)] => destruct (negb (syncConfig_guard s))
    end; split; assumption.
  - split; intros H; cbn in H; contradiction.
Qed.

(** X13: a cached configuration always comes with the time of its sync.
    When the storage at the start has a sync time with its snapshot and no
    event runs with the clock at 0, then after every run a snapshot in the
    variables, or in the storage, has a usable sync time beside it: the
    drain of an open session is never computed without one. *)
Theorem snapshot_comes_with_sync_time (d : Storage) (evs : list (Z * Event)) :
  syncedDisk d ->
  forallb (fun ev => negb (fst ev =? 0)) evs = true ->
  syncedVars (vars (run (boot d) evs)) /\ syncedDisk (disk (run (boot d) evs)).
Proof.
  intros Hd.
  assert (Hgen : forall w,
             syncedDisk (readAtStart w) ->
             syncedVars (vars w) /\ syncedDisk (disk w) ->
             forallb (fun ev => negb (fst ev =? 0)) evs = true ->
             syncedVars (vars (run w evs)) /\ syncedDisk (disk (run w evs))).
  { induction evs as [|ev evs IH]; intros w Hs Hw Hall; [exact Hw|].
    cbn [forallb] in Hall. apply andb_true_iff in Hall. destruct Hall as [Hev Hall].
    change (run w (ev :: evs)) with (run (step w ev) evs).
    apply IH; [rewrite step_readAtStart; exact Hs| |exact Hall].
    apply step_synced; [|exact Hs|exact Hw].
    apply negb_true_iff, Z.eqb_neq in Hev. exact Hev. }
  apply Hgen; [exact Hd|]. split; [|exact Hd]. intros H. cbn in H. contradiction.
Qed.

Lemma step_persisted (w : Worker) (ev : Z * Event) :
  (storageLoaded (vars w) = true -> Persisted w) ->
  (storageLoaded (vars w) = false -> disk w = readAtStart w) ->
  storageLoaded (vars (step w ev)) = true -> Persisted (step w ev).
Proof.
  intros Hp Hc. destruct ev as [now e]. unfold step. cbn [fst snd].
  destruct e as [|frameId tabId url| |r|u|id|].
  - destruct (storageLoaded (vars w)) eqn:Hl; [intros _; exact (Hp eq_refl)|].
    intros _. unfold resumeWaiting.
    match goal with
    | |- context [fold_left _ ?navs ?w0] =>
        destruct (resume_fold_state navs w0 now) as (Ev & Ed & _)
    end.
    split; rewrite Ev, Ed; cbn; rewrite (Hc eq_refl);
      [apply orNullStr_idem | apply orNullStr_idem | reflexivity | apply orNullNum_idem].
  - unfold onBeforeNavigate. destruct (negb (frameId =? 0)); [exact Hp|].
    destruct (storageLoaded (vars w)) eqn:Hl.
    + intros _. destruct (Hp eq_refl) as [H1 H2 H3 H4].
      split; rewrite gate_vars, gate_disk; assumption.
    + cbn. rewrite Hl. discriminate.
  - unfold syncConfig_call. destruct (negb (syncConfig_guard (vars w))); [exact Hp|].
    cbn. intros Hl. destruct (Hp Hl) as [H1 H2 H3 H4]. split; assumption.
  - unfold onSyncSettled. destruct (pending w) as [|n]; [exact Hp|].
    unfold syncConfig_settle, syncConfig_body, tryCatch.
    destruct r as [|status body]; cbn.
    + intros Hl. destruct (Hp Hl) as [H1 H2 H3 H4]. split; assumption.
    + destruct (statusOk status).
      * destruct body as [c|]; cbn; intros Hl; destruct (Hp Hl) as [H1 H2 H3 H4];
          split; cbn; try assumption; reflexivity.
      * destruct (status =? 404); cbn; intros Hl;
          destruct (Hp Hl) as [H1 H2 H3 H4]; split; cbn; try assumption; reflexivity.
  - cbn. intros Hl. destruct (Hp Hl) as [H1 H2 H3 H4].
    split; cbn; try assumption; reflexivity.
  - unfold onSetConfigId, syncConfig_call.
    match goal with
    | |- context [negb (syncConfig_guard ?s)] => destruct (negb (syncConfig_guard s))
    end; cbn; intros Hl; destruct (Hp Hl) as [H1 H2 H3 H4];
      split; cbn; try assumption; reflexivity.
  - cbn. intros Hl. destruct (Hp Hl) as [H1 H2 H3 H4].
    split; cbn; try assumption; reflexivity.
Qed.

Lemma step_unread (w : Worker) (ev : Z * Event) (evs : list (Z * Event)) :
  storageLoaded (vars w) = false -> Unread w (ev :: evs) ->
  storageLoaded (vars (step w ev)) = false -> Unread (step w ev) evs.
Proof.
  intros Hl (Hd & Hn & Hg & Hq). destruct ev as [now e]. unfold step.
  cbn [fst snd]. cbn [readBeforeWrites snd] in Hq.
  destruct e as [|frameId tabId url| |r|u|id|]; try discriminate.
  - rewrite Hl. unfold resumeWaiting.
    match goal with
    | |- context [fold_left _ ?navs ?w0] =>
        destruct (resume_fold_state navs w0 now) as (Ev & _)
    end.
    rewrite Ev. cbn. discriminate.
  - unfold onBeforeNavigate. destruct (negb (frameId =? 0)).
    + intros _. repeat split; assumption.
    + rewrite Hl. intros _. repeat split; assumption.
  - unfold syncConfig_call. rewrite Hg. cbn. intros _. repeat split; assumption.
  - unfold onSyncSettled. rewrite Hn. intros _. repeat split; assumption.
Qed.

Lemma run_persisted (evs : list (Z * Event)) (w : Worker) :
  (storageLoaded (vars w) = true -> Persisted w) ->
  (storageLoaded (vars w) = false -> Unread w evs) ->
  storageLoaded (vars (run w evs)) = true -> Persisted (run w evs).
Proof.
  revert w. induction evs as [|ev evs IH]; intros w Hp Hc; [exact Hp|].
  change (run w (ev :: evs)) with (run (step w ev) evs).
  apply IH.
  - apply step_persisted; [exact Hp|]. intros Hl. apply (Hc Hl).
  - intros Hl'. destruct (storageLoaded (vars w)) eqn:Hl.
    + exfalso. revert Hl'. destruct ev as [now e]. unfold step. cbn [fst snd].
      destruct e as [|frameId tabId url| |r|u|id|].
      * rewrite Hl. rewrite Hl. discriminate.
      * unfold onBeforeNavigate. destruct (negb (frameId =? 0));
          [rewrite Hl; discriminate|].
        rewrite Hl, gate_vars, Hl. discriminate.
      * unfold syncConfig_call. destruct (negb (syncConfig_guard (vars w)));
          cbn; rewrite Hl; discriminate.
      * unfold onSyncSettled. destruct (pending w) as [|n]; [rewrite Hl; discriminate|].
        unfold syncConfig_settle, syncConfig_body, tryCatch.
        destruct r as [|status body]; cbn; [rewrite Hl; discriminate|].
        destruct (statusOk status).
        -- destruct body as [c|]; cbn; rewrite Hl; discriminate.
        -- destruct (status =? 404); cbn; rewrite Hl; discriminate.
      * cbn. rewrite Hl. discriminate.
      * unfold onSetConfigId, syncConfig_call.
        match goal with
        | |- context [negb (syncConfig_guard ?s)] =>
            destruct (negb (syncConfig_guard s))
        end; cbn; rewrite Hl; discriminate.
      * cbn. rewrite Hl. discriminate.
    + apply step_unread; [exact Hl | exact (Hc eq_refl) | exact Hl'].
Qed.

Lemma isFreeTime_same (s1 s2 : State) (now : Z) :
  config s1 = config s2 ->
  Js.orNullNum (lastSyncTime s1) = Js.orNullNum (lastSyncTime s2) ->
  isFreeTime s1 now = isFreeTime s2 now.
Proof.
  intros Hc Ht. unfold isFreeTime. rewrite Hc.
  destruct (config s2) as [c|]; [|reflexivity].
  destruct (disabledNow c now); [reflexivity|].
  destruct (freeTimeStartedAt c); [|reflexivity].
  unfold Js.orNullNum, Js.truthyNum in Ht.
  destruct (lastSyncTime s1) as [t1|], (lastSyncTime s2) as [t2|];
    try destruct (negb (t1 =? 0)); try destruct (negb (t2 =? 0));
    try reflexivity; try discriminate; now inversion Ht.
Qed.

Lemma getLocalRemainingSeconds_same (s1 s2 : State) (now : Z) :
  config s1 = config s2 ->
  Js.orNullNum (lastSyncTime s1) = Js.orNullNum (lastSyncTime s2) ->
  getLocalRemainingSeconds s1 now = getLocalRemainingSeconds s2 now.
Proof.
  intros Hc Ht. unfold getLocalRemainingSeconds. rewrite Hc.
  destruct (config s2) as [c|]; [|reflexivity].
  rewrite <- (truthyNum_orNull (lastSyncTime s1)), Ht, truthyNum_orNull.
  unfold Js.orNullNum, Js.truthyNum in Ht.
  destruct (lastSyncTime s1) as [t1|], (lastSyncTime s2) as [t2|]; cbn;
    try destruct (negb (t1 =? 0)) eqn:E1; try destruct (negb (t2 =? 0)) eqn:E2;
    cbn; try reflexivity; try discriminate; now inversion Ht.
Qed.

Lemma shouldBlock_same (s1 s2 : State) (now : Z) (url : string) :
  Js.orNullStr (configId s1) = Js.orNullStr (configId s2) ->
  config s1 = config s2 ->
  Js.orNullNum (lastSyncTime s1) = Js.orNullNum (lastSyncTime s2) ->
  shouldBlock s1 now url = shouldBlock s2 now url.
Proof.
  intros Hi Hc Ht. unfold shouldBlock.
  rewrite (isFreeTime_same s1 s2 now Hc Ht).
  rewrite <- (truthyStr_orNull (configId s1)), Hi, truthyStr_orNull.
  unfold matchesWhitelist. rewrite Hc. reflexivity.
Qed.

(** X14: the variables of the worker can be rebuilt from the storage.
    Provided no [setApiUrl], [setConfigId] or [clearConfig] message arrives
    before the read of [loadFromStorage] resolves, then once the storage has
    been read, after every run of events, a worker that is started again on
    the storage as it is then and reads it gives the same verdict for every
    URL, the same answer about free time and the same remaining seconds as
    the worker that kept running. *)
Theorem restart_keeps_every_verdict
        (d : Storage) (evs : list (Z * Event)) (t now : Z) (url : string) :
  readBeforeWrites evs = true ->
  storageLoaded (vars (run (boot d) evs)) = true ->
  let w := run (boot d) evs in
  let again := run (boot (disk w)) [(t, StorageReady)] in
  shouldBlock (vars again) now url = shouldBlock (vars w) now url
  /\ isFreeTime (vars again) now = isFreeTime (vars w) now
  /\ getLocalRemainingSeconds (vars again) now = getLocalRemainingSeconds (vars w) now.
Proof.
  intros Hq Hl w again.
  assert (Hp : Persisted w).
  { apply run_persisted; [cbn; discriminate| |exact Hl].
    intros _. repeat split. exact Hq. }
  destruct Hp as [H1 H2 H3 H4].
  assert (Hi : Js.orNullStr (configId (vars again)) = Js.orNullStr (configId (vars w))).
  { cbn. rewrite orNullStr_idem. symmetry. exact H2. }
  assert (Hc : config (vars again) = config (vars w)).
  { cbn. symmetry. exact H3. }
  assert (Ht : Js.orNullNum (lastSyncTime (vars again))
               = Js.orNullNum (lastSyncTime (vars w))).
  { cbn. rewrite orNullNum_idem. symmetry. exact H4. }
  split; [apply shouldBlock_same; assumption|].
  split; [apply isFreeTime_same; assumption|].
  apply getLocalRemainingSeconds_same; assumption.
Qed.

Lemma step_counts (w : Worker) (ev : Z * Event) :
  (decided (trace (step w ev)) + List.length (waiting (step w ev))
   = decided (trace w) + List.length (waiting w) + (if mainFrame ev then 1 else 0))%nat
  /\ ((storageLoaded (vars w) = true -> waiting w = []) ->
      storageLoaded (vars (step w ev)) = true -> waiting (step w ev) = []).
Proof.
  destruct ev as [now e]. unfold step, mainFrame. cbn [fst snd].
  destruct e as [|frameId tabId url| |r|u|id|].
  - destruct (storageLoaded (vars w)) eqn:Hl.
    + split; [unfold decided; cbn; lia | intros H _; exact (H eq_refl)].
    + unfold resumeWaiting.
      match goal with
      | |- context [fold_left _ ?navs ?w0] =>
          destruct (resume_fold_state navs w0 now) as (_ & _ & Ew & Ec & _)
      end.
      rewrite Ew, Ec. split; [unfold decided; cbn; lia | reflexivity].
  - unfold onBeforeNavigate. destruct (frameId =? 0); cbn [negb].
    + destruct (storageLoaded (vars w)) eqn:Hl.
      * rewrite gate_decided, gate_waiting, gate_vars. split; [unfold decided; cbn; lia|].
        intros H _. exact (H eq_refl).
      * cbn. rewrite length_app. cbn. split; [unfold decided; cbn; lia|]. rewrite Hl. discriminate.
    + split; [unfold decided; cbn; lia | exact (fun H => H)].
  - unfold syncConfig_call. destruct (negb (syncConfig_guard (vars w))); cbn;
      (split; [unfold decided; cbn; lia | exact (fun H => H)]).
  - unfold onSyncSettled. destruct (pending w) as [|n];
      [split; [unfold decided; cbn; lia | exact (fun H => H)]|].
    unfold syncConfig_settle, syncConfig_body, tryCatch.
    destruct r as [|status body]; cbn; [split; [unfold decided; cbn; lia | exact (fun H => H)]|].
    destruct (statusOk status).
    + destruct body as [c|]; cbn; (split; [unfold decided; cbn; lia | exact (fun H => H)]).
    + destruct (status =? 404); cbn; (split; [unfold decided; cbn; lia | exact (fun H => H)]).
  - cbn. split; [unfold decided; cbn; lia | exact (fun H => H)].
  - unfold onSetConfigId, syncConfig_call.
    match goal with
    | |- context [negb (syncConfig_guard ?s)] => destruct (negb (syncConfig_guard s))
    end; cbn; (split; [unfold decided; cbn; lia | exact (fun H => H)]).
  - cbn. split; [unfold decided; cbn; lia | exact (fun H => H)].
Qed.

(** X15: no navigation is lost.  After every run, each navigation in a main
    frame has either got its verdict or still waits for the storage to be
    read, navigations in other frames get none, and once the storage has
    been read nothing waits. *)
Theorem every_navigation_is_decided (d : Storage) (evs : list (Z * Event)) :
  let w := run (boot d) evs in
  (decided (trace w) + List.length (waiting w) = List.length (filter mainFrame evs))%nat
  /\ (storageLoaded (vars w) = true -> waiting w = []).
Proof.
  assert (Hgen : forall w0,
             (storageLoaded (vars w0) = true -> waiting w0 = []) ->
             (decided (trace (run w0 evs)) + List.length (waiting (run w0 evs))
              = decided (trace w0) + List.length (waiting w0)
                + List.length (filter mainFrame evs))%nat
             /\ (storageLoaded (vars (run w0 evs)) = true -> waiting (run w0 evs) = [])).
  { induction evs as [|ev evs IH]; intros w0 H0.
    - cbn. split; [lia | exact H0].
    - change (run w0 (ev :: evs)) with (run (step w0 ev) evs).
      destruct (step_counts w0 ev) as [Hc Hw].
      destruct (IH (step w0 ev) (Hw H0)) as [Hc' Hw'].
      split; [|exact Hw']. rewrite Hc', Hc. cbn [filter].
      destruct (mainFrame ev); cbn; lia. }
  cbn zeta. destruct (Hgen (boot d)) as [Hc Hw]; [reflexivity|].
  split; [exact Hc | exact Hw].
Qed.

Lemma step_redirected (w : Worker) (ev : Z * Event) :
  redirected (trace w) -> redirected (trace (step w ev)).
Proof.
  intros H. destruct ev as [now e]. unfold step. cbn [fst snd].
  destruct e as [|frameId tabId url| |r|u|id|].
  - destruct (storageLoaded (vars w)); [exact H|]. unfold resumeWaiting.
    match goal with
    | |- context [fold_left _ ?navs ?w0] =>
        destruct (resume_fold_state navs w0 now) as (_ & _ & _ & _ & Hr)
    end.
    apply Hr. cbn. exact H.
  - unfold onBeforeNavigate. destruct (negb (frameId =? 0)); [exact H|].
    destruct (storageLoaded (vars w)); [apply gate_redirected, H | exact H].
  - unfold syncConfig_call. destruct (negb (syncConfig_guard (vars w))); exact H.
  - unfold onSyncSettled. destruct (pending w) as [|n]; [exact H|].
    unfold syncConfig_settle, syncConfig_body, tryCatch.
    destruct r as [|status body]; cbn; [exact H|].
    destruct (statusOk status).
    + destruct body as [c|]; exact H.
    + destruct (status =? 404); exact H.
  - exact H.
  - unfold onSetConfigId, syncConfig_call.
    match goal with
    | |- context [negb (syncConfig_guard ?s)] => destruct (negb (syncConfig_guard s))
    end; exact H.
  - exact H.
Qed.

Lemma run_redirected (evs : list (Z * Event)) (w : Worker) :
  redirected (trace w) -> redirected (trace (run w evs)).
Proof.
  revert w. induction evs as [|ev evs IH]; intros w H; [exact H|].
  change (run w (ev :: evs)) with (run (step w ev) evs).
  apply IH, step_redirected, H.
Qed.

Lemma redirected_after_block (n : nat) (later earlier : list Effect) (url : string) :
  (List.length later <= n)%nat ->
  redirected (later ++ Decided url true :: earlier)%list ->
  exists later' tabId, later = (later' ++ [Redirect tabId (blockedUrl url)])%list.
Proof.
  revert later. induction n as [|n IH]; intros later Hlen Hr.
  - destruct later; [|cbn in Hlen; lia]. cbn in Hr. destruct Hr.
  - destruct later as [|x later]; [cbn in Hr; destruct Hr|].
    cbn in Hlen.
    assert (Hskip : redirected (later ++ Decided url true :: earlier)%list ->
                    exists later' tabId,
                      (x :: later = later' ++ [Redirect tabId (blockedUrl url)])%list).
    { intros H. destruct (IH later) as (l & tab & ->); [lia | exact H|].
      exists (x :: l), tab. reflexivity. }
    destruct x as [|request|url' block|tabId target].
    + apply Hskip. exact Hr.
    + apply Hskip. exact Hr.
    + destruct block; [cbn in Hr; destruct Hr | apply Hskip; exact Hr].
    + destruct later as [|y later].
      * cbn in Hr. destruct Hr as [-> _]. exists [], tabId. reflexivity.
      * cbn [app] in Hr.
        destruct y as [|request|url' block|tabId' target'];
          try (cbn in Hr; destruct Hr; fail).
        destruct block; [|cbn in Hr; destruct Hr].
        cbn [redirected] in Hr. destruct Hr as [_ Hr].
        cbn in Hlen.
        destruct (IH later) as (l & tab & ->); [lia | exact Hr|].
        exists (Redirect tabId target :: Decided url' true :: l), tab. reflexivity.
Qed.

Lemma redirected_before_redirect
      (n : nat) (later earlier : list Effect) (tabId : Z) (target : string) :
  (List.length later <= n)%nat ->
  redirected (later ++ Redirect tabId target :: earlier)%list ->
  exists url earlier',
    earlier = Decided url true :: earlier' /\ target = blockedUrl url.
Proof.
  revert later. induction n as [|n IH]; intros later Hlen Hr.
  - destruct later; [|cbn in Hlen; lia]. cbn in Hr.
    destruct earlier as [|[|request|url block|tab' target'] earlier];
      try destruct Hr.
    destruct block; [|destruct Hr]. destruct Hr as [-> _].
    exists url, earlier. split; reflexivity.
  - destruct later as [|x later]; [apply (IH []); [cbn; lia | exact Hr]|].
    cbn in Hlen.
    destruct x as [|request|url' block|tabId' target'].
    + apply (IH later); [lia | exact Hr].
    + apply (IH later); [lia | exact Hr].
    + destruct block.
      * destruct later; cbn in Hr; destruct Hr.
      * apply (IH later); [lia | exact Hr].
    + destruct later as [|y later]; [cbn in Hr; destruct Hr|].
      cbn [app] in Hr.
      destruct y as [|request|url' block|tabId'' target''];
        try (cbn in Hr; destruct Hr; fail).
      destruct block; [|cbn in Hr; destruct Hr].
      cbn [redirected] in Hr. destruct Hr as [_ Hr]. cbn in Hlen.
      apply (IH later); [lia | exact Hr].
Qed.

(** X16: in every run, the navigation listener redirects a tab exactly when
    its verdict is Block, at once and to the blocked page for the URL of
    the verdict: each Block verdict in the trace has that redirect right
    after it, and each redirect has the Block verdict right before it. *)
Theorem block_verdicts_and_redirects_pair_up
        (d : Storage) (evs : list (Z * Event)) (later earlier : list Effect) :
  (forall url,
      trace (run (boot d) evs) = (later ++ Decided url true :: earlier)%list ->
      exists later' tabId, later = (later' ++ [Redirect tabId (blockedUrl url)])%list)
  /\ (forall tabId target,
         trace (run (boot d) evs) = (later ++ Redirect tabId target :: earlier)%list ->
         exists url earlier',
           earlier = Decided url true :: earlier' /\ target = blockedUrl url).
Proof.
  assert (Hr : redirected (trace (run (boot d) evs)))
    by (apply run_redirected; exact I).
  split.
  - intros url Heq. rewrite Heq in Hr.
    exact (redirected_after_block (List.length later) later earlier url (le_n _) Hr).
  - intros tabId target Heq. rewrite Heq in Hr.
    exact (redirected_before_redirect (List.length later) later earlier tabId target
                                      (le_n _) Hr).
Qed.

End WorkerInvariants.

Lemma snapshot_comes_with_sync_time_witness :
  syncedVars (vars (run (browser := plainBrowser) (boot Sample.pairedDisk)
                        Sample.busySession))
  /\ syncedDisk (disk (run (browser := plainBrowser) (boot Sample.pairedDisk)
                           Sample.busySession)).
Proof.
  apply (snapshot_comes_with_sync_time (browser := plainBrowser)).
  - intros _. reflexivity.
  - reflexivity.
Defined.

Lemma restart_keeps_every_verdict_witness :
  let w := run (browser := plainBrowser) (boot Sample.pairedDisk) Sample.busySession in
  let again := run (browser := plainBrowser) (boot (disk w))
                   [(Sample.clock + 500, StorageReady)] in
  shouldBlock (browser := plainBrowser) (vars again) (Sample.clock + 900)
              "https://other.com"
  = shouldBlock (browser := plainBrowser) (vars w) (Sample.clock + 900)
                "https://other.com"
  /\ isFreeTime (vars again) (Sample.clock + 900)
     = isFreeTime (vars w) (Sample.clock + 900)
  /\ getLocalRemainingSeconds (vars again) (Sample.clock + 900)
     = getLocalRemainingSeconds (vars w) (Sample.clock + 900).
Proof.
  apply (restart_keeps_every_verdict (browser := plainBrowser)
           Sample.pairedDisk Sample.busySession).
  - reflexivity.
  - vm_compute. reflexivity.
Defined.

(** Why X14 asks that the read comes before the writes: a [clearConfig]
    that arrives while the read is on its way empties the storage, and the
    answer to the read, issued before it, pairs the worker again. *)
Example clear_before_the_read_is_undone :
  let w := run (browser := plainBrowser) (boot Sample.pairedDisk)
               [(Sample.clock, MsgClearConfig); (Sample.clock + 40, StorageReady)] in
  configId (vars w) = Some "ABCD-1234"
  /\ stored_configId (disk w) = None.
Proof. split; vm_compute; reflexivity. Qed.

Lemma every_navigation_is_decided_witness :
  let w := run (browser := plainBrowser) (boot Sample.pairedDisk) Sample.busySession in
  (decided (trace w) + List.length (waiting w)
   = List.length (filter mainFrame Sample.busySession))%nat
  /\ (storageLoaded (vars w) = true -> waiting w = []).
Proof.
  exact (every_navigation_is_decided (browser := plainBrowser)
           Sample.pairedDisk Sample.busySession).
Defined.

Lemma block_verdicts_and_redirects_pair_up_witness :
  exists later' tabId,
    [Redirect 7 (blockedUrl (browser := plainBrowser) "https://other.com")]
    = (later' ++ [Redirect tabId (blockedUrl (browser := plainBrowser)
                                             "https://other.com")])%list.
Proof.
  apply (proj1 (block_verdicts_and_redirects_pair_up (browser := plainBrowser)
                  Sample.pairedDisk Sample.firstNavigation
                  [Redirect 7 (blockedUrl (browser := plainBrowser) "https://other.com")]
                  [Loaded])).
  vm_compute. reflexivity.
Defined.

(* ================================================================= *)
(** ** Properties of the toolbar button *)

Section Button.

Context {browser : Platform}.

(** X17: the icon tells the verdicts of the moment it is drawn for.  With
    the free-time icon ([-inactive]) no URL is blocked; with the plain icon
    (no identity) every URL that is not the browser's or the extension's own
    is blocked; the blocking icon ([-active]) is that of a client with an
    identity out of free time; and there is no fourth icon. *)
Theorem icon_tells_the_verdict (st : State) (now : Z) (url : string) :
  (iconState st now = "-inactive" -> shouldBlock st now url = false)
  /\ (iconState st now = "" -> internalUrl url = false -> shouldBlock st now url = true)
  /\ (iconState st now = "-active" ->
      Js.truthyStr (configId st) = true /\ isFreeTime st now = false)
  /\ (iconState st now = "-inactive" \/ iconState st now = ""
      \/ iconState st now = "-active").
Proof.
  unfold iconState, shouldBlock.
  destruct (Js.truthyStr (configId st)); cbn.
  - destruct (isFreeTime st now).
    + repeat split; try discriminate; [|left; reflexivity].
      intros _. destruct (internalUrl url); reflexivity.
    + repeat split; try discriminate. right. right. reflexivity.
  - repeat split; try discriminate; [|right; left; reflexivity].
    intros _ He. rewrite He. reflexivity.
Qed.

End Button.

Lemma icon_tells_the_verdict_witness :
  shouldBlock (browser := plainBrowser) Sample.inSession Sample.clock
              "https://other.com" = false.
Proof.
  apply (proj1 (icon_tells_the_verdict (browser := plainBrowser)
                  Sample.inSession Sample.clock "https://other.com")).
  vm_compute. reflexivity.
Defined.

Lemma ceil_bounds (x : Q) :
  (x <= inject_Z (Js.ceil x))%Q /\ (inject_Z (Js.ceil x) - 1 < x)%Q.
Proof.
  unfold Js.ceil. split; [apply Qle_ceiling|].
  pose proof (Qceiling_lt x) as H.
  unfold Z.sub in H. rewrite inject_Z_plus in H. exact H.
Qed.

Lemma inject_Z_scaled_pred (a n : Z) :
  (inject_Z (a * (n - 1)) == inject_Z a * (inject_Z n - 1))%Q.
Proof.
  rewrite inject_Z_mult. unfold Z.sub. rewrite inject_Z_plus. reflexivity.
Qed.

(** X18: the badge rounds the remaining time up and never understates it.
    [formatBadgeTime] shows whole minutes [n] followed by [m], with [n]
    below 60 and the seconds above [60 (n-1)] and at most [60 n]; or whole
    hours [n] followed by [h], with [n] at least 1 and the seconds above
    [3600 (n-1)] and at most [3600 n]. *)
Theorem badge_rounds_up (seconds : Q) :
  exists n : Z,
    (formatBadgeTime seconds = (Js.showNumber n ++ "m")%string
     /\ n < 60
     /\ (inject_Z (60 * (n - 1)) < seconds)%Q /\ (seconds <= inject_Z (60 * n))%Q)
    \/ (formatBadgeTime seconds = (Js.showNumber n ++ "h")%string
        /\ 1 <= n
        /\ (inject_Z (3600 * (n - 1)) < seconds)%Q
        /\ (seconds <= inject_Z (3600 * n))%Q).
Proof.
  unfold formatBadgeTime.
  set (minutes := Js.ceil (seconds / 60)%Q).
  destruct (ceil_bounds (seconds / 60)%Q) as [Hup Hlow]. fold minutes in Hup, Hlow.
  assert (Hs1 : (seconds <= 60 * inject_Z minutes)%Q).
  { apply Qmult_le_compat_r with (z := 60%Q) in Hup; [|discriminate].
    assert (E : (seconds / 60 * 60 == seconds)%Q) by (field).
    rewrite E in Hup. lra. }
  assert (Hs2 : (60 * (inject_Z minutes - 1) < seconds)%Q).
  { apply Qmult_lt_compat_r with (z := 60%Q) in Hlow; [|reflexivity].
    assert (E : (seconds / 60 * 60 == seconds)%Q) by (field).
    rewrite E in Hlow. lra. }
  destruct (Z.leb_spec 60 minutes) as [Hbig|Hsmall].
  - set (hours := Js.ceil (inject_Z minutes / 60)%Q).
    destruct (ceil_bounds (inject_Z minutes / 60)%Q) as [Hup' Hlow'].
    fold hours in Hup', Hlow'.
    assert (Hq1 : (inject_Z minutes <= 60 * inject_Z hours)%Q).
    { apply Qmult_le_compat_r with (z := 60%Q) in Hup'; [|discriminate].
      assert (E : (inject_Z minutes / 60 * 60 == inject_Z minutes)%Q) by (field).
      rewrite E in Hup'. lra. }
    assert (Hq2 : (60 * (inject_Z hours - 1) < inject_Z minutes)%Q).
    { apply Qmult_lt_compat_r with (z := 60%Q) in Hlow'; [|reflexivity].
      assert (E : (inject_Z minutes / 60 * 60 == inject_Z minutes)%Q) by (field).
      rewrite E in Hlow'. lra. }
    assert (Hm2 : 60 * (hours - 1) + 1 <= minutes).
    { rewrite <- (inject_Z_scaled_pred 60 hours) in Hq2.
      rewrite <- Zlt_Qlt in Hq2. lia. }
    assert (Hq3 : (60 * (inject_Z hours - 1) + 1 <= inject_Z minutes)%Q).
    { rewrite Zle_Qle, inject_Z_plus, inject_Z_scaled_pred in Hm2. exact Hm2. }
    assert (H1 : 1 <= hours).
    { assert (Hq : (inject_Z 60 <= inject_Z (60 * hours))%Q).
      { rewrite inject_Z_mult. rewrite Zle_Qle in Hbig.
        change (inject_Z 60) with 60%Q in *. lra. }
      rewrite <- Zle_Qle in Hq. lia. }
    exists hours. right. split; [reflexivity|]. split; [exact H1|]. split.
    + rewrite (inject_Z_scaled_pred 3600 hours). change (inject_Z 3600) with 3600%Q. lra.
    + rewrite inject_Z_mult. change (inject_Z 3600) with 3600%Q. lra.
  - exists minutes. left. split; [reflexivity|]. split; [exact Hsmall|]. split.
    + rewrite (inject_Z_scaled_pred 60 minutes). exact Hs2.
    + rewrite inject_Z_mult. exact Hs1.
Qed.

(** X19: the badge is blank without a snapshot, without an open session and
    during a temporary disable; otherwise it shows, formatted, the very
    remaining seconds that [getState] reports to the popup. *)
Theorem badge_shows_the_reported_seconds (st : State) (now : Z) :
  updateBadge st now
  = match config st with
    | Some c =>
        if Js.truthyStr (freeTimeStartedAt c) && negb (disabledNow c now)
        then formatBadgeTime (localRemainingSeconds (getState st now))
        else ""
    | None => ""
    end.
Proof.
  unfold updateBadge, getState, getLocalRemainingSeconds, isTemporarilyDisabled.
  cbn [localRemainingSeconds].
  destruct (config st) as [c|]; [|reflexivity].
  destruct (Js.truthyStr (freeTimeStartedAt c)); [|reflexivity].
  destruct (disabledNow c now); [reflexivity|]. cbn [negb andb].
  destruct (lastSyncTime st) as [t|]; cbn; [|reflexivity].
  destruct (negb (t =? 0)); reflexivity.
Qed.

(* ================================================================= *)
(** ** Properties of the content script and of the popup *)

Section ContentScript.

Context {browser : Platform}.

Lemma youtube_pages_match (url : string) (u : URL) :
  URL_parse url = Some u ->
  youtubeHost (hostname u) = true ->
  isYouTubeAllowedPage url = Monitor.isAllowedPage url
  /\ isYouTubeVideo url = Monitor.isWatchPage url.
Proof.
  intros Hu Hh.
  unfold isYouTubeAllowedPage, Monitor.isAllowedPage, isYouTubeVideo,
    Monitor.isWatchPage.
  rewrite Hu, Hh. split; reflexivity.
Qed.

(** X20: on YouTube, the content script and the navigation listener give
    the same verdict for every page that is not a watch page and not on the
    allow-list, in a client with an identity out of free time: when no check
    is in progress, [checkUrl] asks for the blocked page exactly when the
    listener blocks the URL, whatever the worker answers to [checkYouTube];
    while a check is in progress ([checkingInProgress], line 35) it returns
    at once and asks for nothing. *)
Theorem content_script_agrees_with_the_gate
        (st : State) (now : Z) (url : string) (u : URL)
        (checkingInProgress : bool) (response : option Reply) :
  URL_parse url = Some u ->
  youtubeHost (hostname u) = true ->
  internalUrl url = false ->
  Js.truthyStr (configId st) = true ->
  isFreeTime st now = false ->
  matchesWhitelist st url = false ->
  Monitor.isWatchPage url = false ->
  Monitor.checkUrl checkingInProgress (Some (getState st now)) url response
  = negb checkingInProgress && shouldBlock st now url.
Proof.
  intros Hu Hh He Hid Hfree Hw Hwatch.
  destruct (youtube_pages_match url u Hu Hh) as [Hpage Hvideo].
  unfold Monitor.checkUrl, getState, shouldBlock.
  destruct checkingInProgress; [reflexivity|].
  cbn [hasConfig reply_isFreeTime negb andb].
  rewrite He, Hid, Hfree, Hw, Hpage, Hvideo, Hwatch.
  unfold Monitor.isBlockedPage. rewrite Hwatch. cbn.
  destruct (Monitor.isAllowedPage url); reflexivity.
Qed.

(** X21: a watch page whose content lookup fails ends on the blocked page:
    in a client with an identity out of free time, when the URL is not on
    the allow-list and the lookup fails, the content script asks the worker
    to block the page. *)
Theorem unverified_watch_page_is_blocked
        (st : State) (now : Z) (url : string) (r : FetchResult (option VideoInfo)) :
  Monitor.isWatchPage url = true ->
  Js.truthyStr (configId st) = true ->
  isFreeTime st now = false ->
  matchesWhitelist st url = false ->
  lookupFails r = true ->
  Monitor.checkAgainstWorker st now url r = true.
Proof.
  intros Hwatch Hid Hfree Hw Hfail.
  unfold Monitor.checkAgainstWorker, Monitor.checkUrl, getState.
  cbn [hasConfig reply_isFreeTime]. rewrite Hid, Hfree. cbn.
  unfold Monitor.isBlockedPage. rewrite Hwatch, andb_false_r.
  unfold checkYouTube, checkYouTube_start.
  rewrite Hid, Hfree, Hw, (fetchYouTubeInfo_failed r Hfail). reflexivity.
Qed.

(** X22: the content script asks for nothing in free time, for whatever
    page, and nothing in a client without an identity, where the navigation
    listener blocks. *)
Theorem content_script_rests_in_free_time
        (st : State) (now : Z) (url : string) (r : FetchResult (option VideoInfo)) :
  isFreeTime st now = true \/ Js.truthyStr (configId st) = false ->
  Monitor.checkAgainstWorker st now url r = false.
Proof.
  intros H. unfold Monitor.checkAgainstWorker, Monitor.checkUrl, getState.
  cbn [hasConfig reply_isFreeTime].
  destruct H as [H|H]; rewrite H; [rewrite orb_true_r|]; reflexivity.
Qed.

End ContentScript.

Lemma content_script_agrees_with_the_gate_witness :
  Monitor.checkUrl (browser := plainBrowser) false
                   (Some (getState Sample.creatorState Sample.clock))
                   "https://www.youtube.com/shorts/abc" None
  = negb false
    && shouldBlock (browser := plainBrowser) Sample.creatorState Sample.clock
                   "https://www.youtube.com/shorts/abc".
Proof.
  apply (content_script_agrees_with_the_gate (browser := plainBrowser)
           Sample.creatorState Sample.clock "https://www.youtube.com/shorts/abc"
           {| hostname := "www.youtube.com"; pathname := "/shorts/abc" |}
           false None).
  - vm_compute. reflexivity.
  - reflexivity.
  - reflexivity.
  - reflexivity.
  - vm_compute. reflexivity.
  - vm_compute. reflexivity.
  - vm_compute. reflexivity.
Defined.

Lemma unverified_watch_page_is_blocked_witness :
  Monitor.checkAgainstWorker (browser := plainBrowser) Sample.creatorState Sample.clock
                             "https://www.youtube.com/watch?v=abc" FetchRejected
  = true.
Proof.
  apply (unverified_watch_page_is_blocked (browser := plainBrowser)).
  - vm_compute. reflexivity.
  - reflexivity.
  - vm_compute. reflexivity.
  - vm_compute. reflexivity.
  - reflexivity.
Defined.

Lemma content_script_rests_in_free_time_witness :
  Monitor.checkAgainstWorker (browser := plainBrowser) Sample.inSession Sample.clock
                             "https://www.youtube.com/shorts/abc" FetchRejected
  = false.
Proof.
  apply (content_script_rests_in_free_time (browser := plainBrowser)).
  left. vm_compute. reflexivity.
Defined.

(** The script does not look at the allow-list: a page of YouTube that is
    on it is allowed by the navigation listener and blocked by the script. *)
Example content_script_ignores_the_allow_list :
  shouldBlock (browser := plainBrowser)
              (Sample.paired (Some {| enabled := Some true;
                                      whitelist := Some ["shorts"];
                                      freeTimeStartedAt := None;
                                      freeTimeRemaining := None;
                                      disabledUntil := None;
                                      youtubeCreators := None;
                                      youtubeKeywords := None |})
                             (Some Sample.clock))
              Sample.clock "https://www.youtube.com/shorts/abc" = false
  /\ Monitor.checkAgainstWorker (browser := plainBrowser)
       (Sample.paired (Some {| enabled := Some true;
                               whitelist := Some ["shorts"];
                               freeTimeStartedAt := None;
                               freeTimeRemaining := None;
                               disabledUntil := None;
                               youtubeCreators := None;
                               youtubeKeywords := None |})
                      (Some Sample.clock))
       Sample.clock "https://www.youtube.com/shorts/abc" FetchRejected = true.
Proof. split; vm_compute; reflexivity. Qed.

Lemma positive_session_eq (st : State) (c : Config) (now : Z) :
  config st = Some c ->
  freeTimeStartedAt c = None \/ Js.truthyStr (freeTimeStartedAt c) = true ->
  isFreeTime st now
  = disabledNow c now
    || (match freeTimeStartedAt c with Some _ => true | None => false end
        && Js.positive (getLocalRemainingSeconds st now)).
Proof.
  intros Hc Hs. unfold isFreeTime, getLocalRemainingSeconds. rewrite Hc.
  destruct (disabledNow c now); [reflexivity|]. cbn [orb].
  destruct Hs as [Hs|Hs]; rewrite Hs; [reflexivity|].
  destruct (freeTimeStartedAt c) as [s|]; [|discriminate]. cbn [andb].
  destruct (lastSyncTime st) as [t|]; cbn; [|reflexivity].
  destruct (negb (t =? 0)); cbn; [|reflexivity].
  symmetry. apply positive_floor.
Qed.

(** X23: the popup shows what the worker enforces.  For a client with an
    identity and a snapshot whose session marker is absent or a non-empty
    string, the popup draws the main screen, and its badge says Blocking
    exactly when [isFreeTime] is false, Disabled exactly when a temporary
    disable is running. *)
Theorem popup_badge_matches_enforcement
        (st : State) (c : Config) (now : Z) (allowance : option Q) :
  Js.truthyStr (configId st) = true ->
  config st = Some c ->
  freeTimeStartedAt c = None \/ Js.truthyStr (freeTimeStartedAt c) = true ->
  exists m,
    Popup.render (Some (getState st now)) allowance = Normal (Popup.MainScreen m)
    /\ (Popup.badge m = Popup.Blocking <-> isFreeTime st now = false)
    /\ (Popup.badge m = Popup.Disabled <-> disabledNow c now = true).
Proof.
  intros Hid Hc Hs.
  rewrite (positive_session_eq st c now Hc Hs).
  unfold Popup.render, getState, isTemporarilyDisabled.
  cbn [hasConfig reply_config reply_isTemporarilyDisabled localRemainingSeconds].
  rewrite Hid, Hc. cbn [negb].
  destruct (disabledNow c now).
  - eexists. split; [reflexivity|]. cbn. split; split; try discriminate; reflexivity.
  - cbn [orb].
    destruct (match freeTimeStartedAt c with Some _ => true | None => false end
              && Js.positive (getLocalRemainingSeconds st now)).
    + eexists. split; [reflexivity|]. cbn. split; split; discriminate.
    + destruct (Qeq_bool match allowance with Some a => a | None => 0%Q end 0).
      * eexists. split; [reflexivity|]. cbn. split; split; try discriminate; reflexivity.
      * destruct (Qle_bool (getLocalRemainingSeconds st now) 0);
          eexists; (split; [reflexivity|]); cbn; split; split;
            try discriminate; reflexivity.
Qed.

Lemma popup_badge_matches_enforcement_witness :
  exists m,
    Popup.render (Some (getState Sample.drained Sample.clock)) (Some (3600 # 1))
    = Normal (Popup.MainScreen m)
    /\ (Popup.badge m = Popup.Blocking <-> isFreeTime Sample.drained Sample.clock = false)
    /\ (Popup.badge m = Popup.Disabled
        <-> disabledNow Sample.sessionConfig Sample.clock = true).
Proof.
  apply (popup_badge_matches_enforcement Sample.drained Sample.sessionConfig).
  - reflexivity.
  - reflexivity.
  - right. reflexivity.
Defined.

(** X24: in the half-cleared state, an identity without a snapshot, the
    popup does not get as far as a screen: [render] throws when it reads
    the session marker of the missing configuration. *)
Theorem popup_throws_without_snapshot (st : State) (now : Z) (allowance : option Q) :
  Js.truthyStr (configId st) = true ->
  config st = None ->
  Popup.render (Some (getState st now)) allowance = Throw TypeError.
Proof.
  intros Hid Hc. unfold Popup.render, getState. cbn [hasConfig reply_config].
  rewrite Hid, Hc. reflexivity.
Qed.

Lemma popup_throws_without_snapshot_witness :
  Popup.render (Some (getState Sample.halfCleared Sample.clock)) None = Throw TypeError.
Proof.
  apply (popup_throws_without_snapshot Sample.halfCleared).
  - reflexivity.
  - reflexivity.
Defined.

(* ================================================================= *)
(** ** Properties of the first version of the worker *)

Section LegacyFacts.

Context {browser : Platform}.

Lemma compileRegexes_app (a b : list string) :
  Legacy.compileRegexes (a ++ b)%list
  = (Legacy.compileRegexes a ++ Legacy.compileRegexes b)%list.
Proof.
  induction a as [|p a IH]; cbn; [reflexivity|].
  destruct (RegExp_new p false); cbn; now rewrite IH.
Qed.

(** X25: a pattern of the allow-list that does not compile has no effect at
    all: the verdict of [shouldBlockUrl] is the one of the list without
    it. *)
Theorem broken_pattern_has_no_effect
        (s : Legacy.Settings) (clock : Legacy.Clock) (url p : string)
        (before after : list string) :
  RegExp_new p false = None ->
  Legacy.shouldBlockUrl (Legacy.withWhitelist s (before ++ p :: after)%list) clock url
  = Legacy.shouldBlockUrl (Legacy.withWhitelist s (before ++ after)%list) clock url.
Proof.
  intros Hp. unfold Legacy.shouldBlockUrl, Legacy.withWhitelist. cbn.
  rewrite !compileRegexes_app. cbn. rewrite Hp. reflexivity.
Qed.

(** X26: the manual disable.  After a [disableUntil] message with a time
    other than 0, nothing is blocked before that time, and from that time
    on the verdicts are those of settings without a disable; after the
    message with the time 0 or with none (what the popup sends for "until
    re-enabled") the verdicts are those of settings without a disable at
    every moment. *)
Theorem manual_disable_lasts_until_its_time
        (store : Legacy.Store) (clock : Legacy.Clock) (url : string) (t : Z) :
  let until msg := Legacy.settings (fst (Legacy.onMessage store (Legacy.DisableUntil msg))) in
  let plain := Legacy.withDisabledUntil (Legacy.settings store) 0 in
  (t <> 0 -> Legacy.millis clock < t ->
   Legacy.shouldBlockUrl (until (Some t)) clock url = false)
  /\ (t <= Legacy.millis clock ->
      Legacy.shouldBlockUrl (until (Some t)) clock url
      = Legacy.shouldBlockUrl plain clock url)
  /\ Legacy.shouldBlockUrl (until (Some 0)) clock url
     = Legacy.shouldBlockUrl plain clock url
  /\ Legacy.shouldBlockUrl (until None) clock url
     = Legacy.shouldBlockUrl plain clock url.
Proof.
  cbn zeta. unfold Legacy.shouldBlockUrl, Legacy.withDisabledUntil. cbn.
  repeat split.
  - intros Hnz Hlt. destruct (Legacy.enabled (Legacy.settings store)); [|reflexivity].
    cbn. destruct (Z.eqb_spec t 0) as [E|_]; [contradiction|]. cbn.
    apply Z.ltb_lt in Hlt. now rewrite Hlt.
  - intros Hle. apply Z.ltb_ge in Hle. rewrite Hle, andb_false_r. reflexivity.
Qed.

(** X27: the messages touch one field each.  No message changes the
    password, the allow-list or the schedules; a password check changes
    nothing and answers whether the text given is the password; and two
    [toggleEnabled] messages in a row give back the store as it was. *)
Theorem messages_touch_one_field (store : Legacy.Store) (msg : Legacy.Message)
        (given : string) :
  let store' := fst (Legacy.onMessage store msg) in
  Legacy.password store' = Legacy.password store
  /\ Legacy.whitelist (Legacy.settings store') = Legacy.whitelist (Legacy.settings store)
  /\ Legacy.schedules (Legacy.settings store') = Legacy.schedules (Legacy.settings store)
  /\ Legacy.onMessage store (Legacy.CheckPassword given)
     = (store, Legacy.Ok (given =? Legacy.password store)%string)
  /\ fst (Legacy.onMessage (fst (Legacy.onMessage store Legacy.ToggleEnabled))
                           Legacy.ToggleEnabled) = store.
Proof.
  cbn zeta. repeat split; try (destruct msg; reflexivity).
  destruct store as [[e w s m] pw]. cbn. rewrite negb_involutive. reflexivity.
Qed.

Lemma append_assoc (a b c : string) : ((a ++ b) ++ c = a ++ b ++ c)%string.
Proof. induction a as [|x a IH]; cbn; [reflexivity | now rewrite IH]. Qed.

Lemma handleTab_skips (s : Legacy.Settings) (clock : Legacy.Clock) (tabId : Z)
      (url : string) (changeUrl : option string) :
  Js.includes url "block.html" = true ->
  Legacy.handleTab s clock tabId (Some url) changeUrl = None.
Proof.
  intros Hin. destruct url as [|c url]; [discriminate Hin|].
  unfold Legacy.handleTab. cbn [Js.truthyStr Js.nonempty String.eqb negb].
  rewrite Hin. reflexivity.
Qed.

(** X28: [handleTab] leaves alone every URL that has the text [block.html]
    anywhere in it, whatever the settings; so, when the address of the
    block page has that text, a tab that was redirected is not redirected
    again. *)
Theorem block_page_text_is_never_redirected
        (s s' : Legacy.Settings) (clock clock' : Legacy.Clock) (tabId tabId' : Z)
        (url target : string) (changeUrl changeUrl' : option string) :
  (Js.includes url "block.html" = true ->
   Legacy.handleTab s clock tabId (Some url) changeUrl = None)
  /\ (Js.includes (runtime_getURL "block.html") "block.html" = true ->
      Legacy.handleTab s clock tabId (Some url) changeUrl
      = Some (Redirect tabId target) ->
      Legacy.handleTab s' clock' tabId' (Some target) changeUrl' = None).
Proof.
  split; [apply handleTab_skips|].
  intros Hext Hred. apply handleTab_skips.
  assert (Hc : forall rest, Js.includes (runtime_getURL "block.html" ++ rest)
                                        "block.html" = true).
  { intros rest. apply includes_iff. apply includes_iff in Hext.
    destruct Hext as (a & b & E). exists a, (b ++ rest)%string.
    rewrite E, !append_assoc. reflexivity. }
  unfold Legacy.handleTab in Hred.
  destruct (Js.truthyStr (Some url)).
  - destruct (negb (Js.nonempty url)); [discriminate|].
    destruct (Js.includes url "block.html"); [discriminate|].
    destruct (Legacy.shouldBlockUrl s clock url); [|discriminate].
    inversion Hred. apply Hc.
  - destruct changeUrl as [u|]; [|discriminate].
    destruct (negb (Js.nonempty u)); [discriminate|].
    destruct (Js.includes u "block.html"); [discriminate|].
    destruct (Legacy.shouldBlockUrl s clock u); [|discriminate].
    inversion Hred. apply Hc.
Qed.

End LegacyFacts.

(** A code unit [encodeURIComponent] can write: an unreserved character or
    the percent sign. *)
Lemma encodeUnit_written (c : ascii) :
  Js.allUnits (fun x => Uri.unreserved x || Ascii.eqb x "%") (Uri.encodeUnit c) = true.
Proof. destruct c as [[] [] [] [] [] [] [] []]; reflexivity. Qed.

Lemma written_is_plain (x : ascii) :
  Uri.unreserved x || Ascii.eqb x "%" = true ->
  negb (Ascii.eqb x "&") && negb (Ascii.eqb x "+") = true.
Proof.
  destruct x as [[] [] [] [] [] [] [] []]; vm_compute; intros H;
    try discriminate H; reflexivity.
Qed.

Lemma encodeURIComponent_written (s : string) :
  Js.allUnits (fun x => negb (Ascii.eqb x "&") && negb (Ascii.eqb x "+"))
              (Uri.encodeURIComponent s) = true.
Proof.
  induction s as [|c s IH]; cbn; [reflexivity|].
  rewrite allUnits_app, IH, andb_true_r.
  apply (allUnits_weaken (fun x => Uri.unreserved x || Ascii.eqb x "%")).
  - exact written_is_plain.
  - apply encodeUnit_written.
Qed.

Lemma percentDecode_unit (c : ascii) (rest : string) :
  Legacy.Form.percentDecode (Uri.encodeUnit c ++ rest)
  = (Legacy.Form.utf8Bytes c ++ Legacy.Form.percentDecode rest)%string.
Proof. destruct c as [[] [] [] [] [] [] [] []]; reflexivity. Qed.

Lemma utf8Decode_unit (c : ascii) (bytes : string) :
  Legacy.Form.utf8Decode (Legacy.Form.utf8Bytes c ++ bytes)
  = option_map (String c) (Legacy.Form.utf8Decode bytes).
Proof. destruct c as [[] [] [] [] [] [] [] []]; reflexivity. Qed.

Lemma plusToSpace_plain (s : string) :
  Js.allUnits (fun x => negb (Ascii.eqb x "&") && negb (Ascii.eqb x "+")) s = true ->
  Legacy.Form.plusToSpace s = s.
Proof.
  induction s as [|c s IH]; cbn; [reflexivity|].
  rewrite !andb_true_iff, !negb_true_iff. intros [[_ Hc] Hs].
  now rewrite Hc, (IH Hs).
Qed.

Lemma split_plain (s : string) :
  Js.allUnits (fun x => negb (Ascii.eqb x "&") && negb (Ascii.eqb x "+")) s = true ->
  Legacy.Form.split "&" s = [s].
Proof.
  induction s as [|c s IH]; cbn; [reflexivity|].
  rewrite !andb_true_iff, !negb_true_iff. intros [[Hc _] Hs].
  now rewrite Hc, (IH Hs).
Qed.

Lemma decode_encoded (s : string) :
  Legacy.Form.decode (Uri.encodeURIComponent s) = Some s.
Proof.
  unfold Legacy.Form.decode.
  rewrite (plusToSpace_plain _ (encodeURIComponent_written s)).
  induction s as [|c s IH]; cbn [Uri.encodeURIComponent]; [reflexivity|].
  rewrite percentDecode_unit, utf8Decode_unit, IH. reflexivity.
Qed.

Lemma blocked_parameter_read_back (url : string) :
  Legacy.blockedText ("?blocked=" ++ Uri.encodeURIComponent url) = Some url.
Proof.
  unfold Legacy.blockedText, Legacy.Form.get, Legacy.Form.parse.
  change (Js.replacePrefix ["?"] ("?blocked=" ++ Uri.encodeURIComponent url))
    with ("blocked=" ++ Uri.encodeURIComponent url)%string.
  rewrite split_plain.
  2:{ rewrite allUnits_app, encodeURIComponent_written. reflexivity. }
  cbn [Legacy.Form.parsePairs].
  change (Js.nonempty ("blocked=" ++ Uri.encodeURIComponent url)) with true.
  cbn [negb]. unfold Legacy.Form.parsePair.
  change (Legacy.Form.nameValue ("blocked=" ++ Uri.encodeURIComponent url))
    with ("blocked", Uri.encodeURIComponent url).
  cbn [fst snd]. rewrite decode_encoded.
  change (Legacy.Form.decode "blocked") with (Some "blocked").
  reflexivity.
Qed.

Section BlockPage.

Context {browser : Platform}.

(** X29: the block page shows the URL that was blocked.  When [handleTab]
    blocks the URL of a tab, it sends the tab to the block page with the
    URL in the parameter [blocked], written with [encodeURIComponent]; and
    [block.js] reads that parameter back as the very URL, whatever
    characters it has. *)
Theorem block_page_shows_the_blocked_url
        (s : Legacy.Settings) (clock : Legacy.Clock) (tabId : Z) (url : string)
        (changeUrl : option string) :
  Js.nonempty url = true ->
  Js.includes url "block.html" = false ->
  Legacy.shouldBlockUrl s clock url = true ->
  Legacy.handleTab s clock tabId (Some url) changeUrl
  = Some (Redirect tabId (runtime_getURL "block.html" ++ "?blocked="
                          ++ Uri.encodeURIComponent url))
  /\ Legacy.blockedText ("?blocked=" ++ Uri.encodeURIComponent url) = Some url.
Proof.
  intros Hn Hi Hb. split; [|apply blocked_parameter_read_back].
  unfold Legacy.handleTab. cbn [Js.truthyStr]. rewrite Hn. cbn iota.
  rewrite Hn. cbn [negb]. rewrite Hi, Hb. reflexivity.
Qed.

End BlockPage.

Lemma broken_pattern_has_no_effect_witness :
  Legacy.shouldBlockUrl (browser := plainBrowser)
    (Legacy.withWhitelist Sample.enforcing (["example"] ++ "(" :: ["docs"])%list)
    Sample.mondayNoon "https://other.com/("
  = Legacy.shouldBlockUrl (browser := plainBrowser)
      (Legacy.withWhitelist Sample.enforcing (["example"] ++ ["docs"])%list)
      Sample.mondayNoon "https://other.com/(".
Proof.
  apply (broken_pattern_has_no_effect (browser := plainBrowser)).
  reflexivity.
Defined.

Lemma manual_disable_lasts_until_its_time_witness :
  Legacy.shouldBlockUrl (browser := plainBrowser)
    (Legacy.settings
       (fst (Legacy.onMessage Sample.enforcingStore
                              (Legacy.DisableUntil (Some (Sample.clock + 1000))))))
    Sample.mondayNoon "https://other.com" = false.
Proof.
  apply (proj1 (manual_disable_lasts_until_its_time (browser := plainBrowser)
                  Sample.enforcingStore Sample.mondayNoon "https://other.com"
                  (Sample.clock + 1000))).
  - vm_compute. discriminate.
  - vm_compute. reflexivity.
Defined.

(** The popup's "until re-enabled" sends the time 0: blocking goes on. *)
Example disable_until_reenabled_keeps_blocking :
  Legacy.shouldBlockUrl (browser := plainBrowser)
    (Legacy.settings
       (fst (Legacy.onMessage Sample.enforcingStore (Legacy.DisableUntil (Some 0)))))
    Sample.mondayNoon "https://other.com" = true.
Proof. vm_compute. reflexivity. Qed.

Lemma block_page_text_is_never_redirected_witness :
  Legacy.handleTab (browser := plainBrowser) Sample.enforcing Sample.mondayNoon 7
                   (Some "https://other.com/#block.html") None = None.
Proof.
  apply (proj1 (block_page_text_is_never_redirected (browser := plainBrowser)
                  Sample.enforcing Sample.enforcing Sample.mondayNoon Sample.mondayNoon
                  7 7 "https://other.com/#block.html" "" None None)).
  vm_compute. reflexivity.
Defined.

Lemma block_page_shows_the_blocked_url_witness :
  Legacy.handleTab (browser := plainBrowser) Sample.enforcing Sample.mondayNoon 7
                   (Some "https://other.com/a b?x=1&y=2") None
  = Some (Redirect 7 (runtime_getURL (Platform := plainBrowser) "block.html"
                      ++ "?blocked="
                      ++ Uri.encodeURIComponent "https://other.com/a b?x=1&y=2"))
  /\ Legacy.blockedText ("?blocked="
                         ++ Uri.encodeURIComponent "https://other.com/a b?x=1&y=2")
     = Some "https://other.com/a b?x=1&y=2".
Proof.
  apply (block_page_shows_the_blocked_url (browser := plainBrowser)).
  - reflexivity.
  - vm_compute. reflexivity.
  - vm_compute. reflexivity.
Defined.

Section AllowList.

Context {browser : Platform}.

(** X30: a longer allow-list never blocks more.  When every pattern of the
    allow-list is kept, in whatever order and with whatever patterns added,
    every URL that was allowed is still allowed. *)
Theorem longer_allow_list_never_blocks_more
        (st : State) (c : Config) (patterns longer : list string)
        (now : Z) (url : string) :
  config st = Some c ->
  whitelist c = Some patterns ->
  incl patterns longer ->
  shouldBlock st now url = false ->
  shouldBlock (withConfig st (Some (withAllowList longer c))) now url = false.
Proof.
  intros Hc Hw Hincl. unfold shouldBlock.
  destruct (internalUrl url); [reflexivity|].
  cbn [withConfig configId].
  destruct (negb (Js.truthyStr (configId st))); [discriminate|].
  assert (Hfree : isFreeTime (withConfig st (Some (withAllowList longer c))) now
                  = isFreeTime st now).
  { unfold isFreeTime. rewrite Hc. reflexivity. }
  rewrite Hfree. destruct (isFreeTime st now); [reflexivity|].
  destruct (matchesWhitelist st url) eqn:Hm.
  - intros _. apply matchesWhitelist_elim in Hm.
    destruct Hm as (c' & ps & p & Hc' & Hps & Hin & Hp).
    rewrite Hc in Hc'. inversion Hc'; subst c'.
    rewrite Hw in Hps. inversion Hps; subst ps.
    rewrite (matchesWhitelist_intro _ (withAllowList longer c) longer p url);
      [reflexivity | reflexivity | reflexivity | apply Hincl, Hin | exact Hp].
  - intros H.
    destruct (matchesWhitelist (withConfig st (Some (withAllowList longer c))) url);
      [reflexivity | exact H].
Qed.

End AllowList.

Lemma longer_allow_list_never_blocks_more_witness :
  shouldBlock (browser := plainBrowser)
              (withConfig Sample.listedPaired
                          (Some (withAllowList ["docs"; "example"] Sample.listedConfig)))
              Sample.clock "https://example.com/page" = false.
Proof.
  apply (longer_allow_list_never_blocks_more (browser := plainBrowser)
           Sample.listedPaired Sample.listedConfig ["example"]).
  - reflexivity.
  - reflexivity.
  - intros p [<-|[]]. right. left. reflexivity.
  - vm_compute. reflexivity.
Defined.
